(** * uidecorators: notifying setters, the Qt binding adapter and the
      UI-thread dispatcher

    A shallow embedding of [ui_decorators.py] and [qt_framework.py].

    Python objects live in an explicit [world]: instance attributes, list
    objects (by reference, so that aliasing is visible), the Qt controls and
    the framework's [changing_widgets] list.  Python code is a function
    [world -> outcome], where an outcome is a normal return, a raised
    exception (with the world as the exception left it) or a timeout of the
    model's fuel.  Closures that the program stores (listeners, Qt slots) are
    defunctionalised: one constructor of [callable] per [lambda]/[def] that
    is stored, carrying its captured variables. *)

From Stdlib Require Import ZArith Lia List String Ascii.
From stdpp Require Import base option list gmap strings pretty.

Open Scope string_scope.
Open Scope list_scope.
Open Scope Z_scope.

(** ** Python values, exceptions and the object store *)

Definition oid := nat.        (* identity of a class instance *)
Definition wid := nat.        (* identity of a Qt control *)
Definition loc := positive.   (* identity of a list object *)

Bind Scope nat_scope with oid wid.
Bind Scope positive_scope with loc.

Inductive value :=
| VNone
| VBool (b : bool)
| VInt (z : Z)
| VStr (s : string)
| VList (l : loc).

Inductive exn :=
| TypeError
| ValueError
| AttributeError
| ZeroDivisionError
| IndexError
| KeyError
| UserError (msg : string).

(** Bound methods are captured by reference: the instance and the attribute
    name under which its class holds the function. *)
Record method_ref := MethodRef { im_self : oid; im_name : string }.

(** Every closure the program stores in a list or connects to a signal. *)
Inductive callable :=
| Updater (widget : wid) (func : callable)
    (* [updater] made by [updating_widget(widget, func)] *)
| ChangingSetter (widget : wid) (func : callable)
    (* [setter] made by [widget_changing(widget, func)] *)
| SliderChanged (method : method_ref)
    (* [lambda x, method=method: method(x / method._slider["scale"])] *)
| SliderUpdate (method : method_ref) (widget : wid)
    (* [lambda newv, ...: widget.setValue(newv * method._slider["scale"])] *)
| ButtonClicked (method : method_ref)
    (* [lambda method=method: method()] *)
| ComboChanged (method : method_ref)
    (* [lambda x, method=method: method(method._combobox["options"][x])] *)
| ComboUpdate (method : method_ref) (widget : wid)
    (* [lambda newv, ...: widget.setCurrentIndex(options.index(newv))] *)
| TextEdited (method : method_ref)
    (* [lambda x, method=method: method(x)] *)
| TextUpdate (widget : wid)
    (* [lambda newv, widget=widget: widget.setText(str(newv))] *)
| CheckChanged (method : method_ref)
    (* [lambda x, method=method: method(_checkstate_to_bool(x))] *)
| CheckUpdate (widget : wid)
    (* [lambda newv, widget=widget: widget.setCheckState(...)] *)
| BoundMethod (method : method_ref)
    (* a bound method, [obj.name] *)
| UserFn (n : nat).
    (* any callable supplied by client code *)

Inductive checkstate := Unchecked | PartiallyChecked | Checked.

#[global] Instance value_eq_dec : EqDecision value.
Proof. solve_decision. Defined.
#[global] Instance method_ref_eq_dec : EqDecision method_ref.
Proof. solve_decision. Defined.
#[global] Instance callable_eq_dec : EqDecision callable.
Proof. solve_decision. Defined.
#[global] Instance checkstate_eq_dec : EqDecision checkstate.
Proof. solve_decision. Defined.

(** The state of a Qt control, as far as the adapter reads or writes it. *)
Inductive qwidget :=
| QSlider (minimum maximum val : Z)
| QPushButton (text : string)
| QComboBox (items : list string) (currentIndex : Z)
| QLineEdit (text : string)
| QCheckBox (state : checkstate).

Record world := World {
  attrs : gmap (oid * string) value;   (* instance attributes *)
  lists : gmap loc (list callable);    (* list objects *)
  widgets : gmap wid qwidget;          (* Qt controls *)
  slots : gmap wid callable;           (* slot connected to a control's change signal *)
  changing_widgets : list wid;         (* Framework.changing_widgets *)
  invoked : list (callable * list value);
    (* ghost: listener calls made by notification loops, oldest first *)
  called : list (string * oid * list value);
    (* ghost: calls a notifying setter made to the function it wraps *)
  stdout : list string                 (* output of [print] *)
}.

Definition empty_world : world :=
  World ∅ ∅ ∅ ∅ [] [] [] [].

Definition set_attrs (f : gmap (oid * string) value -> gmap (oid * string) value) (w : world) : world :=
  World (f (attrs w)) (lists w) (widgets w) (slots w) (changing_widgets w) (invoked w) (called w) (stdout w).
Definition set_lists (f : gmap loc (list callable) -> gmap loc (list callable)) (w : world) : world :=
  World (attrs w) (f (lists w)) (widgets w) (slots w) (changing_widgets w) (invoked w) (called w) (stdout w).
Definition set_widgets (f : gmap wid qwidget -> gmap wid qwidget) (w : world) : world :=
  World (attrs w) (lists w) (f (widgets w)) (slots w) (changing_widgets w) (invoked w) (called w) (stdout w).
Definition set_slots (f : gmap wid callable -> gmap wid callable) (w : world) : world :=
  World (attrs w) (lists w) (widgets w) (f (slots w)) (changing_widgets w) (invoked w) (called w) (stdout w).
Definition set_changing (f : list wid -> list wid) (w : world) : world :=
  World (attrs w) (lists w) (widgets w) (slots w) (f (changing_widgets w)) (invoked w) (called w) (stdout w).
Definition set_invoked (f : list (callable * list value) -> list (callable * list value)) (w : world) : world :=
  World (attrs w) (lists w) (widgets w) (slots w) (changing_widgets w) (f (invoked w)) (called w) (stdout w).
Definition set_called (f : list (string * oid * list value) -> list (string * oid * list value)) (w : world) : world :=
  World (attrs w) (lists w) (widgets w) (slots w) (changing_widgets w) (invoked w) (f (called w)) (stdout w).
Definition set_stdout (f : list string -> list string) (w : world) : world :=
  World (attrs w) (lists w) (widgets w) (slots w) (changing_widgets w) (invoked w) (called w) (f (stdout w)).

(** ** Computations *)

Inductive outcome (A : Type) :=
| Ok (a : A) (w : world)
| Raise (e : exn) (w : world)
| Timeout.
Arguments Ok {A} a w.
Arguments Raise {A} e w.
Arguments Timeout {A}.

Definition M (A : Type) := world -> outcome A.

Definition ret {A} (a : A) : M A := fun w => Ok a w.
Definition raise {A} (e : exn) : M A := fun w => Raise e w.
Definition bind {A B} (m : M A) (k : A -> M B) : M B :=
  fun w => match m w with
           | Ok a w' => k a w'
           | Raise e w' => Raise e w'
           | Timeout => Timeout
           end.
Definition modify (f : world -> world) : M unit := fun w => Ok tt (f w).
Definition gets {A} (f : world -> A) : M A := fun w => Ok (f w) w.

Declare Scope py_scope.
Delimit Scope py_scope with py.
Notation "x <- m ;; k" := (bind m (fun x => k))
  (at level 100, m at next level, right associativity) : py_scope.
Notation "m ;;; k" := (bind m (fun _ => k))
  (at level 100, right associativity) : py_scope.
Open Scope py_scope.

(** [try: body finally: fin].  An exception raised by [fin] replaces the
    one in flight. *)
Definition try_finally {A} (body : M A) (fin : M unit) : M A :=
  fun w => match body w with
           | Ok a w1 =>
               match fin w1 with
               | Ok _ w2 => Ok a w2
               | Raise e w2 => Raise e w2
               | Timeout => Timeout
               end
           | Raise e w1 =>
               match fin w1 with
               | Ok _ w2 => Raise e w2
               | Raise e' w2 => Raise e' w2
               | Timeout => Timeout
               end
           | Timeout => Timeout
           end.

(** The world an outcome ends in, when it ends. *)
Definition final {A} (o : outcome A) : option world :=
  match o with
  | Ok _ w => Some w
  | Raise _ w => Some w
  | Timeout => None
  end.

(** ** Python primitives *)

Definition print (s : string) : M unit := modify (set_stdout (fun o => o ++ [s])).

(** [int] view of a value: [bool] is a subclass of [int]. *)
Definition as_int (v : value) : option Z :=
  match v with
  | VInt z => Some z
  | VBool true => Some 1
  | VBool false => Some 0
  | _ => None
  end.

(** [a == b] *)
Definition py_eq (a b : value) : bool :=
  match as_int a, as_int b with
  | Some x, Some y => bool_decide (x = y)
  | _, _ =>
      match a, b with
      | VNone, VNone => true
      | VStr s, VStr t => bool_decide (s = t)
      | VList l, VList l' => bool_decide (l = l')
      | _, _ => false
      end
  end.

(** [str(v)] *)
Definition py_str (v : value) : string :=
  match v with
  | VNone => "None"
  | VBool true => "True"
  | VBool false => "False"
  | VInt z => pretty z
  | VStr s => s
  | VList _ => "[...]"
  end.

(** [l.index(v)]: position of the first element equal to [v]. *)
Fixpoint py_index (l : list value) (v : value) : option nat :=
  match l with
  | [] => None
  | x :: l' => if py_eq x v then Some O else S <$> py_index l' v
  end.

(** [l[i]] for an index of either sign. *)
Definition py_getitem {A} (l : list A) (i : Z) : option A :=
  if 0 <=? i then l !! Z.to_nat i
  else if - Z.of_nat (length l) <=? i then l !! Z.to_nat (Z.of_nat (length l) + i)
  else None.

(** [l.remove(x)]: drop the first occurrence, [None] when there is none. *)
Fixpoint list_remove (x : wid) (l : list wid) : option (list wid) :=
  match l with
  | [] => None
  | y :: l' => if bool_decide (y = x) then Some l' else cons y <$> list_remove x l'
  end.

Definition getattr (self : oid) (name : string) : M (option value) :=
  gets (fun w => attrs w !! (self, name)).
Definition setattr (self : oid) (name : string) (v : value) : M unit :=
  modify (set_attrs <[(self, name) := v]>).

(** [[]]: a new, empty list object. *)
Definition new_list : M loc :=
  fun w => let l := fresh (dom (lists w)) in Ok l (set_lists <[l := []]> w).

(** [lst.append(c)] *)
Definition list_append (lst : value) (c : callable) : M unit :=
  match lst with
  | VList l =>
      fun w => match lists w !! l with
               | Some cs => Ok tt (set_lists <[l := cs ++ [c]]> w)
               | None => Raise AttributeError w
               end
  | _ => raise AttributeError
  end.

(** [a / b] on Python 2 integers: floor division. *)
Definition py_div (a b : value) : M value :=
  match as_int a, as_int b with
  | Some x, Some y => if bool_decide (y = 0) then raise ZeroDivisionError else ret (VInt (x / y))
  | _, _ => raise TypeError
  end.

Fixpoint str_repeat (n : nat) (s : string) : string :=
  match n with
  | O => EmptyString
  | S n' => s +:+ str_repeat n' s
  end.

(** [a * b]: product of integers, repetition of a string or of a list. *)
Definition py_mul (a b : value) : M value :=
  match as_int a, as_int b with
  | Some x, Some y => ret (VInt (x * y))
  | _, _ =>
      match a, as_int b, as_int a, b with
      | VStr s, Some n, _, _ => ret (VStr (str_repeat (Z.to_nat n) s))
      | _, _, Some n, VStr s => ret (VStr (str_repeat (Z.to_nat n) s))
      | VList l, Some n, _, _ =>
          fun w => match lists w !! l with
                   | Some cs =>
                       let l' := fresh (dom (lists w)) in
                       Ok (VList l') (set_lists <[l' := mjoin (replicate (Z.to_nat n) cs)]> w)
                   | None => Raise TypeError w
                   end
      | _, _, _, _ => raise TypeError
      end
  end.

(** Truth value of an object in a condition. *)
Definition truthy (v : value) : bool :=
  match v with
  | VNone => false
  | VBool b => b
  | VInt z => negb (bool_decide (z = 0))
  | VStr s => negb (bool_decide (s = EmptyString))
  | VList _ => true
  end.

(** ** ui_decorators.py *)

(** A value stored in a metadata dict. *)
Inductive propval :=
| PVal (v : value)
| POptions (l : list value)
| PFunc (f : oid -> M value).

(** An attribute of a function object. *)
Inductive attrval :=
| ADict (d : gmap string propval)
    (* a metadata dict: [_slider], [_combobox], ... *)
| AGetListeners (listener_list_name name : string).
    (* the closure [get_listeners] with the two names it holds *)

Record pyfunc := PyFunc {
  fn_name : string;                         (* __name__ *)
  fn_dict : gmap string attrval;            (* __dict__ *)
  fn_call : oid -> list value -> M value    (* f(self, args) *)
}.

(** [functools.wraps(wrapped)(wrapper)]: the wrapper takes the name of the
    wrapped function and its [__dict__] is updated with the wrapped one's. *)
Definition wraps (wrapped wrapper : pyfunc) : pyfunc :=
  PyFunc (fn_name wrapped) (fn_dict wrapped ∪ fn_dict wrapper) (fn_call wrapper).

(** [metadata(name, props)(func)] *)
Definition metadata (name : string) (props : attrval) (func : pyfunc) : pyfunc :=
  let wrapped_metadata :=
    wraps func (PyFunc "wrapped_metadata" ∅ (fun self args => fn_call func self args)) in
  PyFunc (fn_name wrapped_metadata)
         (<[name := props]> (fn_dict wrapped_metadata))
         (fn_call wrapped_metadata).

(** [button(func)] *)
Definition button (func : pyfunc) : pyfunc :=
  let w_func := wraps func (PyFunc "w_func" ∅ (fun self args => fn_call func self args)) in
  metadata "_button" (ADict ∅) w_func.

(** ["_{}_listeners".format(func.__name__)] *)
Definition listener_list_name (func : pyfunc) : string :=
  "_" +:+ fn_name func +:+ "_listeners".

(** [get_listeners(self)].  [getattr] is looked up in the instance's own
    attributes; attributes of its class are not modelled. *)
Definition get_listeners (listener_list_name name : string) (self : oid) : M value :=
  listeners <- getattr self listener_list_name ;;
  match listeners with
  | Some VNone | None =>
      l <- new_list ;;
      setattr self name (VList l) ;;;
      ret (VList l)
  | Some listeners => ret listeners
  end.

(** [for l in it: body(l)] over a list object.  The iterator holds the list
    by reference and an index, and reads the list anew at every step. *)
Fixpoint for_in (fuel : nat) (it : loc) (i : nat) (body : callable -> M unit) : M unit :=
  match fuel with
  | O => fun _ => Timeout
  | S fuel' =>
      fun w => match lists w !! it with
               | Some cs =>
                   match cs !! i with
                   | Some c => bind (body c) (fun _ => for_in fuel' it (S i) body) w
                   | None => Ok tt w
                   end
               | None => Raise TypeError w
               end
  end.

Section Runtime.

(** Calling a stored closure, [c(args)]. *)
Variable call : callable -> list value -> M value.
(** Bound on the iterations of one notification loop. *)
Variable fuel : nat.
(** [getattr(obj, name)] for a method of the object's class. *)
Variable lookup_method : method_ref -> option pyfunc.

(** The loop of [newfunc].  A string can stand where the list is expected:
    the empty one gives no iteration, and an element of any other is a
    string, which cannot be called. *)
Definition for_listeners (it : value) (body : callable -> M unit) : M unit :=
  match it with
  | VList l => for_in fuel l 0 body
  | VStr s => if bool_decide (s = EmptyString) then ret tt else raise TypeError
  | _ => raise TypeError
  end.

(** [newfunc(self, args)] of [notifying_setter(func)].  The two ghost
    logs record the call of [func] and each call of a listener. *)
Definition newfunc (func : pyfunc) (self : oid) (args : list value) : M value :=
  modify (set_called (fun l => l ++ [(fn_name func, self, args)])) ;;;
  r <- fn_call func self args ;;
  ls <- get_listeners (listener_list_name func) (listener_list_name func) self ;;
  for_listeners ls (fun l =>
    match r with
    | VNone =>
        modify (set_invoked (fun i => i ++ [(l, args)])) ;;;
        call l args ;;; ret tt
    | _ =>
        modify (set_invoked (fun i => i ++ [(l, [r])])) ;;;
        call l [r] ;;; ret tt
    end) ;;;
  ret r.

(** [notifying_setter(func)] *)
Definition notifying_setter (func : pyfunc) : pyfunc :=
  let name := listener_list_name func in
  metadata "listeners" (AGetListeners name name)
           (wraps func (PyFunc "newfunc" ∅ (newfunc func))).

Definition getfunc_prop (getfunc : option (oid -> M value)) : propval :=
  match getfunc with
  | Some g => PFunc g
  | None => PVal VNone
  end.

(** [slider(getfunc, minimum, maximum, scale)(func)] *)
Definition slider (getfunc : option (oid -> M value)) (minimum maximum scale : value)
    (func : pyfunc) : pyfunc :=
  let w_func := wraps func (PyFunc "w_func" ∅ (fun self args => fn_call func self args)) in
  metadata "_slider"
    (ADict (<["minimum" := PVal minimum]> (<["maximum" := PVal maximum]>
            (<["scale" := PVal scale]> (<["getfunc" := getfunc_prop getfunc]> ∅)))))
    (notifying_setter w_func).

(** [combobox(options, getfunc)(func)] *)
Definition combobox (options : list value) (getfunc : option (oid -> M value))
    (func : pyfunc) : pyfunc :=
  let w_func := wraps func (PyFunc "w_func" ∅ (fun self args => fn_call func self args)) in
  metadata "_combobox"
    (ADict (<["getfunc" := getfunc_prop getfunc]> (<["options" := POptions options]> ∅)))
    (notifying_setter w_func).

(** [checkbox(getfunc)(func)] *)
Definition checkbox (getfunc : option (oid -> M value)) (func : pyfunc) : pyfunc :=
  let w_func := wraps func (PyFunc "w_func" ∅ (fun self args => fn_call func self args)) in
  metadata "_checkbox" (ADict (<["getfunc" := getfunc_prop getfunc]> ∅))
    (notifying_setter w_func).

(** [textbox(getfunc)(func)] *)
Definition textbox (getfunc : option (oid -> M value)) (func : pyfunc) : pyfunc :=
  let w_func := wraps func (PyFunc "w_func" ∅ (fun self args => fn_call func self args)) in
  metadata "_textbox" (ADict (<["getfunc" := getfunc_prop getfunc]> ∅))
    (notifying_setter w_func).

End Runtime.

(** ** qt_framework.py *)

(** [_bool_to_checkstate(b)] for a hashable [b]: the dict is keyed by
    [True], [False] and [None]; [1] and [0] hash and compare as [True] and
    [False].  For a list, which cannot be hashed, [dict.get] raises
    [TypeError]: see [bool_to_checkstate], which the adapter's lambda uses. *)
Definition _bool_to_checkstate (b : value) : checkstate :=
  match as_int b with
  | Some 1 => Checked
  | Some 0 => Unchecked
  | _ => PartiallyChecked
  end.

(** The call [_bool_to_checkstate(b)], with the [TypeError] of [dict.get]
    on an unhashable key. *)
Definition bool_to_checkstate (b : value) : M checkstate :=
  match b with
  | VList _ => raise TypeError
  | _ => ret (_bool_to_checkstate b)
  end.

(** [_checkstate_to_bool(cs)] *)
Definition _checkstate_to_bool (cs : checkstate) : value :=
  match cs with
  | Checked => VBool true
  | Unchecked => VBool false
  | PartiallyChecked => VNone
  end.

(** Qt's integer for a check state, as the [stateChanged] signal carries it. *)
Definition checkstate_int (cs : checkstate) : Z :=
  match cs with
  | Unchecked => 0
  | PartiallyChecked => 1
  | Checked => 2
  end.

Definition int_checkstate (z : Z) : option checkstate :=
  match z with
  | 0 => Some Unchecked
  | 1 => Some PartiallyChecked
  | 2 => Some Checked
  | _ => None
  end.

(** [self.changing_widgets.append(widget)] *)
Definition changing_append (widget : wid) : M unit :=
  modify (set_changing (fun l => l ++ [widget])).

(** [self.changing_widgets.remove(widget)] *)
Definition changing_remove (widget : wid) : M unit :=
  fun w => match list_remove widget (changing_widgets w) with
           | Some l => Ok tt (set_changing (fun _ => l) w)
           | None => Raise ValueError w
           end.

(** [widget_changing(widget, func)], the closure [setter] *)
Definition widget_changing (widget : wid) (func : list value -> M value)
    : list value -> M value :=
  fun args =>
    changing_append widget ;;;
    try_finally (func args) (changing_remove widget).

(** [updating_widget(widget, func)], the closure [updater] *)
Definition updating_widget (widget : wid) (func : list value -> M value)
    : list value -> M value :=
  fun args =>
    cw <- gets changing_widgets ;;
    if bool_decide (widget ∈ cw) then ret VNone else func args.

(** *** The Qt controls

    What the adapter relies on from the toolkit: a setter that changes the
    control's value emits the control's change signal, which calls the
    connected slot at once; an exception the slot raises is reported by the
    binding and does not reach the emitter. *)

Definition new_widget (q : qwidget) : M wid :=
  fun w => let i := fresh (dom (widgets w)) in Ok i (set_widgets <[i := q]> w).

Definition connect (widget : wid) (slot : callable) : M unit :=
  modify (set_slots <[widget := slot]>).

Definition qBound (mn v mx : Z) : Z := Z.max mn (Z.min mx v).

Section Qt.

Variable call : callable -> list value -> M value.

Definition emit (widget : wid) (v : value) : M unit :=
  fun w => match slots w !! widget with
           | Some slot =>
               match call slot [v] w with
               | Ok _ w' => Ok tt w'
               | Raise _ w' => Ok tt w'
               | Timeout => Timeout
               end
           | None => Ok tt w
           end.

(** [QAbstractSlider::setValue] *)
Definition slider_set (widget : wid) (z : Z) : M unit :=
  fun w => match widgets w !! widget with
           | Some (QSlider mn mx old) =>
               let new := qBound mn z mx in
               if bool_decide (new = old) then Ok tt w
               else emit widget (VInt new)
                      (set_widgets <[widget := QSlider mn mx new]> w)
           | _ => Raise AttributeError w
           end.

Definition setValue (widget : wid) (v : value) : M unit :=
  match as_int v with
  | Some z => slider_set widget z
  | None => raise TypeError
  end.

(** [QAbstractSlider::setRange] *)
Definition setRange (widget : wid) (mn mx : Z) : M unit :=
  fun w => match widgets w !! widget with
           | Some (QSlider _ _ old) =>
               slider_set widget old
                 (set_widgets <[widget := QSlider mn (Z.max mn mx) old]> w)
           | _ => Raise AttributeError w
           end.

Definition slider_range (widget : wid) : M (Z * Z) :=
  fun w => match widgets w !! widget with
           | Some (QSlider mn mx _) => Ok (mn, mx) w
           | _ => Raise AttributeError w
           end.

Definition setMaximum (widget : wid) (v : value) : M unit :=
  match as_int v with
  | Some mx =>
      r <- slider_range widget ;;
      setRange widget (Z.min (fst r) mx) mx
  | None => raise TypeError
  end.

Definition setMinimum (widget : wid) (v : value) : M unit :=
  match as_int v with
  | Some mn =>
      r <- slider_range widget ;;
      setRange widget mn (Z.max (snd r) mn)
  | None => raise TypeError
  end.

(** [QComboBox::setCurrentIndex]: an index outside the items clears the
    selection. *)
Definition setCurrentIndex (widget : wid) (i : Z) : M unit :=
  fun w => match widgets w !! widget with
           | Some (QComboBox items old) =>
               let new := if (0 <=? i) && (i <? Z.of_nat (length items)) then i else -1 in
               if bool_decide (new = old) then Ok tt w
               else emit widget (VInt new)
                      (set_widgets <[widget := QComboBox items new]> w)
           | _ => Raise AttributeError w
           end.

(** [QComboBox::addItems]: the first items added select index 0. *)
Definition addItems (widget : wid) (texts : list string) : M unit :=
  fun w => match widgets w !! widget with
           | Some (QComboBox items old) =>
               let w' := set_widgets <[widget := QComboBox (items ++ texts) old]> w in
               match items, texts with
               | [], _ :: _ => setCurrentIndex widget 0 w'
               | _, _ => Ok tt w'
               end
           | _ => Raise AttributeError w
           end.

(** [QLineEdit::setText]: emits [textChanged], never [textEdited], the
    signal the adapter connects. *)
Definition setText (widget : wid) (s : string) : M unit :=
  fun w => match widgets w !! widget with
           | Some (QLineEdit _) => Ok tt (set_widgets <[widget := QLineEdit s]> w)
           | _ => Raise AttributeError w
           end.

(** [QCheckBox::setCheckState] *)
Definition setCheckState (widget : wid) (cs : checkstate) : M unit :=
  fun w => match widgets w !! widget with
           | Some (QCheckBox old) =>
               if bool_decide (cs = old) then Ok tt w
               else emit widget (VInt (checkstate_int cs))
                      (set_widgets <[widget := QCheckBox cs]> w)
           | _ => Raise AttributeError w
           end.

End Qt.

(** [d[key]] for a metadata dict, where a plain value is expected. *)
Definition prop_value (d : gmap string propval) (key : string) : M value :=
  match d !! key with
  | Some (PVal v) => ret v
  | Some _ => raise TypeError
  | None => raise KeyError
  end.

(** [d["options"]] *)
Definition prop_options (d : gmap string propval) : M (list value) :=
  match d !! "options" with
  | Some (POptions l) => ret l
  | Some _ => raise TypeError
  | None => raise KeyError
  end.

(** [method.<kind>], a metadata dict of the function behind the method. *)
Definition meta (func : pyfunc) (kind : string) : M (gmap string propval) :=
  match fn_dict func !! kind with
  | Some (ADict d) => ret d
  | Some _ => raise TypeError
  | None => raise AttributeError
  end.

Section Adapter.

Variable call : callable -> list value -> M value.
Variable lookup_method : method_ref -> option pyfunc.
(** Behaviour of the callables of client code. *)
Variable user : nat -> list value -> M value.

(** [method(args)] for a captured bound method. *)
Definition call_method (method : method_ref) (args : list value) : M value :=
  match lookup_method method with
  | Some f => fn_call f (im_self method) args
  | None => raise AttributeError
  end.

Definition method_meta (method : method_ref) (kind : string) : M (gmap string propval) :=
  match lookup_method method with
  | Some f => meta f kind
  | None => raise AttributeError
  end.

(** [lambda x, method=method: method(x / method._slider["scale"])] *)
Definition slider_changed (method : method_ref) (x : value) : M value :=
  d <- method_meta method "_slider" ;;
  scale <- prop_value d "scale" ;;
  q <- py_div x scale ;;
  call_method method [q].

(** [lambda newv, method=method, widget=widget:
       widget.setValue(newv * method._slider["scale"])] *)
Definition slider_update (method : method_ref) (widget : wid) (newv : value) : M value :=
  d <- method_meta method "_slider" ;;
  scale <- prop_value d "scale" ;;
  p <- py_mul newv scale ;;
  setValue call widget p ;;;
  ret VNone.

(** [lambda x, method=method: method(method._combobox["options"][x])] *)
Definition combo_changed (method : method_ref) (x : value) : M value :=
  d <- method_meta method "_combobox" ;;
  options <- prop_options d ;;
  match as_int x with
  | Some i =>
      match py_getitem options i with
      | Some o => call_method method [o]
      | None => raise IndexError
      end
  | None => raise TypeError
  end.

(** [lambda newv, method=method, widget=widget:
       widget.setCurrentIndex(method._combobox["options"].index(newv))] *)
Definition combo_update (method : method_ref) (widget : wid) (newv : value) : M value :=
  d <- method_meta method "_combobox" ;;
  options <- prop_options d ;;
  match py_index options newv with
  | Some i => setCurrentIndex call widget (Z.of_nat i) ;;; ret VNone
  | None => raise ValueError
  end.

(** [lambda newv, widget=widget: widget.setText(str(newv))] *)
Definition text_update (widget : wid) (newv : value) : M value :=
  setText widget (py_str newv) ;;; ret VNone.

(** [lambda x, method=method: method(_checkstate_to_bool(x))] *)
Definition check_changed (method : method_ref) (x : value) : M value :=
  call_method method
    [match as_int x ≫= int_checkstate with
     | Some cs => _checkstate_to_bool cs
     | None => VNone
     end].

(** [lambda newv, widget=widget: widget.setCheckState(_bool_to_checkstate(newv))] *)
Definition check_update (widget : wid) (newv : value) : M value :=
  cs <- bool_to_checkstate newv ;;
  setCheckState call widget cs ;;;
  ret VNone.

(** The code behind each stored closure.  The closures of one parameter are
    only ever called with one argument, by a signal or by a notification
    loop; any other call is a [TypeError] here. *)
Definition interp (c : callable) (args : list value) : M value :=
  match c, args with
  | Updater widget func, _ => updating_widget widget (call func) args
  | ChangingSetter widget func, _ => widget_changing widget (call func) args
  | SliderChanged method, [x] => slider_changed method x
  | SliderUpdate method widget, [newv] => slider_update method widget newv
  | ButtonClicked method, [] => call_method method []
  | ComboChanged method, [x] => combo_changed method x
  | ComboUpdate method widget, [newv] => combo_update method widget newv
  | TextEdited method, [x] => call_method method [x]
  | TextUpdate widget, [newv] => text_update widget newv
  | CheckChanged method, [x] => check_changed method x
  | CheckUpdate widget, [newv] => check_update widget newv
  | BoundMethod method, _ => call_method method args
  | UserFn n, _ => user n args
  | _, _ => raise TypeError
  end.

(** [add_widget(name, widget, found_attr, update_widget)], which returns
    here the pair it appends to [ret]. *)
Definition add_widget (method : method_ref) (func : pyfunc) (name : option string)
    (widget : wid) (found_attr : gmap string propval) (update_widget : option callable)
    : M (string * wid) :=
  let listenerfunc := fn_dict func !! "listeners" in
  let method_name := fn_name func in
  let name := default method_name name in
  match update_widget with
  | Some update_widget =>
      let update_widget := Updater widget update_widget in
      match listenerfunc with
      | Some (AGetListeners lname name') =>
          ls <- get_listeners lname name' (im_self method) ;;
          list_append ls update_widget
      | Some (ADict _) => raise TypeError
      | None => ret tt
      end ;;;
      match found_attr !! "getfunc" with
      | Some (PFunc getfunc) =>
          curval <- getfunc (im_self method) ;;
          call update_widget [curval] ;;;
          ret tt
      | Some (PVal v) => if truthy v then raise TypeError else ret tt
      | Some (POptions l) => if bool_decide (l = []) then ret tt else raise TypeError
      | None => ret tt
      end
  | None => ret tt
  end ;;;
  ret (name, widget).

(** One [if hasattr(method, kind):] block of [get_widgets_for_method]. *)
Definition if_hasattr (func : pyfunc) (kind : string)
    (block : gmap string propval -> M (string * wid)) : M (list (string * wid)) :=
  match fn_dict func !! kind with
  | Some (ADict d) => r <- block d ;; ret [r]
  | Some _ => raise TypeError
  | None => ret []
  end.

(** [Framework.get_widgets_for_method(method)] *)
Definition get_widgets_for_method (method : method_ref) : M (list (string * wid)) :=
  match lookup_method method with
  | None => raise AttributeError
  | Some func =>
      r1 <- if_hasattr func "_slider" (fun d =>
              widget <- new_widget (QSlider 0 99 0) ;;
              mx <- prop_value d "maximum" ;;
              setMaximum call widget mx ;;;
              mn <- prop_value d "minimum" ;;
              setMinimum call widget mn ;;;
              connect widget (ChangingSetter widget (SliderChanged method)) ;;;
              add_widget method func None widget d (Some (SliderUpdate method widget))) ;;
      r2 <- if_hasattr func "_button" (fun d =>
              widget <- new_widget (QPushButton (fn_name func)) ;;
              connect widget (ButtonClicked method) ;;;
              add_widget method func (Some EmptyString) widget d None) ;;
      r3 <- if_hasattr func "_combobox" (fun d =>
              widget <- new_widget (QComboBox [] (-1)) ;;
              options <- prop_options d ;;
              addItems call widget (map py_str options) ;;;
              connect widget (ChangingSetter widget (ComboChanged method)) ;;;
              add_widget method func None widget d (Some (ComboUpdate method widget))) ;;
      r4 <- if_hasattr func "_textbox" (fun d =>
              widget <- new_widget (QLineEdit EmptyString) ;;
              connect widget (ChangingSetter widget (TextEdited method)) ;;;
              add_widget method func None widget d (Some (TextUpdate widget))) ;;
      r5 <- if_hasattr func "_checkbox" (fun d =>
              widget <- new_widget (QCheckBox Unchecked) ;;
              connect widget (ChangingSetter widget (CheckChanged method)) ;;;
              add_widget method func None widget d (Some (CheckUpdate widget))) ;;
      ret (r1 ++ r2 ++ r3 ++ r4 ++ r5)
  end.

End Adapter.

(** ** A whole program

    A program gives the class of every instance (its methods, built with
    the decorators above) and the callables of client code.  Both may call
    closures back, so they take the calling function and the bound of the
    notification loops. *)
Record program := Program {
  classes : (callable -> list value -> M value) -> nat -> method_ref -> option pyfunc;
  client : (callable -> list value -> M value) -> nat -> list value -> M value
}.

(** Calling a closure, to a depth of [n] nested calls. *)
Fixpoint call_depth (P : program) (n : nat) (c : callable) (args : list value) : M value :=
  match n with
  | O => fun _ => Timeout
  | S n' => interp (call_depth P n') (classes P (call_depth P n') n') (client P (call_depth P n')) c args
  end.

(** The user moves a slider to [pos]: Qt sets the value and emits the
    change signal. *)
Definition user_drag (P : program) (n : nat) (widget : wid) (pos : Z) : M unit :=
  slider_set (call_depth P n) widget pos.

(** ** The classes of the source's own examples *)

Module Demo.

(** [int(v)] for integers and for decimal strings: blanks around the
    number are dropped, and one sign may stand before the digits. *)
Fixpoint parse_digits (s : string) (acc : Z) : option Z :=
  match s with
  | EmptyString => Some acc
  | String c s' =>
      let n := Z.of_nat (nat_of_ascii c) in
      if (48 <=? n) && (n <=? 57) then parse_digits s' (10 * acc + (n - 48)) else None
  end.

Definition is_space (c : ascii) : bool :=
  let n := Z.of_nat (nat_of_ascii c) in
  (n =? 32) || ((9 <=? n) && (n <=? 13)).

Fixpoint lstrip (s : string) : string :=
  match s with
  | String c s' => if is_space c then lstrip s' else s
  | EmptyString => EmptyString
  end.

Fixpoint rstrip (s : string) : string :=
  match s with
  | EmptyString => EmptyString
  | String c s' =>
      match rstrip s' with
      | EmptyString => if is_space c then EmptyString else String c EmptyString
      | t => String c t
      end
  end.

Definition parse_int (s : string) : option Z :=
  match rstrip (lstrip s) with
  | String "-" (String c t) => option_map Z.opp (parse_digits (String c t) 0)
  | String "+" (String c t) => parse_digits (String c t) 0
  | String c t => parse_digits (String c t) 0
  | EmptyString => None
  end.

Definition py_int (v : value) : M value :=
  match v with
  | VInt z => ret (VInt z)
  | VBool b => ret (VInt (if b then 1 else 0))
  | VStr s =>
      match parse_int s with
      | Some z => ret (VInt z)
      | None => raise ValueError
      end
  | _ => raise TypeError
  end.

(** [return self.<name>] *)
Definition read_attr (self : oid) (name : string) : M value :=
  v <- getattr self name ;;
  match v with
  | Some v => ret v
  | None => raise AttributeError
  end.

(** Class [A] of the docstring of [notifying_setter]. *)
Definition set_val : pyfunc :=
  PyFunc "set_val" ∅ (fun self args =>
    match args with
    | [val] =>
        setattr self "val" val ;;;
        print ("val set to  " +:+ py_str val) ;;;
        ret VNone
    | _ => raise TypeError
    end).

Definition set_val2 : pyfunc :=
  PyFunc "set_val2" ∅ (fun self args =>
    match args with
    | [val] =>
        val <- py_int val ;;
        setattr self "val2" val ;;;
        print ("val2 set to  " +:+ py_str val) ;;;
        ret val
    | _ => raise TypeError
    end).

(** Class [Test] of the main block of [ui_decorators.py]. *)
Definition get_test (self : oid) : M value :=
  v <- read_attr self "value" ;;
  print ("Getting as " +:+ py_str v) ;;;
  ret v.

Definition test : pyfunc :=
  PyFunc "test" ∅ (fun self args =>
    match args with
    | [newval] =>
        print ("Setting to " +:+ py_str newval) ;;;
        setattr self "value" newval ;;;
        ret VNone
    | _ => raise TypeError
    end).

Definition get_combo (self : oid) : M value :=
  print "Getting Yes" ;;;
  read_attr self "optionval".

Definition combo : pyfunc :=
  PyFunc "combo" ∅ (fun self args =>
    match args with
    | [t] =>
        print ("setting combo to " +:+ py_str t) ;;;
        setattr self "optionval" t ;;;
        ret VNone
    | _ => raise TypeError
    end).

Definition get_name (self : oid) : M value := read_attr self "textval".

Definition name : pyfunc :=
  PyFunc "name" ∅ (fun self args =>
    match args with
    | [val] =>
        print ("setting name to " +:+ py_str val) ;;;
        setattr self "textval" val ;;;
        ret VNone
    | _ => raise TypeError
    end).

Section Classes.

Variable call : callable -> list value -> M value.
Variable fuel : nat.

Definition test2 : pyfunc :=
  PyFunc "test2" ∅ (fun self args =>
    match args with
    | [newval] => call (BoundMethod (MethodRef self "test")) [newval] ;;; ret VNone
    | _ => raise TypeError
    end).

(** [set_val2] under two stacked decorators, as [Test.height] is:
    [@slider() @textbox() def set_val2]. *)
Definition stacked : pyfunc :=
  slider call fuel None (VInt 0) (VInt 100) (VInt 1) (textbox call fuel None set_val2).

(** The methods of the two classes, decorated as in the source. *)
Definition methods (m : method_ref) : option pyfunc :=
  match im_name m with
  | "set_val" => Some (notifying_setter call fuel set_val)
  | "set_val2" => Some (notifying_setter call fuel set_val2)
  | "stacked" => Some stacked
  | "test" =>
      Some (slider call fuel (Some get_test) (VInt 0) (VInt 100) (VInt 1) test)
  | "test2" =>
      Some (slider call fuel (Some get_test) (VInt 0) (VInt 100) (VInt 1) test2)
  | "combo" =>
      Some (combobox call fuel [VStr "Yes"; VStr "No"; VStr "Maybe"] (Some get_combo) combo)
  | "name" => Some (textbox call fuel (Some get_name) name)
  | _ => None
  end.

(** Client callables: [printfunc] of the docstring. *)
Definition printfunc (n : nat) (args : list value) : M value :=
  match args with
  | [x] => print ("listener " +:+ pretty n +:+ ": " +:+ py_str x) ;;; ret VNone
  | _ => raise TypeError
  end.

End Classes.

Definition prog : program := Program methods (fun _ => printfunc).

(** Calling closures of the program, nested up to eight deep. *)
Definition call : callable -> list value -> M value := call_depth prog 8.

(** The world an outcome ends in. *)
Definition after {A} (o : outcome A) : world :=
  match o with
  | Ok _ w | Raise _ w => w
  | Timeout => empty_world
  end.

(** [Test.__init__] on instance 1, and an instance 2 of class [A]. *)
Definition world0 : world :=
  set_attrs (fun _ => <[(1%nat, "value") := VInt 0]>
                      (<[(1%nat, "optionval") := VStr "Maybe"]>
                      (<[(1%nat, "textval") := VStr "Matt"]> ∅)))
    empty_world.

End Demo.


(** ** Vocabulary of the statements *)

(** The world in which [newfunc] calls the wrapped function: the one it was
    entered in, with the call recorded. *)
Definition log_call (func : pyfunc) (self : oid) (args : list value) (w : world) : world :=
  set_called (fun l => l ++ [(fn_name func, self, args)]) w.

(** What a notification loop passes to a listener. *)
Definition payload (r : value) (args : list value) : list value :=
  match r with
  | VNone => args
  | _ => [r]
  end.

(** The listeners registered for an instance under a list name. *)
Definition registered (w : world) (self : oid) (name : string) : list callable :=
  match attrs w !! (self, name) with
  | Some (VList l) => default [] (lists w !! l)
  | _ => []
  end.

(** The attribute that is to hold a listener list holds one, or nothing yet. *)
Definition listener_slot_ok (w : world) (self : oid) (name : string) : Prop :=
  match attrs w !! (self, name) with
  | None | Some VNone => True
  | Some (VList l) => is_Some (lists w !! l)
  | Some _ => False
  end.

(** [f.listeners(self)], the accessor a notifying setter carries. *)
Definition listeners (f : pyfunc) (self : oid) : M value :=
  match fn_dict f !! "listeners" with
  | Some (AGetListeners lname name) => get_listeners lname name self
  | Some (ADict _) => raise TypeError
  | None => raise AttributeError
  end.

(** A callable that, called with [args], returns normally, touches neither
    instance attributes nor list objects and triggers no notification. *)
Definition quiet (call : callable -> list value -> M value) (args : list value)
    (c : callable) : Prop :=
  forall w, exists v w',
    call c args w = Ok v w'
    /\ attrs w' = attrs w /\ lists w' = lists w /\ invoked w' = invoked w.

(** The body of the notification loop of [newfunc], for a return value [r]
    of the wrapped function. *)
Definition notify (call : callable -> list value -> M value) (r : value)
    (args : list value) (l : callable) : M unit :=
  match r with
  | VNone =>
      modify (set_invoked (fun i => i ++ [(l, args)])) ;;;
      call l args ;;; ret tt
  | _ =>
      modify (set_invoked (fun i => i ++ [(l, [r])])) ;;;
      call l [r] ;;; ret tt
  end.

(** What the notification is to do, in the words of the specification:
    invoke every entry of the list, in order, with the payload.  Each call
    is entered in the log [invoked] first, as the loop of [newfunc] does. *)
Fixpoint invoke_each (call : callable -> list value -> M value) (p : list value)
    (cs : list callable) : M unit :=
  match cs with
  | [] => ret tt
  | c :: cs' =>
      modify (set_invoked (fun i => i ++ [(c, p)])) ;;;
      call c p ;;;
      invoke_each call p cs'
  end.

(** [leave_list call p l all cs w]: along the calls of [cs] with the
    payload [p], one after the other from the world [w], every call that
    returns leaves the list object [l] holding [all].  It speaks of this one
    run, not of the listeners in any other world. *)
Fixpoint leave_list (call : callable -> list value -> M value) (p : list value)
    (l : loc) (all cs : list callable) (w : world) : Prop :=
  match cs with
  | [] => True
  | c :: cs' =>
      match call c p (set_invoked (fun i => i ++ [(c, p)]) w) with
      | Ok _ w1 => lists w1 !! l = Some all /\ leave_list call p l all cs' w1
      | _ => True
      end
  end.

(** A listener that, where it returns, has notified nothing itself. *)
Definition silent (call : callable -> list value -> M value) (p : list value)
    (c : callable) : Prop :=
  forall w v w', call c p w = Ok v w' -> invoked w' = invoked w.

(** No attribute refers to a list object that does not exist, and no list
    object is referred to by two attributes. *)
Definition store_ok (w : world) : Prop :=
  (forall k l, attrs w !! k = Some (VList l) -> is_Some (lists w !! l)) /\
  (forall k1 k2 l,
     attrs w !! k1 = Some (VList l) -> attrs w !! k2 = Some (VList l) -> k1 = k2).

(** ** The UI-thread dispatcher

    [Framework.run_on_ui_thread] and [Framework.on_queue_updated], run by
    any number of threads.  The state holds the queue, the signal deliveries
    posted to the UI thread's event loop, the threads that have put a task
    and not yet emitted, and the call stack of the UI thread.  A step is one
    atomic action of one thread; [Queue.put], [Queue.empty] and [Queue.get]
    are atomic (the queue is locked), and only the UI thread ever takes from
    the queue, so the test of the loop and the [get] after it form one
    step. *)

Module Dispatcher.

Definition task := nat.

Inductive frame :=
| Handler             (* in [on_queue_updated], at the test of the loop *)
| Running (f : task). (* in [f()], called by the handler frame below *)

Record state := State {
  q : list task;        (* [self.q], head first *)
  pending : nat;        (* deliveries of [_queue_updated] waiting in the event loop *)
  emitting : nat;       (* threads between [self.q.put(f)] and [emit()] *)
  ui : list frame;      (* stack of the UI thread, innermost first; [[]]: event loop *)
  started : list task;  (* ghost: tasks whose call has begun, oldest first *)
  enqueued : list task  (* ghost: tasks put, oldest first *)
}.

Definition init : state := State [] 0 0 [] [] [].

Inductive label :=
| Put (f : task)   (* another thread: [self.q.put(f)] *)
| Emit             (* that thread: [self._queue_updated.emit()], queued *)
| Deliver          (* the event loop calls the slot [on_queue_updated] *)
| Loop             (* [while not self.q.empty(): f = self.q.get(); f()] *)
| Return           (* the running task returns *)
| RaiseExn         (* the running task raises; the slot is left *)
| UiPut (g : task).
    (* the running task calls [run_on_ui_thread(g)]: on the UI thread the
       emitted signal calls the slot at once *)

Definition exec (l : label) (s : state) : option state :=
  match l with
  | Put f =>
      Some (State (q s ++ [f]) (pending s) (S (emitting s)) (ui s)
                  (started s) (enqueued s ++ [f]))
  | Emit =>
      match emitting s with
      | S e => Some (State (q s) (S (pending s)) e (ui s) (started s) (enqueued s))
      | O => None
      end
  | Deliver =>
      match ui s, pending s with
      | [], S p => Some (State (q s) p (emitting s) [Handler] (started s) (enqueued s))
      | _, _ => None
      end
  | Loop =>
      match ui s with
      | Handler :: rest =>
          match q s with
          | [] => Some (State [] (pending s) (emitting s) rest (started s) (enqueued s))
          | f :: q' =>
              Some (State q' (pending s) (emitting s) (Running f :: Handler :: rest)
                          (started s ++ [f]) (enqueued s))
          end
      | _ => None
      end
  | Return =>
      match ui s with
      | Running _ :: rest =>
          Some (State (q s) (pending s) (emitting s) rest (started s) (enqueued s))
      | _ => None
      end
  | RaiseExn =>
      match ui s with
      | Running _ :: Handler :: rest =>
          Some (State (q s) (pending s) (emitting s) rest (started s) (enqueued s))
      | _ => None
      end
  | UiPut g =>
      match ui s with
      | Running f :: rest =>
          Some (State (q s ++ [g]) (pending s) (emitting s)
                      (Handler :: Running f :: rest)
                      (started s) (enqueued s ++ [g]))
      | _ => None
      end
  end.

(** A run: the steps of all threads, in the order in which they happen. *)
Fixpoint run (ls : list label) (s : state) : option state :=
  match ls with
  | [] => Some s
  | l :: ls' =>
      match exec l s with
      | Some s' => run ls' s'
      | None => None
      end
  end.

(** The steps that enqueue nothing. *)
Definition drains (l : label) : bool :=
  match l with
  | Put _ | UiPut _ => false
  | _ => true
  end.

(** No step other than an enqueue is possible. *)
Definition at_rest (s : state) : Prop :=
  forall l, drains l = true -> exec l s = None.

(** A bound on the steps the threads can still take without enqueuing. *)
Definition work (s : state) : nat :=
  (3 * emitting s + 2 * pending s + 2 * length (q s) + length (ui s))%nat.

(** Every running task was called by a handler frame, which lies
    directly below it. *)
Fixpoint stack_ok (u : list frame) : Prop :=
  match u with
  | [] => True
  | Handler :: r => stack_ok r
  | Running _ :: u' =>
      match u' with
      | Handler :: r => stack_ok r
      | _ => False
      end
  end.

Fixpoint handlers (u : list frame) : nat :=
  match u with
  | [] => O
  | Handler :: r => S (handlers r)
  | Running _ :: r => handlers r
  end.

Fixpoint running (u : list frame) : nat :=
  match u with
  | [] => O
  | Handler :: r => running r
  | Running _ :: r => S (running r)
  end.

(** What every reachable state satisfies: the tasks put are those
    started followed by those queued, and every queued task has a call of
    the handler still to come (posted, about to be posted, or running). *)
Definition inv (s : state) : Prop :=
  enqueued s = started s ++ q s
  /\ stack_ok (ui s)
  /\ (length (q s) + running (ui s) <= pending s + emitting s + handlers (ui s))%nat.

End Dispatcher.

(** ** Worlds of the examples *)

Module Worlds.
Import Demo.

(** Instance 2, of class [A], after
    [A.set_val2.listeners(a).append(printfunc)]. *)
Definition world_a : world :=
  after ((ls <- listeners (notifying_setter call 8 set_val2) 2%nat ;;
          list_append ls (UserFn 0)) empty_world).

(** [world_a] after the body of [set_val2] has run on ["42"], called by
    one notifying wrapper, and by two. *)
Definition world_a1 : world :=
  after (fn_call set_val2 2%nat [VStr "42"]
           (log_call set_val2 2%nat [VStr "42"] world_a)).


(** Instance 1, of class [Test], with the slider of [test] bound, and
    with the combobox of [combo] bound. *)
Definition world_test : world :=
  after (get_widgets_for_method call (methods call 8) (MethodRef 1 "test") world0).

Definition world_combo : world :=
  after (get_widgets_for_method call (methods call 8) (MethodRef 1 "combo") world0).

(** Instance 3, of class [A], after
    [A.set_val.listeners(b).append(printfunc1)]. *)
Definition world_b : world :=
  after ((ls <- listeners (notifying_setter call 8 set_val) 3%nat ;;
          list_append ls (UserFn 1)) empty_world).



End Worlds.

(** ** Vocabulary of the statements on bound controls *)

(** The part of the world that belongs to the framework and to the
    notifying setters, apart from the log of listener calls. *)
Definition controls (w : world) :=
  (lists w, widgets w, slots w, changing_widgets w, called w).

(** [same w w']: nothing but the output differs. *)
Definition same (w w' : world) : Prop :=
  attrs w' = attrs w /\ controls w' = controls w /\ invoked w' = invoked w.

(** [keeps self name w w']: the code that led from [w] to [w'] may have
    written attributes of the instance, but not its listener list [name],
    nor anything of the framework. *)
Definition keeps (self : oid) (name : string) (w w' : world) : Prop :=
  attrs w' !! (self, name) = attrs w !! (self, name)
  /\ controls w' = controls w /\ invoked w' = invoked w.


(** A listener that does nothing while the control [widget] is being
    edited: so its reflect-listener, and so any calm listener. *)
Definition guarded (call : callable -> list value -> M value) (widget : wid)
    (args : list value) (c : callable) : Prop :=
  forall w, widget ∈ changing_widgets w ->
    exists v w', call c args w = Ok v w' /\ same w w'.

(** A setter body of one parameter that returns [None] and keeps to the
    attributes of its instance. *)
Definition plain_setter (func : pyfunc) (self : oid) : Prop :=
  forall x w, exists w',
    fn_call func self [x] w = Ok VNone w' /\ keeps self (listener_list_name func) w w'.

(** The state binding leaves a slider in: the control with its range and
    position, its change signal connected to the guarded setter, and its
    reflect-listener the one listener of the method. *)
Definition bound_slider (w : world) (m : method_ref) (name : string) (widget : wid)
    (lo hi pos : Z) : Prop :=
  (widget ∉ changing_widgets w)
  /\ widgets w !! widget = Some (QSlider lo hi pos)
  /\ slots w !! widget = Some (ChangingSetter widget (SliderChanged m))
  /\ exists l, attrs w !! (im_self m, name) = Some (VList l)
               /\ lists w !! l = Some [Updater widget (SliderUpdate m widget)].

(** ** Vocabulary of the statement on binding, for every kind of control *)

(** The four kinds of value control, with what their decorators are given
    besides the getter. *)
Inductive control_kind :=
| KSlider (lo hi sc : Z)
| KCombobox (options : list value)
| KTextbox
| KCheckbox.

(** The decorator of a kind, applied. *)
Definition decorate (call : callable -> list value -> M value) (fuel : nat)
    (k : control_kind) (g : option (oid -> M value)) (func : pyfunc) : pyfunc :=
  match k with
  | KSlider lo hi sc => slider call fuel g (VInt lo) (VInt hi) (VInt sc) func
  | KCombobox options => combobox call fuel options g func
  | KTextbox => textbox call fuel g func
  | KCheckbox => checkbox call fuel g func
  end.

(** The attribute that holds the metadata of a kind. *)
Definition kind_attr (k : control_kind) : string :=
  match k with
  | KSlider _ _ _ => "_slider"
  | KCombobox _ => "_combobox"
  | KTextbox => "_textbox"
  | KCheckbox => "_checkbox"
  end.

(** The lambda [get_widgets_for_method] wires to the control's signal, and
    the reflect lambda it hands to [add_widget]. *)
Definition slot_of (k : control_kind) (m : method_ref) : callable :=
  match k with
  | KSlider _ _ _ => SliderChanged m
  | KCombobox _ => ComboChanged m
  | KTextbox => TextEdited m
  | KCheckbox => CheckChanged m
  end.

Definition reflect_of (k : control_kind) (m : method_ref) (widget : wid) : callable :=
  match k with
  | KSlider _ _ _ => SliderUpdate m widget
  | KCombobox _ => ComboUpdate m widget
  | KTextbox => TextUpdate widget
  | KCheckbox => CheckUpdate widget
  end.

(** What a control of kind [k] is to display for the value [v]: a slider
    the value times the scale, within its range; a combobox the first option
    equal to the value; a text box [str(v)]; a checkbox the check state of
    the value.  There is none where the reflect lambda raises; for a slider
    the statement keeps to integers. *)
Definition display (k : control_kind) (v : value) : option qwidget :=
  match k with
  | KSlider lo hi sc =>
      match v with
      | VInt z => Some (QSlider lo hi (qBound lo (z * sc) hi))
      | _ => None
      end
  | KCombobox options =>
      match py_index options v with
      | Some i => Some (QComboBox (map py_str options) (Z.of_nat i))
      | None => None
      end
  | KTextbox => Some (QLineEdit (py_str v))
  | KCheckbox =>
      match v with
      | VList _ => None
      | _ => Some (QCheckBox (_bool_to_checkstate v))
      end
  end.

(** The sliders the statement covers: the range holds 0, the position of a
    new slider, and the scale is not 0. *)
Definition kind_ok (k : control_kind) : Prop :=
  match k with
  | KSlider lo hi sc => lo <= 0 <= hi /\ sc <> 0
  | _ => True
  end.

(** The state binding leaves a control in: the control with what it
    displays, its signal connected to the guarded setter, and its
    reflect-listener the one listener of the method. *)
Definition bound (w : world) (m : method_ref) (name : string) (widget : wid)
    (q : qwidget) (slot u : callable) : Prop :=
  (widget ∉ changing_widgets w)
  /\ widgets w !! widget = Some q
  /\ slots w !! widget = Some (ChangingSetter widget slot)
  /\ exists l, attrs w !! (im_self m, name) = Some (VList l)
               /\ lists w !! l = Some [Updater widget u].


(** ** Vocabulary of the further properties *)

(** A listener that, called with [args], raises [e] and has touched neither
    list objects nor the log of listener calls. *)
Definition raising (call : callable -> list value -> M value) (args : list value)
    (e : exn) (c : callable) : Prop :=
  forall w, exists w',
    call c args w = Raise e w' /\ lists w' = lists w /\ invoked w' = invoked w.

(** A listener that, called with [args], appends [c'] to the listener list
    [name] of [self], which is the list object [l], and does nothing else to
    attributes, lists or the log of listener calls. *)
Definition registering (call : callable -> list value -> M value) (args : list value)
    (self : oid) (name : string) (l : loc) (c' c : callable) : Prop :=
  forall w cs,
    attrs w !! (self, name) = Some (VList l) ->
    lists w !! l = Some cs ->
    exists v w',
      call c args w = Ok v w'
      /\ attrs w' = attrs w
      /\ lists w' = <[l := cs ++ [c']]> (lists w)
      /\ invoked w' = invoked w.

(** The state binding leaves a text box in: the control with its text, its
    [textEdited] signal connected to the guarded setter, and its
    reflect-listener the one listener of the method. *)
Definition bound_textbox (w : world) (m : method_ref) (name : string) (widget : wid)
    (text : string) : Prop :=
  (widget ∉ changing_widgets w)
  /\ widgets w !! widget = Some (QLineEdit text)
  /\ slots w !! widget = Some (ChangingSetter widget (TextEdited m))
  /\ exists l, attrs w !! (im_self m, name) = Some (VList l)
               /\ lists w !! l = Some [Updater widget (TextUpdate widget)].

(** The user edits the text of a line edit to [s]: the control shows [s]
    and emits [textEdited(s)]. *)
Definition user_type (P : program) (n : nat) (widget : wid) (s : string) : M unit :=
  fun w => match widgets w !! widget with
           | Some (QLineEdit _) =>
               emit (call_depth P n) widget (VStr s)
                 (set_widgets <[widget := QLineEdit s]> w)
           | _ => Raise AttributeError w
           end.

(** ** More of class [Test], and listeners of client code *)

Module Demo2.
Import Demo.

Definition get_bool (self : oid) : M value := read_attr self "bval".

Definition boolval : pyfunc :=
  PyFunc "boolval" ∅ (fun self args =>
    match args with
    | [newval] =>
        print ("Setting boolval to " +:+ py_str newval) ;;;
        setattr self "bval" newval ;;;
        ret VNone
    | _ => raise TypeError
    end).

Section Classes.

Variable call : callable -> list value -> M value.
Variable fuel : nat.

(** [Test.button1]: it calls three decorated setters of its instance. *)
Definition button1 : pyfunc :=
  PyFunc "button1" ∅ (fun self args =>
    match args with
    | [] =>
        call (BoundMethod (MethodRef self "test")) [VInt 50] ;;;
        b <- get_bool self ;;
        call (BoundMethod (MethodRef self "boolval")) [VBool (negb (truthy b))] ;;;
        call (BoundMethod (MethodRef self "combo")) [VStr "Maybe"] ;;;
        ret VNone
    | _ => raise TypeError
    end).

(** The methods of [Demo], with [boolval] and [button1] of class [Test],
    and with [frozen], the setter [test] under [slider(scale=0)]. *)
Definition methods (m : method_ref) : option pyfunc :=
  match im_name m with
  | "boolval" => Some (checkbox call fuel (Some get_bool) boolval)
  | "button1" => Some (button button1)
  | "frozen" => Some (slider call fuel None (VInt 0) (VInt 100) (VInt 0) test)
  | _ => Demo.methods call fuel m
  end.

(** Client callables: listener 1 raises; listener 2 registers [printfunc]
    with [A.set_val] on instance 2, listener 3 registers itself there; the
    others are [printfunc]. *)
Definition listener (n : nat) (args : list value) : M value :=
  match n with
  | 1 => raise ValueError
  | 2 =>
      ls <- listeners (notifying_setter call fuel set_val) 2 ;;
      list_append ls (UserFn 0) ;;;
      ret VNone
  | 3 =>
      ls <- listeners (notifying_setter call fuel set_val) 2 ;;
      list_append ls (UserFn 3) ;;;
      ret VNone
  | _ => printfunc n args
  end%nat.

End Classes.

Definition prog : program := Program methods (fun call => listener call 8).

(** [Test.__init__] on instance 1, with [bval]. *)
Definition world0 : world :=
  set_attrs <[(1%nat, "bval") := VBool true]> Demo.world0.

Definition call : callable -> list value -> M value := call_depth prog 8.

(** Instance 2 of class [A] with the listeners [cs] registered, in this
    order, with [set_val]. *)
Definition world_with (cs : list callable) : world :=
  after ((ls <- listeners (notifying_setter call 8 set_val) 2%nat ;;
          foldr (fun c k => list_append ls c ;;; k) (ret tt) cs) empty_world).

(** Instance 1 of class [Test] with the slider of [frozen] bound, and with
    the text box of [name] bound. *)
Definition world_frozen : world :=
  after (get_widgets_for_method call (methods call 8) (MethodRef 1 "frozen") Demo.world0).

Definition world_name : world :=
  after (get_widgets_for_method Demo.call (Demo.methods Demo.call 8)
           (MethodRef 1 "name") Demo.world0).

End Demo2.
(** * Properties *)

(** ** Computations: unfolding *)

Ltac unfold_M :=
  unfold bind, ret, raise, modify, gets, try_finally in *.

Lemma bind_ok {A B} (m : M A) (k : A -> M B) w a w' :
  m w = Ok a w' -> bind m k w = k a w'.
Proof. intros H. unfold bind. rewrite H. reflexivity. Qed.

Lemma bind_raise {A B} (m : M A) (k : A -> M B) w e w' :
  m w = Raise e w' -> bind m k w = Raise e w'.
Proof. intros H. unfold bind. rewrite H. reflexivity. Qed.

Lemma bind_timeout {A B} (m : M A) (k : A -> M B) w :
  m w = Timeout -> bind m k w = Timeout.
Proof. intros H. unfold bind. rewrite H. reflexivity. Qed.

(** ** The feedback-loop guard *)

Lemma list_remove_app_fresh (x : wid) (l : list wid) :
  x ∉ l -> list_remove x (l ++ [x]) = Some l.
Proof.
  induction l as [|y l IH]; intros Hx; simpl.
  - rewrite bool_decide_eq_true_2; reflexivity.
  - apply not_elem_of_cons in Hx as [Hne Hx].
    rewrite bool_decide_eq_false_2 by congruence.
    rewrite IH by assumption. reflexivity.
Qed.

Lemma changing_remove_after_append widget w1 w :
  widget ∉ changing_widgets w ->
  changing_widgets w1 = changing_widgets w ++ [widget] ->
  changing_remove widget w1 = Ok tt (set_changing (fun _ => changing_widgets w) w1).
Proof.
  intros Hfresh Hcw. unfold changing_remove.
  rewrite Hcw, list_remove_app_fresh by assumption. reflexivity.
Qed.

(** What [setter] of [widget_changing] does around a call of [func] that
    leaves [changing_widgets] as it found it. *)
Lemma widget_changing_outcome widget func args w :
  widget ∉ changing_widgets w ->
  (forall w1, final (func args (set_changing (fun l => l ++ [widget]) w)) = Some w1 ->
              changing_widgets w1 = changing_widgets w ++ [widget]) ->
  widget_changing widget func args w =
    match func args (set_changing (fun l => l ++ [widget]) w) with
    | Ok r w1 => Ok r (set_changing (fun _ => changing_widgets w) w1)
    | Raise e w1 => Raise e (set_changing (fun _ => changing_widgets w) w1)
    | Timeout => Timeout
    end.
Proof.
  intros Hfresh Hbal.
  unfold widget_changing, changing_append. unfold_M.
  destruct (func args _) as [r w1|e w1|] eqn:Hf; [| |reflexivity].
  - rewrite (changing_remove_after_append widget w1 w); auto.
  - rewrite (changing_remove_after_append widget w1 w); auto.
Qed.

(** C5. A control-originated edit releases the control's membership in the
    Changing-Set on every exit path: when the wired handler ([setter] of
    [widget_changing]) is entered for a control that is not being edited
    yet, and the setter it invokes leaves [changing_widgets] as it found
    it, then the handler returns what the setter returned, or raises what
    it raised, and in both cases the control is no longer in
    [changing_widgets]. *)
Theorem widget_changing_releases widget func args w :
  widget ∉ changing_widgets w ->
  (forall w1, final (func args (set_changing (fun l => l ++ [widget]) w)) = Some w1 ->
              changing_widgets w1 = changing_widgets w ++ [widget]) ->
  (forall r w1, func args (set_changing (fun l => l ++ [widget]) w) = Ok r w1 ->
     exists w', widget_changing widget func args w = Ok r w'
                /\ (widget ∉ changing_widgets w')
                /\ changing_widgets w' = changing_widgets w) /\
  (forall e w1, func args (set_changing (fun l => l ++ [widget]) w) = Raise e w1 ->
     exists w', widget_changing widget func args w = Raise e w'
                /\ (widget ∉ changing_widgets w')
                /\ changing_widgets w' = changing_widgets w).
Proof.
  intros Hfresh Hbal.
  pose proof (widget_changing_outcome widget func args w Hfresh Hbal) as Hout.
  split; intros x w1 Hf; rewrite Hf in Hout; eexists; (split; [exact Hout|]);
    simpl; auto.
Qed.

(** ** The notifying setter *)

Lemma fn_call_notifying_setter call fuel func self args :
  fn_call (notifying_setter call fuel func) self args = newfunc call fuel func self args.
Proof. reflexivity. Qed.

(** C6. If the wrapped setter raises when called with [(i, v)], the
    notifying setter raises the same exception and ends in the very world
    the setter left: nothing runs after the setter, so no listener is
    invoked, whatever the listeners are. *)
Theorem setter_error_propagates call fuel func self args w e w' :
  fn_call func self args (log_call func self args w) = Raise e w' ->
  fn_call (notifying_setter call fuel func) self args w = Raise e w'.
Proof.
  intros Hf. rewrite fn_call_notifying_setter.
  unfold newfunc. unfold_M. fold (log_call func self args w).
  rewrite Hf. reflexivity.
Qed.

Lemma notify_payload call r args l :
  notify call r args l =
    (modify (set_invoked (fun i => i ++ [(l, payload r args)])) ;;;
     call l (payload r args) ;;; ret tt).
Proof. destruct r; reflexivity. Qed.

Lemma newfunc_unfold call fuel func self args :
  newfunc call fuel func self args =
    (modify (log_call func self args) ;;;
     r <- fn_call func self args ;;
     ls <- get_listeners (listener_list_name func) (listener_list_name func) self ;;
     for_listeners fuel ls (notify call r args) ;;;
     ret r).
Proof. reflexivity. Qed.

Ltac lookup_dict :=
  cbn [fn_dict slider textbox combobox checkbox notifying_setter metadata wraps button];
  repeat first
    [ rewrite map_union_empty
    | rewrite lookup_insert_eq
    | rewrite lookup_insert_ne by discriminate ];
  try reflexivity.

Lemma bind_assoc {A B C} (m : M A) (k : A -> M B) (h : B -> M C) w :
  bind (bind m k) h w = bind m (fun a => bind (k a) h) w.
Proof. unfold bind. destruct (m w); reflexivity. Qed.

Lemma get_listeners_existing name self w l :
  attrs w !! (self, name) = Some (VList l) ->
  get_listeners name name self w = Ok (VList l) w.
Proof.
  intros Ha. unfold get_listeners, getattr. unfold_M. rewrite Ha. reflexivity.
Qed.

Lemma notifying_setter_listeners call fuel func self :
  listeners (notifying_setter call fuel func) self =
    get_listeners (listener_list_name func) (listener_list_name func) self.
Proof.
  unfold listeners.
  assert (H : fn_dict (notifying_setter call fuel func) !! "listeners" =
              Some (AGetListeners (listener_list_name func) (listener_list_name func))).
  { lookup_dict. }
  rewrite H. reflexivity.
Qed.

Lemma registered_list w self name l ls :
  attrs w !! (self, name) = Some (VList l) ->
  lists w !! l = Some ls ->
  registered w self name = ls.
Proof. intros Ha Hl. unfold registered. rewrite Ha, Hl. reflexivity. Qed.

Lemma fresh_list_unused (w : world) : lists w !! fresh (dom (lists w)) = None.
Proof. apply not_elem_of_dom. apply is_fresh. Qed.

Lemma bind_modify {B} (f : world -> world) (k : unit -> M B) w :
  bind (modify f) k w = k tt (f w).
Proof. reflexivity. Qed.

Lemma invoke_each_cons call p c cs w :
  invoke_each call p (c :: cs) w =
    match call c p (set_invoked (fun i => i ++ [(c, p)]) w) with
    | Ok _ w1 => invoke_each call p cs w1
    | Raise e w1 => Raise e w1
    | Timeout => Timeout
    end.
Proof.
  cbn [invoke_each]. rewrite bind_modify. unfold bind.
  destruct (call c p _); reflexivity.
Qed.

(** The loop of [newfunc] over a list that its listeners leave alone is
    the invocation of every entry, in order: whether the listeners return
    or one of them raises. *)
Lemma for_in_invoke_each call r args l all : forall fuel i w,
  lists w !! l = Some all ->
  leave_list call (payload r args) l all (drop i all) w ->
  (length all - i < fuel)%nat ->
  for_in fuel l i (notify call r args) w = invoke_each call (payload r args) (drop i all) w.
Proof.
  induction fuel as [|fuel IH]; intros i w Hl Hkeep Hfuel; [lia|].
  cbn [for_in]. rewrite Hl.
  destruct (all !! i) as [c|] eqn:Hi.
  - rewrite (drop_S _ _ _ Hi) in Hkeep |- *.
    pose proof (lookup_lt_Some _ _ _ Hi) as Hlt.
    rewrite invoke_each_cons. cbn [leave_list] in Hkeep.
    rewrite notify_payload. rewrite bind_assoc, bind_modify. unfold bind at 1 2.
    destruct (call c (payload r args) _) as [v w1|e w1|]; try reflexivity.
    destruct Hkeep as [Hl1 Hkeep]. unfold ret at 1.
    apply IH; [exact Hl1|exact Hkeep|lia].
  - rewrite drop_ge by (apply lookup_ge_None; exact Hi). reflexivity.
Qed.


(** Silent listeners leave in the log [invoked] the calls of the loop and
    nothing else. *)
Lemma invoke_each_silent call p : forall cs w w',
  Forall (silent call p) cs ->
  invoke_each call p cs w = Ok tt w' ->
  invoked w' = invoked w ++ map (fun c => (c, p)) cs.
Proof.
  induction cs as [|c cs IH]; intros w w' Hs Hrun.
  - injection Hrun as <-. simpl. rewrite app_nil_r. reflexivity.
  - rewrite invoke_each_cons in Hrun.
    destruct (call c p _) as [v w1|e w1|] eqn:Hc; try discriminate.
    apply Forall_cons in Hs as [Hc0 Hs].
    rewrite (IH w1 w' Hs Hrun), (Hc0 _ _ _ Hc). simpl.
    rewrite <- app_assoc. reflexivity.
Qed.

(** [newfunc] from the world [w1] in which the wrapped function returned
    [r], over an existing list. *)
Lemma newfunc_invoke_each call fuel func self args w r w1 l cs :
  fn_call func self args (log_call func self args w) = Ok r w1 ->
  attrs w1 !! (self, listener_list_name func) = Some (VList l) ->
  lists w1 !! l = Some cs ->
  leave_list call (payload r args) l cs cs w1 ->
  (length cs < fuel)%nat ->
  newfunc call fuel func self args w
    = (invoke_each call (payload r args) cs ;;; ret r) w1.
Proof.
  intros Hf Ha Hl Hkeep Hfuel.
  rewrite newfunc_unfold, bind_modify, (bind_ok _ _ _ _ _ Hf).
  rewrite (bind_ok _ _ _ _ _ (get_listeners_existing _ _ _ _ Ha)).
  unfold for_listeners. unfold bind at 1.
  rewrite (for_in_invoke_each call r args l cs fuel 0%nat w1 Hl)
    by (rewrite ?drop_0; first [exact Hkeep | lia]).
  rewrite drop_0. reflexivity.
Qed.

(** C1 (amended). A call [S(i, v)] of a notifying setter first calls the
    wrapped function.  When that has returned [r], in the world [w1], the
    accessor gives the list of [i] (leaving the world [w1'], which is [w1]
    unless the list is made now), and the call goes on as the invocation of
    every listener [cs] the list holds, once each and in registration order,
    with [r] when it is not [None] and with the original arguments
    otherwise; then [r] is returned unchanged.  The listeners are taken to
    leave the list alone in this run; they may raise, and then the call ends
    with that exception.  When all of them return, the call returns [r] in
    the world the last one left; if they notify nothing themselves, the log
    of listener calls has grown by one entry for each, in order.  Whatever
    the wrapped function has itself notified comes before, and in
    addition. *)
Theorem notifying_setter_notifies call fuel func self args w r w1 l w1' cs :
  fn_call func self args (log_call func self args w) = Ok r w1 ->
  listeners (notifying_setter call fuel func) self w1 = Ok (VList l) w1' ->
  lists w1' !! l = Some cs ->
  leave_list call (payload r args) l cs cs w1' ->
  (length cs < fuel)%nat ->
  fn_call (notifying_setter call fuel func) self args w
    = (invoke_each call (payload r args) cs ;;; ret r) w1'
  /\ (forall w2,
        invoke_each call (payload r args) cs w1' = Ok tt w2 ->
        fn_call (notifying_setter call fuel func) self args w = Ok r w2
        /\ (Forall (silent call (payload r args)) cs ->
            invoked w2 = invoked w1' ++ map (fun c => (c, payload r args)) cs)).
Proof.
  intros Hf Hget Hl Hkeep Hfuel.
  assert (Heq : fn_call (notifying_setter call fuel func) self args w
                = (invoke_each call (payload r args) cs ;;; ret r) w1').
  { rewrite fn_call_notifying_setter, newfunc_unfold, bind_modify.
    rewrite (bind_ok _ _ _ _ _ Hf).
    rewrite notifying_setter_listeners in Hget.
    rewrite (bind_ok _ _ _ _ _ Hget).
    unfold for_listeners. unfold bind at 1.
    rewrite (for_in_invoke_each call r args l cs fuel 0%nat w1' Hl)
      by (rewrite ?drop_0; first [exact Hkeep | lia]).
    rewrite drop_0. reflexivity. }
  split; [exact Heq|].
  intros w2 Hrun. split.
  - rewrite Heq. unfold bind. rewrite Hrun. reflexivity.
  - intros Hs. exact (invoke_each_silent call _ cs w1' w2 Hs Hrun).
Qed.

(** The names and the code of the wrappers the value decorators build. *)
Lemma textbox_call call fuel g func self args :
  fn_call (textbox call fuel g func) self args =
    newfunc call fuel
      (wraps func (PyFunc "w_func" ∅ (fun self args => fn_call func self args)))
      self args.
Proof. reflexivity. Qed.

Lemma slider_call call fuel g mn mx sc func self args :
  fn_call (slider call fuel g mn mx sc func) self args =
    newfunc call fuel
      (wraps func (PyFunc "w_func" ∅ (fun self args => fn_call func self args)))
      self args.
Proof. reflexivity. Qed.

Lemma textbox_name call fuel g func : fn_name (textbox call fuel g func) = fn_name func.
Proof. reflexivity. Qed.

Lemma slider_name call fuel g mn mx sc func :
  fn_name (slider call fuel g mn mx sc func) = fn_name func.
Proof. reflexivity. Qed.

Lemma textbox_listeners call fuel g func :
  fn_dict (textbox call fuel g func) !! "listeners" =
    Some (AGetListeners (listener_list_name func) (listener_list_name func)).
Proof. lookup_dict. Qed.

Lemma slider_listeners call fuel g mn mx sc func :
  fn_dict (slider call fuel g mn mx sc func) !! "listeners" =
    Some (AGetListeners (listener_list_name func) (listener_list_name func)).
Proof. lookup_dict. Qed.

Lemma metadata_lookup name props func k :
  fn_dict (metadata name props func) !! k =
    if decide (k = name) then Some props else fn_dict func !! k.
Proof.
  cbn [fn_dict metadata wraps]. rewrite map_union_empty.
  destruct (decide (k = name)) as [->|Hne].
  - apply lookup_insert_eq.
  - apply lookup_insert_ne. congruence.
Qed.

Lemma notifying_setter_lookup call fuel func k :
  fn_dict (notifying_setter call fuel func) !! k =
    if decide (k = "listeners")
    then Some (AGetListeners (listener_list_name func) (listener_list_name func))
    else fn_dict func !! k.
Proof.
  unfold notifying_setter. rewrite metadata_lookup.
  destruct (decide (k = "listeners")); [reflexivity|].
  cbn [fn_dict wraps]. rewrite map_union_empty. reflexivity.
Qed.


(** ** Listener lists and their identity *)

Lemma string_length_app (s t : string) :
  String.length (s +:+ t) = (String.length s + String.length t)%nat.
Proof. induction s as [|a s IH]; simpl; [reflexivity|]. rewrite IH. reflexivity. Qed.

Lemma string_app_inv_tail (s1 s2 t : string) : s1 +:+ t = s2 +:+ t -> s1 = s2.
Proof.
  revert s2. induction s1 as [|a s1 IH]; intros [|b s2] H; simpl in H.
  - reflexivity.
  - apply (f_equal String.length) in H.
    change (String.length t = S (String.length (s2 +:+ t))) in H.
    rewrite string_length_app in H. lia.
  - apply (f_equal String.length) in H.
    change (S (String.length (s1 +:+ t)) = String.length t) in H.
    rewrite string_length_app in H. lia.
  - injection H as -> H. f_equal. apply IH. exact H.
Qed.

Lemma listener_list_name_inj f1 f2 :
  listener_list_name f1 = listener_list_name f2 -> fn_name f1 = fn_name f2.
Proof.
  unfold listener_list_name. intros H. simpl in H. injection H as H.
  eapply string_app_inv_tail. exact H.
Qed.

(** What [get_listeners] returns and how it leaves the store. *)
Lemma get_listeners_spec name self w :
  store_ok w ->
  listener_slot_ok w self name ->
  exists l w',
    get_listeners name name self w = Ok (VList l) w'
    /\ attrs w' !! (self, name) = Some (VList l)
    /\ store_ok w'
    /\ (forall k, k <> (self, name) -> attrs w' !! k = attrs w !! k)
    /\ (forall l', is_Some (lists w !! l') -> lists w' !! l' = lists w !! l')
    /\ registered w' self name = registered w self name
    /\ invoked w' = invoked w.
Proof.
  intros [Hdang Hali] Hok. unfold listener_slot_ok in Hok.
  assert (Hnew :
    attrs w !! (self, name) = None \/ attrs w !! (self, name) = Some VNone ->
    exists l w',
      get_listeners name name self w = Ok (VList l) w'
      /\ attrs w' !! (self, name) = Some (VList l)
      /\ store_ok w'
      /\ (forall k, k <> (self, name) -> attrs w' !! k = attrs w !! k)
      /\ (forall l', is_Some (lists w !! l') -> lists w' !! l' = lists w !! l')
      /\ registered w' self name = registered w self name
      /\ invoked w' = invoked w).
  { intros Ha.
    set (l := fresh (dom (lists w))).
    pose proof (fresh_list_unused w) as Hfresh. fold l in Hfresh.
    exists l, (set_attrs <[(self, name) := VList l]> (set_lists <[l := []]> w)).
    split; [|split; [|split; [|split; [|split; [|split]]]]].
    - unfold get_listeners, getattr, new_list, setattr. unfold_M.
      destruct Ha as [-> | ->]; reflexivity.
    - simpl. apply lookup_insert_eq.
    - split; simpl.
      + intros k l' Hk. destruct (decide (k = (self, name))) as [->|Hne].
        * rewrite lookup_insert_eq in Hk. injection Hk as <-.
          rewrite lookup_insert_eq. eauto.
        * rewrite lookup_insert_ne in Hk by congruence.
          destruct (Hdang _ _ Hk) as [cs Hcs].
          rewrite lookup_insert_ne by congruence. eauto.
      + intros k1 k2 l' H1 H2.
        destruct (decide (k1 = (self, name))) as [->|Hne1];
          destruct (decide (k2 = (self, name))) as [->|Hne2]; auto.
        * rewrite lookup_insert_eq in H1. injection H1 as <-.
          rewrite lookup_insert_ne in H2 by congruence.
          destruct (Hdang _ _ H2) as [cs Hcs]. congruence.
        * rewrite lookup_insert_eq in H2. injection H2 as <-.
          rewrite lookup_insert_ne in H1 by congruence.
          destruct (Hdang _ _ H1) as [cs Hcs]. congruence.
        * rewrite lookup_insert_ne in H1, H2 by congruence. eauto.
    - intros k Hne. simpl. apply lookup_insert_ne. congruence.
    - intros l' [cs Hcs]. simpl. apply lookup_insert_ne. congruence.
    - unfold registered. simpl. rewrite !lookup_insert_eq. simpl.
      destruct Ha as [-> | ->]; reflexivity.
    - reflexivity. }
  destruct (attrs w !! (self, name)) as [v|] eqn:Ha; [|auto].
  destruct v; try contradiction; [auto|].
  exists l, w. split; [|split; [|split; [|split; [|split; [|split]]]]]; auto.
  - unfold get_listeners, getattr. unfold_M. rewrite Ha. reflexivity.
  - split; assumption.
Qed.

Lemma get_listeners_slot_ok name self w l w' b name' :
  store_ok w ->
  get_listeners name name self w = Ok (VList l) w' ->
  listener_slot_ok w self name ->
  listener_slot_ok w b name' ->
  listener_slot_ok w' b name'.
Proof.
  intros Hs Hget Hok Hok'.
  destruct (get_listeners_spec name self w Hs Hok)
    as (l0 & w0 & Hget0 & Ha0 & [Hdang0 _] & Hother & Hlists & _).
  rewrite Hget in Hget0. injection Hget0 as <- <-.
  unfold listener_slot_ok in *.
  destruct (decide ((b, name') = (self, name))) as [Heq|Hne].
  - rewrite Heq, Ha0. eapply Hdang0; eauto.
  - rewrite (Hother _ Hne).
    destruct (attrs w !! (b, name')) as [[| | | |l']|]; auto.
    rewrite (Hlists l' Hok'). exact Hok'.
Qed.

(** C3 (amended). A listener list belongs to an instance and a function
    name.  The accessors of two notifying setters, asked on instances [a] and
    [b], give distinct list objects when the instances differ or the names of
    the wrapped functions differ, and one and the same list object when both
    agree (as for the wrappers of stacked decorators).  In the first case a
    listener [c] appended to the list of [a] plays no part when the setter
    is called on [b]: if the body of the setter leaves the list attribute
    and the list of [b] alone, the call goes on as the invocation of the
    listeners that were registered for [b] before [c] was appended for [a],
    and of no other. *)
Theorem listener_lists_per_instance_and_name call fuel f1 f2 a b w :
  store_ok w ->
  listener_slot_ok w a (listener_list_name f1) ->
  listener_slot_ok w b (listener_list_name f2) ->
  exists l1 l2 w1 w2,
    listeners (notifying_setter call fuel f1) a w = Ok (VList l1) w1
    /\ listeners (notifying_setter call fuel f2) b w1 = Ok (VList l2) w2
    /\ (a <> b \/ fn_name f1 <> fn_name f2 -> l1 <> l2)
    /\ (a = b -> fn_name f1 = fn_name f2 -> l1 = l2)
    /\ (a <> b \/ fn_name f1 <> fn_name f2 ->
        forall c w3 args r w4,
          list_append (VList l1) c w2 = Ok tt w3 ->
          fn_call f2 b args (log_call f2 b args w3) = Ok r w4 ->
          attrs w4 !! (b, listener_list_name f2) = attrs w3 !! (b, listener_list_name f2) ->
          lists w4 !! l2 = lists w3 !! l2 ->
          leave_list call (payload r args) l2
            (registered w2 b (listener_list_name f2))
            (registered w2 b (listener_list_name f2)) w4 ->
          (length (registered w2 b (listener_list_name f2)) < fuel)%nat ->
          registered w3 b (listener_list_name f2) = registered w2 b (listener_list_name f2)
          /\ fn_call (notifying_setter call fuel f2) b args w3
             = (invoke_each call (payload r args)
                  (registered w2 b (listener_list_name f2)) ;;; ret r) w4).
Proof.
  intros Hs Hok1 Hok2.
  set (n1 := listener_list_name f1) in *. set (n2 := listener_list_name f2) in *.
  destruct (get_listeners_spec n1 a w Hs Hok1)
    as (l1 & w1 & Hget1 & Ha1 & Hs1 & Hother1 & Hlists1 & _).
  pose proof (get_listeners_slot_ok n1 a w l1 w1 b n2 Hs Hget1 Hok1 Hok2) as Hok2'.
  destruct (get_listeners_spec n2 b w1 Hs1 Hok2')
    as (l2 & w2 & Hget2 & Ha2 & Hs2 & Hother2 & Hlists2 & _).
  assert (Hkeys : a <> b \/ fn_name f1 <> fn_name f2 -> (a, n1) <> (b, n2)).
  { intros [Hab|Hn] Heq.
    - apply Hab. exact (f_equal fst Heq).
    - apply Hn, listener_list_name_inj. exact (f_equal snd Heq). }
  assert (Hdiff : a <> b \/ fn_name f1 <> fn_name f2 -> l1 <> l2).
  { intros Hd Heq. subst l2. apply (Hkeys Hd).
    destruct Hs2 as [_ Hali]. apply (Hali _ _ l1); [|exact Ha2].
    rewrite Hother2 by (apply Hkeys; exact Hd). exact Ha1. }
  exists l1, l2, w1, w2.
  split; [rewrite notifying_setter_listeners; exact Hget1|].
  split; [rewrite notifying_setter_listeners; exact Hget2|].
  split; [exact Hdiff|].
  split.
  { intros -> Hn.
    assert (Hnn : n2 = n1).
    { unfold n1, n2, listener_list_name. rewrite Hn. reflexivity. }
    rewrite Hnn in Hget2.
    rewrite (get_listeners_existing n1 b w1 l1 Ha1) in Hget2.
    injection Hget2 as -> _. reflexivity. }
  intros Hd c w3 args r w4 Happ Hf Ha4 Hl4 Hkeep Hfuel.
  pose proof (Hdiff Hd) as Hne.
  assert (H3 : attrs w3 = attrs w2 /\ lists w3 !! l2 = lists w2 !! l2).
  { unfold list_append in Happ. destruct (lists w2 !! l1) as [cs|]; [|discriminate].
    injection Happ as <-. simpl. split; [reflexivity|].
    apply lookup_insert_ne. exact Hne. }
  destruct H3 as [Ha3 Hl3].
  destruct Hs2 as [Hdang2 _]. destruct (Hdang2 _ _ Ha2) as [cs2 Hcs2].
  rewrite (registered_list w2 b n2 l2 cs2 Ha2 Hcs2) in *.
  split.
  - apply (registered_list _ _ _ l2); [rewrite Ha3; exact Ha2|rewrite Hl3; exact Hcs2].
  - rewrite fn_call_notifying_setter.
    apply (newfunc_invoke_each call fuel f2 b args w3 r w4 l2 cs2); auto.
    + fold n2. rewrite Ha4, Ha3. exact Ha2.
    + rewrite Hl4, Hl3. exact Hcs2.
Qed.

(** ** The dispatcher *)

Module DispatcherFacts.
Import Dispatcher.

Lemma stack_ok_running_le : forall n u,
  (length u <= n)%nat -> stack_ok u -> (running u <= handlers u)%nat.
Proof.
  induction n as [|n IH]; intros u Hlen Hok.
  - destruct u; simpl in *; lia.
  - destruct u as [|[|f] u]; simpl in *; [lia| |].
    + assert (running u <= handlers u)%nat by (apply IH; [lia|assumption]). lia.
    + destruct u as [|[|g] u]; simpl in *; try contradiction.
      assert (running u <= handlers u)%nat by (apply IH; [lia|assumption]). lia.
Qed.

Lemma stack_ok_le u : stack_ok u -> (running u <= handlers u)%nat.
Proof. apply (stack_ok_running_le (length u)). lia. Qed.

Lemma inv_init : inv init.
Proof. repeat split; simpl; lia. Qed.

Lemma exec_inv l s s' : inv s -> exec l s = Some s' -> inv s'.
Proof.
  destruct s as [qs p e u st en]. unfold inv. simpl.
  intros (Hfifo & Hok & Hcred) Hex.
  destruct l; simpl in Hex.
  - injection Hex as <-. simpl. rewrite length_app. simpl.
    repeat split; [rewrite Hfifo, app_assoc; reflexivity | assumption | lia].
  - destruct e; [discriminate|]. injection Hex as <-. simpl.
    repeat split; [assumption | assumption | lia].
  - destruct u; [|discriminate]. destruct p; [discriminate|].
    injection Hex as <-. simpl in *.
    repeat split; [assumption | lia].
  - destruct u as [|[|f] u]; try discriminate.
    destruct qs as [|f qs]; injection Hex as <-; simpl in *.
    + pose proof (stack_ok_le u Hok).
      repeat split; [assumption | assumption | lia].
    + repeat split; [rewrite Hfifo, <- app_assoc; reflexivity | assumption | lia].
  - destruct u as [|[|f] u]; try discriminate. injection Hex as <-. simpl in *.
    destruct u as [|[|g] u]; try contradiction. simpl in *.
    repeat split; [assumption | assumption | lia].
  - destruct u as [|[|f] u]; try discriminate.
    destruct u as [|[|g] u]; try discriminate. injection Hex as <-. simpl in *.
    repeat split; [assumption | assumption | lia].
  - destruct u as [|[|f] u]; try discriminate. injection Hex as <-. simpl in *.
    rewrite length_app. simpl.
    repeat split; [rewrite Hfifo, app_assoc; reflexivity | assumption | lia].
Qed.

Lemma run_inv ls : forall s s', inv s -> run ls s = Some s' -> inv s'.
Proof.
  induction ls as [|l ls IH]; intros s s' Hinv Hrun; simpl in Hrun.
  - injection Hrun as <-. exact Hinv.
  - destruct (exec l s) as [s1|] eqn:Hex; [|discriminate].
    eapply IH; [|exact Hrun]. eapply exec_inv; eauto.
Qed.

(** Every step that enqueues nothing uses up some of the work left. *)
Lemma exec_work l s s' :
  drains l = true -> exec l s = Some s' -> (work s' < work s)%nat.
Proof.
  destruct s as [qs p e u st en]. unfold work. simpl.
  intros Hd Hex. destruct l; simpl in Hd, Hex; try discriminate.
  - destruct e; [discriminate|]. injection Hex as <-. simpl. lia.
  - destruct u; [|discriminate]. destruct p; [discriminate|].
    injection Hex as <-. simpl. lia.
  - destruct u as [|[|f] u]; try discriminate.
    destruct qs as [|f qs]; injection Hex as <-; simpl; lia.
  - destruct u as [|[|f] u]; try discriminate. injection Hex as <-. simpl. lia.
  - destruct u as [|[|f] u]; try discriminate.
    destruct u as [|[|g] u]; try discriminate. injection Hex as <-. simpl. lia.
Qed.

Lemma run_work ls : forall s s',
  forallb drains ls = true -> run ls s = Some s' ->
  (length ls + work s' <= work s)%nat.
Proof.
  induction ls as [|l ls IH]; intros s s' Hd Hrun; simpl in *.
  - injection Hrun as <-. lia.
  - apply andb_true_iff in Hd as [Hl Hd].
    destruct (exec l s) as [s1|] eqn:Hex; [|discriminate].
    pose proof (exec_work l s s1 Hl Hex).
    pose proof (IH s1 s' Hd Hrun). lia.
Qed.

(** At rest, nothing is left in the queue. *)
Lemma at_rest_done s : inv s -> at_rest s -> q s = [] /\ started s = enqueued s.
Proof.
  destruct s as [qs p e u st en]. unfold inv, at_rest. simpl.
  intros (Hfifo & Hok & Hcred) Hrest.
  assert (He : e = O).
  { destruct e; [reflexivity|]. specialize (Hrest Emit eq_refl). discriminate. }
  assert (Hu : u = []).
  { destruct u as [|[|f] u]; [reflexivity| |].
    - specialize (Hrest Loop eq_refl). simpl in Hrest. destruct qs; discriminate.
    - specialize (Hrest Return eq_refl). discriminate. }
  assert (Hp : p = O).
  { subst u. destruct p; [reflexivity|]. specialize (Hrest Deliver eq_refl). discriminate. }
  subst e u p. simpl in *. destruct qs; simpl in *; [|lia].
  rewrite app_nil_r in Hfifo. auto.
Qed.

(** As long as the threads are not at rest, one of them can step. *)
Lemma not_at_rest_step s :
  (0 < work s)%nat -> inv s -> exists l s', drains l = true /\ exec l s = Some s'.
Proof.
  destruct s as [qs p e u st en]. unfold work, inv. simpl.
  intros Hw (Hfifo & Hok & Hcred).
  destruct e as [|e]; [|exists Emit; simpl; eauto].
  destruct u as [|[|f] u].
  - destruct p as [|p]; [|exists Deliver; simpl; eauto].
    simpl in *. destruct qs; simpl in *; lia.
  - exists Loop. simpl. destruct qs; eauto.
  - exists Return. simpl. eauto.
Qed.

Lemma exec_drains_enqueued l s s' :
  drains l = true -> exec l s = Some s' -> enqueued s' = enqueued s.
Proof.
  destruct s as [qs p e u st en]. intros Hd Hex.
  destruct l; simpl in Hd, Hex; try discriminate.
  - destruct e; [discriminate|]. injection Hex as <-. reflexivity.
  - destruct u; [|discriminate]. destruct p; [discriminate|].
    injection Hex as <-. reflexivity.
  - destruct u as [|[|f] u]; try discriminate.
    destruct qs as [|f qs]; injection Hex as <-; reflexivity.
  - destruct u as [|[|f] u]; try discriminate. injection Hex as <-. reflexivity.
  - destruct u as [|[|f] u]; try discriminate.
    destruct u as [|[|g] u]; try discriminate. injection Hex as <-. reflexivity.
Qed.

Lemma run_drains_enqueued ds : forall s s',
  forallb drains ds = true -> run ds s = Some s' -> enqueued s' = enqueued s.
Proof.
  induction ds as [|l ds IH]; intros s s' Hd Hrun; simpl in *.
  - injection Hrun as <-. reflexivity.
  - apply andb_true_iff in Hd as [Hl Hd].
    destruct (exec l s) as [s1|] eqn:Hex; [|discriminate].
    rewrite (IH s1 s' Hd Hrun). eapply exec_drains_enqueued; eauto.
Qed.

(** From any state the threads come to rest when nothing more is
    enqueued. *)
Lemma drains_to_rest : forall n s,
  (work s <= n)%nat -> inv s ->
  exists ds s', forallb drains ds = true /\ run ds s = Some s' /\ at_rest s'.
Proof.
  induction n as [|n IH]; intros s Hn Hinv.
  - exists [], s. repeat split.
    intros l Hl. destruct (exec l s) as [s1|] eqn:Hex; [|reflexivity].
    pose proof (exec_work l s s1 Hl Hex). lia.
  - destruct (Nat.eq_dec (work s) O) as [Hz|Hnz].
    + apply IH; [lia|assumption].
    + destruct (not_at_rest_step s) as (l & s1 & Hl & Hex); [lia|assumption|].
      pose proof (exec_work l s s1 Hl Hex).
      destruct (IH s1) as (ds & s' & Hd & Hrun & Hrest);
        [lia | eapply exec_inv; eauto |].
      exists (l :: ds), s'. simpl. rewrite Hl, Hex. auto.
Qed.

(** C2. Whatever the threads have done so far ([ls], from the initial
    state), the tasks enqueued are, in the order of their enqueuing, the
    tasks whose execution has begun followed by the tasks still queued: no
    task is begun twice, out of turn, or dropped, also when it was put
    while the handler was draining.  From there, with nothing more
    enqueued, every schedule of the threads takes at most [work s] steps,
    some schedule comes to rest, and at rest every enqueued task has been
    executed, once and in enqueue order. *)
Theorem dispatcher_fifo ls s :
  run ls init = Some s ->
  enqueued s = started s ++ q s
  /\ (forall ds s',
        forallb drains ds = true -> run ds s = Some s' ->
        (length ds <= work s)%nat
        /\ (at_rest s' -> started s' = enqueued s /\ q s' = []))
  /\ (exists ds s',
        forallb drains ds = true /\ run ds s = Some s' /\ at_rest s'
        /\ started s' = enqueued s /\ q s' = []).
Proof.
  intros Hrun.
  pose proof (run_inv ls init s inv_init Hrun) as Hinv.
  split; [apply Hinv|]. split.
  - intros ds s' Hd Hds. split.
    + pose proof (run_work ds s s' Hd Hds). lia.
    + intros Hrest.
      destruct (at_rest_done s' (run_inv ds s s' Hinv Hds) Hrest) as [Hq Hst].
      rewrite Hst, (run_drains_enqueued ds s s' Hd Hds). auto.
  - destruct (drains_to_rest (work s) s (le_n _) Hinv) as (ds & s' & Hd & Hds & Hrest).
    exists ds, s'.
    destruct (at_rest_done s' (run_inv ds s s' Hinv Hds) Hrest) as [Hq Hst].
    rewrite Hst, (run_drains_enqueued ds s s' Hd Hds). auto.
Qed.

End DispatcherFacts.

(** ** The adapter's closures, in a whole program *)

Lemma call_depth_S P n c args :
  call_depth P (S n) c args =
    interp (call_depth P n) (classes P (call_depth P n) n) (client P (call_depth P n)) c args.
Proof. reflexivity. Qed.

Lemma updating_widget_member widget func args w :
  widget ∈ changing_widgets w -> updating_widget widget func args w = Ok VNone w.
Proof.
  intros Hin. unfold updating_widget. unfold_M.
  rewrite bool_decide_eq_true_2 by assumption. reflexivity.
Qed.

Lemma updating_widget_free widget func args w :
  widget ∉ changing_widgets w -> updating_widget widget func args w = func args w.
Proof.
  intros Hin. unfold updating_widget. unfold_M.
  rewrite bool_decide_eq_false_2 by assumption. reflexivity.
Qed.

Lemma py_index_none options v :
  (forall o, o ∈ options -> py_eq o v = false) -> py_index options v = None.
Proof.
  induction options as [|o options IH]; intros H; simpl; [reflexivity|].
  rewrite (H o) by (left; reflexivity).
  rewrite IH; [reflexivity|]. intros o' Ho'. apply H. right. exact Ho'.
Qed.

Lemma combobox_options call fuel options g func :
  meta (combobox call fuel options g func) "_combobox" =
    ret (<["getfunc" := getfunc_prop g]> (<["options" := POptions options]> ∅)).
Proof.
  unfold meta.
  assert (H : fn_dict (combobox call fuel options g func) !! "_combobox" =
              Some (ADict (<["getfunc" := getfunc_prop g]>
                             (<["options" := POptions options]> ∅)))).
  { lookup_dict. }
  rewrite H. reflexivity.
Qed.

Lemma combo_update_raises call lookup m widget func g options newv w :
  (exists call' fuel', lookup m = Some (combobox call' fuel' options g func)) ->
  (forall o, o ∈ options -> py_eq o newv = false) ->
  combo_update call lookup m widget newv w = Raise ValueError w.
Proof.
  intros (call' & fuel' & Hm) Hnot.
  unfold combo_update, method_meta. rewrite Hm, combobox_options.
  unfold_M. unfold prop_options.
  rewrite lookup_insert_ne by discriminate. rewrite lookup_insert_eq.
  unfold ret. cbv beta iota. rewrite py_index_none by assumption. reflexivity.
Qed.

(** C10. The reflect-listener of a combobox looks the new value up in the
    declared options.  For a value that equals none of them, and a control
    that is not being edited, the listener raises [ValueError] and leaves
    the world as it was; a direct call of the setter whose payload is such
    a value, with the listener first in the list, therefore ends in
    [ValueError] after the setter's body has run, with every control as the
    body left it. *)
Theorem combobox_reflect_raises P n m widget func g options newv w :
  (forall call fuel, classes P call fuel m = Some (combobox call fuel options g func)) ->
  (forall o, o ∈ options -> py_eq o newv = false) ->
  widget ∉ changing_widgets w ->
  call_depth P (S (S n)) (Updater widget (ComboUpdate m widget)) [newv] w
    = Raise ValueError w
  /\ (forall v r w1 l rest,
        fn_call func (im_self m) [v] (log_call func (im_self m) [v] w) = Ok r w1 ->
        payload r [v] = [newv] ->
        widget ∉ changing_widgets w1 ->
        attrs w1 !! (im_self m, listener_list_name func) = Some (VList l) ->
        lists w1 !! l = Some (Updater widget (ComboUpdate m widget) :: rest) ->
        exists w',
          fn_call (combobox (call_depth P (S (S n))) (S (S n)) options g func)
            (im_self m) [v] w = Raise ValueError w'
          /\ widgets w' = widgets w1).
Proof.
  intros Hcls Hnot Hfree.
  assert (Hupd : forall w0, widget ∉ changing_widgets w0 ->
            call_depth P (S (S n)) (Updater widget (ComboUpdate m widget)) [newv] w0
              = Raise ValueError w0).
  { intros w0 Hw0. rewrite call_depth_S. cbn [interp].
    rewrite updating_widget_free by assumption.
    rewrite call_depth_S. cbn [interp].
    eapply combo_update_raises; eauto. }
  split; [apply Hupd; assumption|].
  intros v r w1 l rest Hf Hpay Hfree1 Ha Hl.
  exists (set_invoked (fun i => i ++ [(Updater widget (ComboUpdate m widget), [newv])]) w1).
  split; [|reflexivity].
  change (fn_call (combobox (call_depth P (S (S n))) (S (S n)) options g func) (im_self m) [v] w)
    with (newfunc (call_depth P (S (S n))) (S (S n))
            (wraps func (PyFunc "w_func" ∅ (fun self args => fn_call func self args)))
            (im_self m) [v] w).
  rewrite newfunc_unfold, bind_modify. cbn [fn_call wraps].
  change (log_call (wraps func _) (im_self m) [v] w) with (log_call func (im_self m) [v] w).
  rewrite (bind_ok _ _ _ _ _ Hf).
  change (listener_list_name (wraps func _)) with (listener_list_name func).
  rewrite (bind_ok _ _ _ _ _ (get_listeners_existing _ _ _ _ Ha)).
  unfold for_listeners. cbn [for_in]. unfold bind at 1 2.
  rewrite Hl. cbn [lookup list_lookup]. rewrite notify_payload, Hpay.
  rewrite bind_modify. unfold bind at 1.
  rewrite Hupd by (simpl; assumption). reflexivity.
Qed.

(** ** The guard at work *)

Lemma controls_eq w w' :
  controls w' = controls w ->
  lists w' = lists w /\ widgets w' = widgets w /\ slots w' = slots w
  /\ changing_widgets w' = changing_widgets w /\ called w' = called w.
Proof. unfold controls. intros H. injection H as -> -> -> -> ->. auto. Qed.

Lemma for_in_guarded call widget r args l ls : forall fuel i w,
  lists w !! l = Some ls ->
  Forall (guarded call widget (payload r args)) ls ->
  widget ∈ changing_widgets w ->
  (length ls - i < fuel)%nat ->
  exists w', for_in fuel l i (notify call r args) w = Ok tt w'
             /\ attrs w' = attrs w
             /\ controls w' = controls w
             /\ invoked w' = invoked w ++ map (fun c => (c, payload r args)) (drop i ls).
Proof.
  induction fuel as [|fuel IH]; intros i w Hl Hq Hin Hfuel; [lia|].
  simpl. rewrite Hl.
  destruct (ls !! i) as [c|] eqn:Hi.
  - assert (Hc : guarded call widget (payload r args) c).
    { eapply Forall_forall; [exact Hq|]. eapply list_elem_of_lookup_2; eauto. }
    pose proof (lookup_lt_Some _ _ _ Hi) as Hlt.
    destruct (Hc (set_invoked (fun i => i ++ [(c, payload r args)]) w) Hin)
      as (v & w1 & Hcall & Ha1 & Hc1 & Hi1).
    destruct (controls_eq _ _ Hc1) as (Hl1 & _ & _ & Hcw1 & _).
    destruct (IH (S i) w1) as (w' & Hloop & Ha' & Hc' & Hi'); auto.
    { rewrite Hl1. exact Hl. }
    { rewrite Hcw1. exact Hin. }
    { lia. }
    exists w'. split; [|split; [|split]].
    + rewrite notify_payload. unfold_M. rewrite Hcall. exact Hloop.
    + rewrite Ha', Ha1. reflexivity.
    + rewrite Hc', Hc1. reflexivity.
    + rewrite Hi', Hi1. simpl. rewrite (drop_S _ _ _ Hi). simpl.
      rewrite <- app_assoc. reflexivity.
  - exists w. rewrite drop_ge by (apply lookup_ge_None; exact Hi).
    simpl. rewrite app_nil_r. auto.
Qed.

(** A notifying setter called while the control is being edited: the body
    runs once, the listeners are called and change nothing. *)
Lemma newfunc_guarded call fuel widget f self args w r w1 l ls :
  widget ∈ changing_widgets w ->
  fn_call f self args (log_call f self args w) = Ok r w1 ->
  keeps self (listener_list_name f) (log_call f self args w) w1 ->
  attrs w1 !! (self, listener_list_name f) = Some (VList l) ->
  lists w1 !! l = Some ls ->
  Forall (guarded call widget (payload r args)) ls ->
  (length ls < fuel)%nat ->
  exists w2,
    newfunc call fuel f self args w = Ok r w2
    /\ attrs w2 = attrs w1
    /\ lists w2 = lists w /\ widgets w2 = widgets w /\ slots w2 = slots w
    /\ changing_widgets w2 = changing_widgets w
    /\ called w2 = called w ++ [(fn_name f, self, args)]
    /\ invoked w2 = invoked w ++ map (fun c => (c, payload r args)) ls.
Proof.
  intros Hin Hf (Hka & Hkc & Hki) Ha Hl Hg Hfuel.
  destruct (controls_eq _ _ Hkc) as (Hl1 & Hw1 & Hs1 & Hcw1 & Hcd1). simpl in *.
  destruct (for_in_guarded call widget r args l ls fuel 0%nat w1)
    as (w2 & Hloop & Ha2 & Hc2 & Hi2); auto.
  { rewrite Hcw1. exact Hin. }
  { lia. }
  destruct (controls_eq _ _ Hc2) as (Hl2 & Hw2 & Hs2 & Hcw2 & Hcd2).
  rewrite drop_0 in Hi2.
  exists w2. split; [|repeat split; congruence].
  rewrite newfunc_unfold, bind_modify, (bind_ok _ _ _ _ _ Hf).
  rewrite (bind_ok _ _ _ _ _ (get_listeners_existing _ _ _ _ Ha)).
  unfold for_listeners. rewrite (bind_ok _ _ _ _ _ Hloop). reflexivity.
Qed.

(** The wired handler around a notifying setter. *)
Lemma handler_guarded call fuel widget f self args w r w1 l ls :
  widget ∉ changing_widgets w ->
  fn_call f self args
    (log_call f self args (set_changing (fun l => l ++ [widget]) w)) = Ok r w1 ->
  keeps self (listener_list_name f)
    (log_call f self args (set_changing (fun l => l ++ [widget]) w)) w1 ->
  attrs w1 !! (self, listener_list_name f) = Some (VList l) ->
  lists w1 !! l = Some ls ->
  Forall (guarded call widget (payload r args)) ls ->
  (length ls < fuel)%nat ->
  exists w',
    widget_changing widget (newfunc call fuel f self) args w = Ok r w'
    /\ attrs w' = attrs w1
    /\ lists w' = lists w /\ widgets w' = widgets w /\ slots w' = slots w
    /\ changing_widgets w' = changing_widgets w
    /\ called w' = called w ++ [(fn_name f, self, args)]
    /\ invoked w' = invoked w ++ map (fun c => (c, payload r args)) ls.
Proof.
  intros Hfree Hf Hk Ha Hl Hg Hfuel.
  set (wa := set_changing (fun l => l ++ [widget]) w) in *.
  destruct (newfunc_guarded call fuel widget f self args wa r w1 l ls)
    as (w2 & Hnew & Ha2 & Hl2 & Hw2 & Hs2 & Hcw2 & Hcd2 & Hi2); auto.
  { unfold wa. simpl. apply elem_of_app. right. left. }
  rewrite (widget_changing_outcome widget (newfunc call fuel f self) args w Hfree).
  2: { fold wa. rewrite Hnew. simpl. intros w' Hw'. injection Hw' as <-. exact Hcw2. }
  fold wa. rewrite Hnew. eexists. split; [reflexivity|]. simpl.
  repeat split; assumption.
Qed.

Lemma guarded_of_updater call call' widget args u :
  (forall a w0, call (Updater widget u) a w0 = updating_widget widget (call' u) a w0) ->
  guarded call widget args (Updater widget u).
Proof.
  intros Hcall w Hin. exists VNone, w.
  rewrite Hcall, updating_widget_member by assumption.
  repeat split.
Qed.



(** ** A bound slider *)

Lemma widget_changing_ext widget (f f' : list value -> M value) args args' w :
  (forall w0, f args w0 = f' args' w0) ->
  widget_changing widget f args w = widget_changing widget f' args' w.
Proof.
  intros H. unfold widget_changing, changing_append. unfold_M. rewrite H. reflexivity.
Qed.

Lemma slider_scale call fuel g lo hi sc func w :
  (d <- meta (slider call fuel g lo hi sc func) "_slider" ;; prop_value d "scale") w
    = Ok sc w.
Proof.
  unfold meta.
  assert (H : fn_dict (slider call fuel g lo hi sc func) !! "_slider" =
              Some (ADict (<["minimum" := PVal lo]> (<["maximum" := PVal hi]>
                            (<["scale" := PVal sc]> (<["getfunc" := getfunc_prop g]> ∅)))))).
  { lookup_dict. }
  rewrite H. unfold_M. unfold prop_value.
  rewrite !lookup_insert_ne by discriminate. rewrite lookup_insert_eq. reflexivity.
Qed.

Lemma for_in_singleton fuel l c body w w' :
  lists w !! l = Some [c] ->
  body c w = Ok tt w' ->
  lists w' !! l = Some [c] ->
  for_in (S (S fuel)) l 0 body w = Ok tt w'.
Proof.
  intros Hl Hb Hl'. cbn [for_in]. rewrite Hl. cbn [lookup list_lookup].
  unfold bind. rewrite Hb, Hl'. reflexivity.
Qed.

(** [add_widget] for a control with a reflect lambda [u], on a method with a
    listener accessor and a getter: the reflect-listener is registered and
    then called with [getfunc(self)]. *)
Lemma add_widget_initialises call m0 f nm widget d u getf lname w0 :
  fn_dict f !! "listeners" = Some (AGetListeners lname lname) ->
  d !! "getfunc" = Some (PFunc getf) ->
  add_widget call m0 f nm widget d (Some u) w0 =
    (ls <- get_listeners lname lname (im_self m0) ;;
     list_append ls (Updater widget u) ;;;
     curval <- getf (im_self m0) ;;
     call (Updater widget u) [curval] ;;;
     ret (default (fn_name f) nm, widget)) w0.
Proof.
  intros Hl Hg. unfold add_widget. rewrite Hl, Hg. unfold bind, ret.
  destruct (get_listeners lname lname (im_self m0) w0) as [ls w1|e w1|]; try reflexivity.
  destruct (list_append ls (Updater widget u) w1) as [[] w2|e w2|]; try reflexivity.
  destruct (getf (im_self m0) w2) as [curval w3|e w3|]; try reflexivity.
  destruct (call (Updater widget u) [curval] w3) as [v w4|e w4|]; reflexivity.
Qed.

Lemma qBound_id a z b : a <= z <= b -> qBound a z b = z.
Proof. unfold qBound. lia. Qed.

Lemma setRange_still call i a b a' b' w :
  widgets w !! i = Some (QSlider a b 0) ->
  a' <= 0 <= Z.max a' b' ->
  setRange call i a' b' w = Ok tt (set_widgets <[i := QSlider a' (Z.max a' b') 0]> w).
Proof.
  intros Hw Hr. unfold setRange. rewrite Hw. unfold slider_set.
  cbn [widgets set_widgets]. rewrite lookup_insert_eq.
  rewrite (qBound_id a' 0 (Z.max a' b')) by assumption.
  rewrite bool_decide_eq_true_2 by reflexivity. reflexivity.
Qed.

(** The range of a new slider is set without a signal when it holds 0. *)
Lemma set_range_new call i lo hi w :
  widgets w !! i = Some (QSlider 0 99 0) ->
  lo <= 0 <= hi ->
  exists w1 w2,
    setMaximum call i (VInt hi) w = Ok tt w1
    /\ setMinimum call i (VInt lo) w1 = Ok tt w2
    /\ widgets w2 !! i = Some (QSlider lo hi 0)
    /\ attrs w2 = attrs w /\ lists w2 = lists w /\ slots w2 = slots w
    /\ changing_widgets w2 = changing_widgets w.
Proof.
  intros Hw Hr.
  set (w1 := set_widgets <[i := QSlider (Z.min 0 hi) (Z.max (Z.min 0 hi) hi) 0]> w).
  assert (H1 : setMaximum call i (VInt hi) w = Ok tt w1).
  { unfold setMaximum. cbn [as_int]. unfold bind, slider_range. rewrite Hw.
    cbn [fst]. apply (setRange_still call i 0 99); [exact Hw|lia]. }
  assert (Hw1 : widgets w1 !! i = Some (QSlider (Z.min 0 hi) (Z.max (Z.min 0 hi) hi) 0)).
  { unfold w1. simpl. apply lookup_insert_eq. }
  set (top := Z.max (Z.max (Z.min 0 hi) hi) lo).
  assert (H2 : setMinimum call i (VInt lo) w1
               = Ok tt (set_widgets <[i := QSlider lo (Z.max lo top) 0]> w1)).
  { unfold setMinimum. cbn [as_int]. unfold bind, slider_range. rewrite Hw1.
    cbn [snd]. fold top. eapply setRange_still; [exact Hw1|unfold top; lia]. }
  exists w1. eexists. split; [exact H1|]. split; [exact H2|].
  simpl. rewrite lookup_insert_eq.
  replace (Z.max lo top) with hi by (unfold top; lia). auto.
Qed.

(** The first listener registered under a name. *)
Lemma register_first self name u w :
  listener_slot_ok w self name ->
  registered w self name = [] ->
  exists l w',
    (ls <- get_listeners name name self ;; list_append ls u) w = Ok tt w'
    /\ attrs w' !! (self, name) = Some (VList l)
    /\ lists w' !! l = Some [u]
    /\ widgets w' = widgets w /\ slots w' = slots w
    /\ changing_widgets w' = changing_widgets w
    /\ (forall k, k <> (self, name) -> attrs w' !! k = attrs w !! k).
Proof.
  intros Hok Hreg.
  assert (Hnew : attrs w !! (self, name) = None \/ attrs w !! (self, name) = Some VNone ->
    exists l w',
      (ls <- get_listeners name name self ;; list_append ls u) w = Ok tt w'
      /\ attrs w' !! (self, name) = Some (VList l)
      /\ lists w' !! l = Some [u]
      /\ widgets w' = widgets w /\ slots w' = slots w
      /\ changing_widgets w' = changing_widgets w
      /\ (forall k, k <> (self, name) -> attrs w' !! k = attrs w !! k)).
  { intros Ha. set (l := fresh (dom (lists w))).
    exists l. eexists. split.
    - unfold get_listeners, getattr, new_list, setattr, list_append. unfold_M.
      destruct Ha as [-> | ->]; cbn [lists set_lists set_attrs];
        fold l; rewrite lookup_insert_eq; reflexivity.
    - simpl. rewrite !lookup_insert_eq. repeat split; try reflexivity.
      intros k Hk. apply lookup_insert_ne. congruence. }
  unfold listener_slot_ok in Hok. unfold registered in Hreg.
  destruct (attrs w !! (self, name)) as [v|] eqn:Ha; [|auto].
  destruct v; try contradiction; [auto|].
  destruct Hok as [cs Hcs]. rewrite Hcs in Hreg. simpl in Hreg. subst cs.
  exists l. eexists. split.
  - rewrite (bind_ok _ _ _ _ _ (get_listeners_existing name self w l Ha)).
    unfold list_append. rewrite Hcs. reflexivity.
  - simpl. rewrite lookup_insert_eq. repeat split; auto.
Qed.

Section BoundSlider.

Variable P : program.
Variable m : method_ref.
Variable func : pyfunc.
Variable g : option (oid -> M value).
Variables lo hi sc : Z.

Hypothesis Hcls : forall call fuel,
  classes P call fuel m = Some (slider call fuel g (VInt lo) (VInt hi) (VInt sc) func).
Hypothesis Hsc : sc <> 0.
Hypothesis Hplain : plain_setter func (im_self m).

Let self := im_self m.
Let name := listener_list_name func.

(** The slot's lambda: the setter is called with the position divided by
    the scale. *)
Lemma slider_changed_call n x w :
  call_depth P (S n) (SliderChanged m) [VInt x] w =
    fn_call (slider (call_depth P n) n g (VInt lo) (VInt hi) (VInt sc) func)
      self [VInt (x / sc)] w.
Proof.
  rewrite call_depth_S. cbn [interp]. unfold slider_changed, method_meta, call_method.
  rewrite Hcls.
  rewrite <- bind_assoc.
  rewrite (bind_ok _ _ _ _ _ (slider_scale _ _ _ _ _ _ _ w)).
  unfold py_div. cbn [as_int]. rewrite bool_decide_eq_false_2 by assumption.
  reflexivity.
Qed.

(** The reflect lambda: the control is set to the value times the scale. *)
Lemma slider_update_call n widget v w :
  call_depth P (S n) (SliderUpdate m widget) [VInt v] w =
    (slider_set (call_depth P n) widget (v * sc) ;;; ret VNone) w.
Proof.
  rewrite call_depth_S. cbn [interp]. unfold slider_update, method_meta.
  rewrite Hcls.
  rewrite <- bind_assoc.
  rewrite (bind_ok _ _ _ _ _ (slider_scale _ _ _ _ _ _ _ w)).
  reflexivity.
Qed.

(** The slot of the control, called by the change signal with position
    [x]: one call of the setter, with [x / sc], and nothing else changes. *)
Lemma slider_handler n widget x w l :
  widget ∉ changing_widgets w ->
  attrs w !! (self, name) = Some (VList l) ->
  lists w !! l = Some [Updater widget (SliderUpdate m widget)] ->
  exists w',
    call_depth P (S (S (S (S n)))) (ChangingSetter widget (SliderChanged m)) [VInt x] w
      = Ok VNone w'
    /\ attrs w' !! (self, name) = Some (VList l)
    /\ lists w' = lists w /\ widgets w' = widgets w /\ slots w' = slots w
    /\ changing_widgets w' = changing_widgets w
    /\ called w' = called w ++ [(fn_name func, self, [VInt (x / sc)])].
Proof.
  intros Hfree Ha Hl.
  set (w_func := wraps func (PyFunc "w_func" ∅ (fun self args => fn_call func self args))).
  set (wa := log_call w_func self [VInt (x / sc)]
               (set_changing (fun l => l ++ [widget]) w)).
  destruct (Hplain (VInt (x / sc)) wa) as (w1 & Hf & Hk).
  pose proof Hk as (Hka & Hkc & _).
  destruct (controls_eq _ _ Hkc) as (Hl1 & _).
  destruct (handler_guarded (call_depth P (S (S n))) (S (S n)) widget w_func self
              [VInt (x / sc)] w VNone w1 l [Updater widget (SliderUpdate m widget)])
    as (w' & Hh & Ha' & Hl' & Hw' & Hs' & Hcw' & Hcd' & _); auto.
  { etransitivity; [exact Hka|exact Ha]. }
  { rewrite Hl1. exact Hl. }
  { repeat constructor.
    eapply (guarded_of_updater _ (call_depth P (S n))). intros a w0. reflexivity. }
  { simpl. lia. }
  exists w'. split.
  - rewrite call_depth_S. cbn [interp].
    rewrite (widget_changing_ext widget _
               (newfunc (call_depth P (S (S n))) (S (S n)) w_func self)
               [VInt x] [VInt (x / sc)]).
    + exact Hh.
    + intros w0. rewrite slider_changed_call. reflexivity.
  - repeat split; try assumption.
    rewrite Ha'. etransitivity; [exact Hka|exact Ha].
Qed.

(** Setting the position of a bound slider, by hand or by program: when
    the position changes, the change signal calls the setter once. *)
Lemma slider_set_bound n widget a b pos z w :
  bound_slider w m name widget a b pos ->
  exists w',
    slider_set (call_depth P (S (S (S (S n))))) widget z w = Ok tt w'
    /\ bound_slider w' m name widget a b (qBound a z b)
    /\ lists w' = lists w
    /\ attrs w' !! (self, name) = attrs w !! (self, name)
    /\ called w' =
         called w ++ (if bool_decide (qBound a z b = pos) then []
                      else [(fn_name func, self, [VInt (qBound a z b / sc)])]).
Proof.
  intros (Hfree & Hw & Hs & l & Ha & Hl).
  unfold slider_set. rewrite Hw.
  destruct (bool_decide (qBound a z b = pos)) eqn:Hd.
  - apply bool_decide_eq_true_1 in Hd. exists w. rewrite app_nil_r, Hd.
    repeat split; try assumption. exists l. auto.
  - set (w_set := set_widgets <[widget := QSlider a b (qBound a z b)]> w).
    destruct (slider_handler n widget (qBound a z b) w_set l)
      as (w' & Hh & Ha' & Hl' & Hw' & Hs' & Hcw' & Hcd'); auto.
    exists w'. unfold emit. change (slots w_set) with (slots w). rewrite Hs, Hh.
    split; [reflexivity|]. split; [|split; [|split]].
    + split; [rewrite Hcw'; exact Hfree|].
      split; [rewrite Hw'; simpl; apply lookup_insert_eq|].
      split; [rewrite Hs'; exact Hs|].
      exists l. split; [exact Ha'|]. rewrite Hl'. exact Hl.
    + exact Hl'.
    + rewrite Ha'. symmetry. exact Ha.
    + exact Hcd'.
Qed.

(** The reflect-listener of a bound slider that is not being edited moves
    the control to the value times the scale, within its range. *)
Lemma reflect_bound n widget a b pos v w :
  bound_slider w m name widget a b pos ->
  exists w',
    call_depth P (S (S (S (S (S (S n)))))) (Updater widget (SliderUpdate m widget))
      [VInt v] w = Ok VNone w'
    /\ bound_slider w' m name widget a b (qBound a (v * sc) b)
    /\ lists w' = lists w
    /\ attrs w' !! (self, name) = attrs w !! (self, name).
Proof.
  intros Hb. pose proof Hb as (Hfree & _).
  destruct (slider_set_bound n widget a b pos (v * sc) w Hb)
    as (w' & Hset & Hb' & Hl' & Ha' & _).
  exists w'. split; [|auto].
  rewrite call_depth_S. cbn [interp].
  rewrite updating_widget_free by assumption.
  rewrite slider_update_call. rewrite (bind_ok _ _ _ _ _ Hset). reflexivity.
Qed.

Lemma bound_slider_keeps w w' widget a b pos :
  bound_slider w m name widget a b pos ->
  attrs w' !! (self, name) = attrs w !! (self, name) ->
  controls w' = controls w ->
  bound_slider w' m name widget a b pos.
Proof.
  intros (Hfree & Hw & Hs & l & Ha & Hl) Hka Hkc.
  destruct (controls_eq _ _ Hkc) as (Hl1 & Hw1 & Hs1 & Hcw1 & _).
  split; [rewrite Hcw1; exact Hfree|].
  split; [rewrite Hw1; exact Hw|].
  split; [rewrite Hs1; exact Hs|].
  exists l. split; [etransitivity; [exact Hka|exact Ha]|]. rewrite Hl1. exact Hl.
Qed.

(** A direct call of the setter of a bound slider moves the control. *)
Lemma direct_call_bound n widget a b pos v w :
  bound_slider w m name widget a b pos ->
  exists w',
    fn_call (slider (call_depth P (S (S (S (S (S (S n)))))))
               (S (S (S (S (S (S n)))))) g (VInt lo) (VInt hi) (VInt sc) func)
      self [VInt v] w = Ok VNone w'
    /\ bound_slider w' m name widget a b (qBound a (v * sc) b).
Proof.
  intros Hb.
  set (N := S (S (S (S (S (S n)))))).
  set (w_func := wraps func (PyFunc "w_func" ∅ (fun self args => fn_call func self args))).
  destruct (Hplain (VInt v) (log_call w_func self [VInt v] w)) as (w1 & Hf & Hka & Hkc & Hki).
  assert (Hb1 : bound_slider
                  (set_invoked (fun i => i ++ [(Updater widget (SliderUpdate m widget),
                                                 [VInt v])]) w1)
                  m name widget a b pos).
  { eapply (bound_slider_keeps (log_call w_func self [VInt v] w));
      [exact Hb|exact Hka|exact Hkc]. }
  pose proof Hb1 as (_ & _ & _ & l & Ha1 & Hl1).
  destruct (reflect_bound n widget a b pos v _ Hb1) as (w2 & Hr & Hb2 & Hl2 & Ha2).
  exists w2. split; [|exact Hb2].
  rewrite slider_call, newfunc_unfold, bind_modify.
  fold w_func. cbn [fn_call wraps w_func] in Hf |- *.
  rewrite (bind_ok _ _ _ _ _ Hf).
  change (listener_list_name w_func) with name.
  rewrite (bind_ok _ _ _ _ _ (get_listeners_existing name self w1 l Ha1)).
  unfold for_listeners.
  assert (Hloop : for_in N l 0 (notify (call_depth P N) VNone [VInt v]) w1 = Ok tt w2).
  { apply (for_in_singleton _ _ (Updater widget (SliderUpdate m widget))).
    - exact Hl1.
    - rewrite notify_payload. cbn [payload]. rewrite bind_modify.
      unfold bind at 1. unfold N. rewrite Hr. reflexivity.
    - rewrite Hl2. exact Hl1. }
  rewrite (bind_ok _ _ _ _ _ Hloop). reflexivity.
Qed.

(** C8. For a bound slider (with [lo = 0], [hi = 100] and [sc = 1]: the
    slider of the specification) a drag of the control to the raw position
    [x] calls the
    setter, once, with [x] divided by the scale; a direct call of the setter
    with [v] afterwards leaves the control at [v] times the scale, within the
    range; and with scale [1] both mappings are the identity, so that raw
    position [x] comes back as [x]. *)
Theorem slider_round_trip n widget pos x v w :
  bound_slider w m name widget lo hi pos ->
  lo <= x <= hi ->
  x <> pos ->
  exists w1 w2,
    user_drag P (S (S (S (S n)))) widget x w = Ok tt w1
    /\ called w1 = called w ++ [(fn_name func, self, [VInt (x / sc)])]
    /\ widgets w1 !! widget = Some (QSlider lo hi x)
    /\ fn_call (slider (call_depth P (S (S (S (S (S (S n)))))))
                  (S (S (S (S (S (S n)))))) g (VInt lo) (VInt hi) (VInt sc) func)
         self [VInt v] w1 = Ok VNone w2
    /\ widgets w2 !! widget = Some (QSlider lo hi (qBound lo (v * sc) hi))
    /\ (sc = 1 ->
        x / sc = x /\ qBound lo (x / sc * sc) hi = x
        /\ (lo <= v <= hi -> qBound lo (v * sc) hi = v)).
Proof.
  intros Hb Hx Hne.
  destruct (slider_set_bound n widget lo hi pos x w Hb) as (w1 & Hset & Hb1 & _ & _ & Hcd).
  rewrite (qBound_id lo x hi Hx) in Hb1, Hcd.
  rewrite bool_decide_eq_false_2 in Hcd by assumption.
  destruct (direct_call_bound n widget lo hi x v w1 Hb1) as (w2 & Hcall & Hb2).
  exists w1, w2.
  split; [exact Hset|]. split; [exact Hcd|].
  split; [apply Hb1|]. split; [exact Hcall|]. split; [apply Hb2|].
  intros ->. rewrite Z.div_1_r, !Z.mul_1_r.
  split; [reflexivity|]. split; [apply qBound_id; exact Hx|apply qBound_id].
Qed.

Lemma slider_dict_other call fuel kind :
  fn_dict func = ∅ ->
  kind <> "_slider" -> kind <> "listeners" ->
  fn_dict (slider call fuel g (VInt lo) (VInt hi) (VInt sc) func) !! kind = None.
Proof.
  intros Hd H1 H2.
  cbn [fn_dict slider notifying_setter metadata wraps].
  rewrite !map_union_empty, Hd.
  rewrite lookup_insert_ne by congruence. rewrite lookup_insert_ne by congruence.
  apply lookup_empty.
Qed.

Lemma if_hasattr_none f kind block w :
  fn_dict f !! kind = None -> if_hasattr f kind block w = Ok [] w.
Proof. intros H. unfold if_hasattr. rewrite H. reflexivity. Qed.

(** Binding a slider whose range holds 0, outside any edit, on a method
    without listeners yet: the control then shows the getter's value times
    the scale, within the range. *)
Lemma slider_binding n getf g0 w :
  g = Some getf ->
  fn_dict func = ∅ ->
  lo <= 0 <= hi ->
  changing_widgets w = [] ->
  listener_slot_ok w self name ->
  registered w self name = [] ->
  (forall w0, (forall k, k <> (self, name) -> attrs w0 !! k = attrs w !! k) ->
     exists w0', getf self w0 = Ok (VInt g0) w0' /\ keeps self name w0 w0') ->
  exists w',
    get_widgets_for_method
      (call_depth P (S (S (S (S (S (S n)))))))
      (classes P (call_depth P (S (S (S (S (S (S n))))))) (S (S (S (S (S (S n)))))))
      m w
    = Ok [(fn_name func, fresh (dom (widgets w)))] w'
    /\ bound_slider w' m name (fresh (dom (widgets w))) lo hi (qBound lo (g0 * sc) hi).
Proof.
  intros Hg Hdict Hr Hcw Hok Hreg Hget.
  set (N := S (S (S (S (S (S n)))))).
  set (i := fresh (dom (widgets w))).
  set (u := SliderUpdate m i).
  set (slot := ChangingSetter i (SliderChanged m)).
  set (d := <["minimum" := PVal (VInt lo)]> (<["maximum" := PVal (VInt hi)]>
              (<["scale" := PVal (VInt sc)]> (<["getfunc" := getfunc_prop g]>
                 (∅ : gmap string propval))))).
  set (Sl := slider (call_depth P N) N g (VInt lo) (VInt hi) (VInt sc) func).
  (* the steps of the slider block *)
  set (wa := set_widgets <[i := QSlider 0 99 0]> w).
  assert (Hnew : new_widget (QSlider 0 99 0) w = Ok i wa) by reflexivity.
  assert (Hwa : widgets wa !! i = Some (QSlider 0 99 0)).
  { unfold wa. simpl. apply lookup_insert_eq. }
  destruct (set_range_new (call_depth P N) i lo hi wa Hwa Hr)
    as (wb & wc & Hmax & Hmin & Hwc & Hac & Hlc & Hsc' & Hcwc).
  set (wd := set_slots <[i := slot]> wc).
  assert (Hconn : connect i slot wc = Ok tt wd) by reflexivity.
  assert (Hokd : listener_slot_ok wd self name).
  { unfold listener_slot_ok. change (attrs wd) with (attrs wc).
    change (lists wd) with (lists wc). rewrite Hac, Hlc. exact Hok. }
  assert (Hregd : registered wd self name = []).
  { unfold registered. change (attrs wd) with (attrs wc).
    change (lists wd) with (lists wc). rewrite Hac, Hlc. exact Hreg. }
  destruct (register_first self name (Updater i u) wd Hokd Hregd)
    as (l & wf & Hregister & Haf & Hlf & Hwf & Hsf & Hcwf & Hotherf).
  destruct (Hget wf) as (wg & Hgetf & Hka & Hkc & _).
  { intros k Hk. rewrite (Hotherf k Hk). change (attrs wd) with (attrs wc).
    rewrite Hac. reflexivity. }
  destruct (controls_eq _ _ Hkc) as (Hlg & Hwg & Hsg & Hcwg & _).
  assert (Hbg : bound_slider wg m name i lo hi 0).
  { split; [rewrite Hcwg, Hcwf; change (changing_widgets wd) with (changing_widgets wc);
            rewrite Hcwc; change (changing_widgets wa) with (changing_widgets w);
            rewrite Hcw; apply not_elem_of_nil|].
    split; [rewrite Hwg, Hwf; exact Hwc|].
    split; [rewrite Hsg, Hsf; unfold wd; simpl; apply lookup_insert_eq|].
    exists l. split; [etransitivity; [exact Hka|exact Haf]|].
    rewrite Hlg. exact Hlf. }
  destruct (reflect_bound n i lo hi 0 g0 wg Hbg) as (wh & Hreflect & Hbh & _).
  exists wh. split; [|exact Hbh].
  (* the code *)
  unfold get_widgets_for_method. rewrite Hcls. fold N Sl.
  assert (Hblock : if_hasattr Sl "_slider" (fun d =>
              widget <- new_widget (QSlider 0 99 0) ;;
              mx <- prop_value d "maximum" ;;
              setMaximum (call_depth P N) widget mx ;;;
              mn <- prop_value d "minimum" ;;
              setMinimum (call_depth P N) widget mn ;;;
              connect widget (ChangingSetter widget (SliderChanged m)) ;;;
              add_widget (call_depth P N) m Sl None widget d
                (Some (SliderUpdate m widget))) w
            = Ok [(fn_name func, i)] wh).
  { unfold if_hasattr.
    assert (Hd : fn_dict Sl !! "_slider" = Some (ADict d)) by (unfold Sl; lookup_dict).
    rewrite Hd.
    assert (Hmx : forall w0, prop_value d "maximum" w0 = Ok (VInt hi) w0).
    { intros w0. unfold prop_value, d.
      rewrite lookup_insert_ne by discriminate. rewrite lookup_insert_eq. reflexivity. }
    assert (Hmn : forall w0, prop_value d "minimum" w0 = Ok (VInt lo) w0).
    { intros w0. unfold prop_value, d. rewrite lookup_insert_eq. reflexivity. }
    assert (Hgf : d !! "getfunc" = Some (PFunc getf)).
    { unfold d. rewrite !lookup_insert_ne by discriminate.
      rewrite lookup_insert_eq, Hg. reflexivity. }
    cbv beta.
    match goal with
    | |- bind ?blk _ w = _ => assert (Hb : blk w = Ok (fn_name func, i) wh)
    end.
    { rewrite (bind_ok _ _ _ _ _ Hnew), (bind_ok _ _ _ _ _ (Hmx wa)).
      rewrite (bind_ok _ _ _ _ _ Hmax), (bind_ok _ _ _ _ _ (Hmn wb)).
      rewrite (bind_ok _ _ _ _ _ Hmin), (bind_ok _ _ _ _ _ Hconn).
      rewrite (add_widget_initialises _ _ _ _ _ _ _ getf name)
        by (try exact Hgf; unfold Sl; apply slider_listeners).
      rewrite <- bind_assoc.
      rewrite (bind_ok _ _ _ _ _ Hregister), (bind_ok _ _ _ _ _ Hgetf).
      fold u. rewrite (bind_ok _ _ _ _ _ Hreflect). reflexivity. }
    rewrite (bind_ok _ _ _ _ _ Hb). reflexivity. }
  rewrite (bind_ok _ _ _ _ _ Hblock).
  assert (Hnone : forall kind block,
            kind <> "_slider" -> kind <> "listeners" ->
            if_hasattr Sl kind block wh = Ok [] wh).
  { intros kind block H1 H2. apply if_hasattr_none.
    unfold Sl. apply slider_dict_other; assumption. }
  rewrite (bind_ok _ _ _ _ _ (Hnone "_button" _ ltac:(discriminate) ltac:(discriminate))).
  rewrite (bind_ok _ _ _ _ _ (Hnone "_combobox" _ ltac:(discriminate) ltac:(discriminate))).
  rewrite (bind_ok _ _ _ _ _ (Hnone "_textbox" _ ltac:(discriminate) ltac:(discriminate))).
  rewrite (bind_ok _ _ _ _ _ (Hnone "_checkbox" _ ltac:(discriminate) ltac:(discriminate))).
  reflexivity.
Qed.

End BoundSlider.

(** * Further properties of the code *)

(** ** Check states *)

(** X1. A check state converted to a Python value by [_checkstate_to_bool]
    and back by [_bool_to_checkstate] is the state it was. *)
Theorem checkstate_round_trip cs :
  _bool_to_checkstate (_checkstate_to_bool cs) = cs.
Proof. destruct cs; reflexivity. Qed.

(** X2. A hashable Python value converted to a check state and back comes
    out as [True] when it equals [True], as [False] when it equals [False]
    (so [1] and [0] do), and as [None] otherwise: only [True], [False] and
    [None] survive the round trip unchanged. *)
Theorem bool_round_trip v :
  (forall l, v <> VList l) ->
  _checkstate_to_bool (_bool_to_checkstate v) =
    (if py_eq v (VBool true) then VBool true
     else if py_eq v (VBool false) then VBool false
     else VNone)
  /\ (_checkstate_to_bool (_bool_to_checkstate v) = v <->
      v = VBool true \/ v = VBool false \/ v = VNone).
Proof.
  intros Hhash. split.
  - unfold _bool_to_checkstate, py_eq.
    destruct v as [|[]|z|s|l]; simpl; try reflexivity.
    destruct z as [|[p|p|]|p]; reflexivity.
  - unfold _bool_to_checkstate.
    destruct v as [|[]|z|s|l]; simpl.
    + split; auto.
    + split; auto.
    + split; auto.
    + split.
      * destruct z as [|[p|p|]|p]; simpl; discriminate.
      * intros [H|[H|H]]; discriminate.
    + split; [discriminate|]. intros [H|[H|H]]; discriminate.
    + exfalso. apply (Hhash l). reflexivity.
Qed.

(** ** Decorators and attributes of functions *)

(** X3. Every decorator hands on the name of the function it decorates, and
    the attributes of the function except those it sets itself: its own
    metadata dict and, for the four value decorators, the accessor
    [listeners], whose list name is made from the name of the decorated
    function.  So in a stack of decorators the metadata of each kind stays
    visible on the outermost function. *)
Theorem decorators_keep_attributes call fuel g mn mx sc options func k :
  fn_name (slider call fuel g mn mx sc func) = fn_name func
  /\ fn_name (combobox call fuel options g func) = fn_name func
  /\ fn_name (checkbox call fuel g func) = fn_name func
  /\ fn_name (textbox call fuel g func) = fn_name func
  /\ fn_name (button func) = fn_name func
  /\ (k <> "_slider" -> k <> "listeners" ->
      fn_dict (slider call fuel g mn mx sc func) !! k = fn_dict func !! k)
  /\ (k <> "_combobox" -> k <> "listeners" ->
      fn_dict (combobox call fuel options g func) !! k = fn_dict func !! k)
  /\ (k <> "_checkbox" -> k <> "listeners" ->
      fn_dict (checkbox call fuel g func) !! k = fn_dict func !! k)
  /\ (k <> "_textbox" -> k <> "listeners" ->
      fn_dict (textbox call fuel g func) !! k = fn_dict func !! k)
  /\ (k <> "_button" -> fn_dict (button func) !! k = fn_dict func !! k)
  /\ (forall d : pyfunc -> pyfunc,
        d = slider call fuel g mn mx sc \/ d = combobox call fuel options g
        \/ d = checkbox call fuel g \/ d = textbox call fuel g ->
        fn_dict (d func) !! "listeners" =
          Some (AGetListeners (listener_list_name func) (listener_list_name func))).
Proof.
  repeat (split; [reflexivity|]).
  assert (Hw : forall f : pyfunc,
            fn_dict (wraps f (PyFunc "w_func" ∅ (fun self args => fn_call f self args)))
            = fn_dict f).
  { intros f. cbn [fn_dict wraps]. apply map_union_empty. }
  repeat split.
  - intros H1 H2. unfold slider. rewrite metadata_lookup, notifying_setter_lookup.
    rewrite !decide_False by assumption. rewrite Hw. reflexivity.
  - intros H1 H2. unfold combobox. rewrite metadata_lookup, notifying_setter_lookup.
    rewrite !decide_False by assumption. rewrite Hw. reflexivity.
  - intros H1 H2. unfold checkbox. rewrite metadata_lookup, notifying_setter_lookup.
    rewrite !decide_False by assumption. rewrite Hw. reflexivity.
  - intros H1 H2. unfold textbox. rewrite metadata_lookup, notifying_setter_lookup.
    rewrite !decide_False by assumption. rewrite Hw. reflexivity.
  - intros H1. unfold button. rewrite metadata_lookup.
    rewrite decide_False by assumption. rewrite Hw. reflexivity.
  - intros d [-> | [-> | [-> | ->]]].
    + apply slider_listeners.
    + unfold combobox. rewrite metadata_lookup, notifying_setter_lookup.
      rewrite decide_False by discriminate. rewrite decide_True by reflexivity.
      reflexivity.
    + unfold checkbox. rewrite metadata_lookup, notifying_setter_lookup.
      rewrite decide_False by discriminate. rewrite decide_True by reflexivity.
      reflexivity.
    + apply textbox_listeners.
Qed.

(** ** Listeners that raise, and listeners that register *)

Lemma for_in_raising call r args l pre c post e : forall fuel i w,
  lists w !! l = Some (pre ++ c :: post) ->
  Forall (quiet call (payload r args)) pre ->
  raising call (payload r args) e c ->
  (i <= length pre)%nat ->
  (length pre - i < fuel)%nat ->
  exists w', for_in fuel l i (notify call r args) w = Raise e w'
             /\ lists w' = lists w
             /\ invoked w' =
                  invoked w ++ map (fun c => (c, payload r args)) (drop i pre ++ [c]).
Proof.
  induction fuel as [|fuel IH]; intros i w Hl Hq Hr Hi Hfuel; [lia|].
  cbn [for_in]. rewrite Hl.
  destruct (decide (i = length pre)) as [->|Hne].
  - rewrite list_lookup_middle by reflexivity.
    destruct (Hr (set_invoked (fun i => i ++ [(c, payload r args)]) w))
      as (w' & Hcall & Hl' & Hi').
    exists w'. split; [|split].
    + rewrite notify_payload. unfold_M. rewrite Hcall. reflexivity.
    + rewrite Hl'. reflexivity.
    + rewrite Hi'. rewrite drop_ge by lia. reflexivity.
  - assert (Hlt : (i < length pre)%nat) by lia.
    destruct (lookup_lt_is_Some_2 pre i Hlt) as [c0 Hc0].
    rewrite (lookup_app_l_Some _ _ _ _ Hc0).
    assert (Hq0 : quiet call (payload r args) c0).
    { eapply Forall_forall; [exact Hq|]. eapply list_elem_of_lookup_2; eauto. }
    destruct (Hq0 (set_invoked (fun i => i ++ [(c0, payload r args)]) w))
      as (v & w1 & Hcall & Ha1 & Hl1 & Hi1).
    destruct (IH (S i) w1) as (w' & Hloop & Hl' & Hi');
      [rewrite Hl1; exact Hl | exact Hq | exact Hr | lia | lia |].
    exists w'. split; [|split].
    + rewrite notify_payload. unfold_M. rewrite Hcall. exact Hloop.
    + rewrite Hl', Hl1. reflexivity.
    + rewrite Hi', Hi1. simpl. rewrite (drop_S _ _ _ Hc0). simpl.
      rewrite <- app_assoc. reflexivity.
Qed.

(** X4. Listeners are called one after the other with nothing between them
    and the caller: when a listener raises, the call of the notifying setter
    ends with that exception although the wrapped setter had returned; the
    listeners registered before it have been called, once each and in order,
    and the listeners registered after it are not called. *)
Theorem listener_error_stops_notification
    call fuel func self args w r w1 l pre c post e :
  fn_call func self args (log_call func self args w) = Ok r w1 ->
  attrs w1 !! (self, listener_list_name func) = Some (VList l) ->
  lists w1 !! l = Some (pre ++ c :: post) ->
  Forall (quiet call (payload r args)) pre ->
  raising call (payload r args) e c ->
  (length pre < fuel)%nat ->
  exists w2,
    fn_call (notifying_setter call fuel func) self args w = Raise e w2
    /\ invoked w2 =
         invoked w1 ++ map (fun c => (c, payload r args)) (pre ++ [c]).
Proof.
  intros Hf Ha Hl Hq Hr Hfuel.
  destruct (for_in_raising call r args l pre c post e fuel 0%nat w1)
    as (w2 & Hloop & _ & Hi); auto; [lia|lia|].
  exists w2. split; [|rewrite drop_0 in Hi; exact Hi].
  rewrite fn_call_notifying_setter, newfunc_unfold, bind_modify.
  rewrite (bind_ok _ _ _ _ _ Hf).
  rewrite (bind_ok _ _ _ _ _ (get_listeners_existing _ _ _ _ Ha)).
  unfold for_listeners. rewrite (bind_raise _ _ _ _ _ Hloop). reflexivity.
Qed.

(** X5. The notification loop runs over the list object itself, not over a
    copy: a listener that registers a further listener [c'] while it is being
    notified makes [c'] be notified in the same call, after it. *)
Theorem listener_registered_during_notification
    call fuel func self args w r w1 l c c' :
  fn_call func self args (log_call func self args w) = Ok r w1 ->
  attrs w1 !! (self, listener_list_name func) = Some (VList l) ->
  lists w1 !! l = Some [c] ->
  registering call (payload r args) self (listener_list_name func) l c' c ->
  quiet call (payload r args) c' ->
  (2 < fuel)%nat ->
  exists w2,
    fn_call (notifying_setter call fuel func) self args w = Ok r w2
    /\ invoked w2 = invoked w1 ++ [(c, payload r args); (c', payload r args)]
    /\ lists w2 !! l = Some [c; c'].
Proof.
  intros Hf Ha Hl Hreg Hq Hfuel.
  destruct fuel as [|[|[|fuel]]]; try lia.
  set (p := payload r args) in *.
  destruct (Hreg (set_invoked (fun i => i ++ [(c, p)]) w1) [c] Ha Hl)
    as (v1 & wa & Hc1 & Haa & Hla & Hia).
  assert (Hla' : lists wa !! l = Some [c; c']).
  { rewrite Hla. simpl. apply lookup_insert_eq. }
  destruct (Hq (set_invoked (fun i => i ++ [(c', p)]) wa))
    as (v2 & wb & Hc2 & Hab & Hlb & Hib).
  assert (Hlb' : lists wb !! l = Some [c; c']).
  { rewrite Hlb. exact Hla'. }
  exists wb. split; [|split].
  - rewrite fn_call_notifying_setter, newfunc_unfold, bind_modify.
    rewrite (bind_ok _ _ _ _ _ Hf).
    rewrite (bind_ok _ _ _ _ _ (get_listeners_existing _ _ _ _ Ha)).
    unfold for_listeners.
    assert (Hloop : for_in (S (S (S fuel))) l 0 (notify call r args) w1 = Ok tt wb).
    { cbn [for_in]. rewrite Hl. cbn [lookup list_lookup].
      rewrite notify_payload. fold p. unfold bind at 1. rewrite bind_modify.
      unfold bind at 1. rewrite Hc1. unfold ret at 1.
      rewrite Hla'. cbn [lookup list_lookup].
      rewrite notify_payload. fold p. unfold bind at 1. rewrite bind_modify.
      unfold bind at 1. rewrite Hc2. unfold ret at 1.
      rewrite Hlb'. reflexivity. }
    rewrite (bind_ok _ _ _ _ _ Hloop). reflexivity.
  - rewrite Hib. simpl. rewrite Hia. simpl. rewrite <- app_assoc. reflexivity.
  - exact Hlb'.
Qed.

Lemma for_in_self_registering call r args self name l c : forall fuel i w cs,
  registering call (payload r args) self name l c c ->
  attrs w !! (self, name) = Some (VList l) ->
  lists w !! l = Some cs ->
  Forall (fun x => x = c) cs ->
  (i < length cs)%nat ->
  for_in fuel l i (notify call r args) w = Timeout.
Proof.
  induction fuel as [|fuel IH]; intros i w cs Hreg Ha Hl Hall Hi; [reflexivity|].
  cbn [for_in]. rewrite Hl.
  destruct (lookup_lt_is_Some_2 cs i Hi) as [x Hx].
  assert (x = c) as ->.
  { eapply (proj1 (Forall_forall _ _) Hall). eapply list_elem_of_lookup_2; eauto. }
  rewrite Hx.
  destruct (Hreg (set_invoked (fun i => i ++ [(c, payload r args)]) w) cs Ha Hl)
    as (v & w' & Hc & Ha' & Hl' & _).
  rewrite notify_payload. unfold bind at 1. rewrite bind_modify.
  unfold bind at 1. rewrite Hc. unfold ret at 1.
  apply (IH (S i) w' (cs ++ [c])); auto.
  - rewrite Ha'. exact Ha.
  - rewrite Hl'. apply lookup_insert_eq.
  - apply Forall_app. split; [exact Hall|]. repeat constructor.
  - rewrite length_app. simpl. lia.
Qed.

(** X6. A listener that registers itself again whenever it is notified
    keeps the loop from ever reaching the end of the list: the call of the
    notifying setter does not return, whatever bound is put on the loop. *)
Theorem self_registering_listener_diverges call func self args w r w1 l c :
  fn_call func self args (log_call func self args w) = Ok r w1 ->
  attrs w1 !! (self, listener_list_name func) = Some (VList l) ->
  lists w1 !! l = Some [c] ->
  registering call (payload r args) self (listener_list_name func) l c c ->
  forall fuel, fn_call (notifying_setter call fuel func) self args w = Timeout.
Proof.
  intros Hf Ha Hl Hreg fuel.
  rewrite fn_call_notifying_setter, newfunc_unfold, bind_modify.
  rewrite (bind_ok _ _ _ _ _ Hf).
  rewrite (bind_ok _ _ _ _ _ (get_listeners_existing _ _ _ _ Ha)).
  unfold for_listeners.
  rewrite (bind_timeout _ _ _
             (for_in_self_registering call r args self _ l c fuel 0%nat w1 [c] Hreg Ha Hl
                ltac:(repeat constructor) ltac:(simpl; lia))).
  reflexivity.
Qed.

(** ** The accessor [listeners] *)

(** X7. The list of an instance is made on the first access and stays: the
    accessor of a notifying setter, called again, gives the same list object
    and changes nothing.  On the first access (the attribute is missing, or
    holds [None]) the object is a new one, and empty. *)
Theorem listeners_created_once call fuel func self w :
  listener_slot_ok w self (listener_list_name func) ->
  exists l w1,
    listeners (notifying_setter call fuel func) self w = Ok (VList l) w1
    /\ listeners (notifying_setter call fuel func) self w1 = Ok (VList l) w1
    /\ registered w1 self (listener_list_name func)
       = registered w self (listener_list_name func)
    /\ (attrs w !! (self, listener_list_name func) = None
        \/ attrs w !! (self, listener_list_name func) = Some VNone ->
        lists w !! l = None /\ lists w1 !! l = Some []).
Proof.
  intros Hok. rewrite !notifying_setter_listeners.
  set (name := listener_list_name func) in *.
  unfold listener_slot_ok in Hok.
  assert (Hnew : attrs w !! (self, name) = None \/ attrs w !! (self, name) = Some VNone ->
    exists l w1,
      get_listeners name name self w = Ok (VList l) w1
      /\ get_listeners name name self w1 = Ok (VList l) w1
      /\ registered w1 self name = registered w self name
      /\ (attrs w !! (self, name) = None \/ attrs w !! (self, name) = Some VNone ->
          lists w !! l = None /\ lists w1 !! l = Some [])).
  { intros Ha. set (l := fresh (dom (lists w))).
    exists l, (set_attrs <[(self, name) := VList l]> (set_lists <[l := []]> w)).
    split; [|split; [|split]].
    - unfold get_listeners, getattr, new_list, setattr. unfold_M.
      destruct Ha as [-> | ->]; reflexivity.
    - apply get_listeners_existing. simpl. apply lookup_insert_eq.
    - unfold registered. simpl. rewrite !lookup_insert_eq. simpl.
      destruct Ha as [-> | ->]; reflexivity.
    - intros _. split; [apply fresh_list_unused|]. simpl. apply lookup_insert_eq. }
  destruct (attrs w !! (self, name)) as [v|] eqn:Ha; [|auto].
  destruct v; try contradiction; [auto|].
  exists l, w. rewrite !(get_listeners_existing name self w l Ha).
  repeat split; try reflexivity; destruct H; discriminate.
Qed.

(** X8. [S.listeners(self).append(c)] puts [c] at the end of the listeners
    of [self] for that setter and leaves the listeners registered for every
    other instance, and under every other name, as they were. *)
Theorem listener_registration_is_local call fuel func self c w :
  store_ok w ->
  listener_slot_ok w self (listener_list_name func) ->
  exists w',
    (ls <- listeners (notifying_setter call fuel func) self ;; list_append ls c) w
      = Ok tt w'
    /\ registered w' self (listener_list_name func)
       = registered w self (listener_list_name func) ++ [c]
    /\ (forall b n, (b, n) <> (self, listener_list_name func) ->
          registered w' b n = registered w b n)
    /\ store_ok w'.
Proof.
  intros Hs Hok. set (name := listener_list_name func) in *.
  destruct (get_listeners_spec name self w Hs Hok)
    as (l & w1 & Hget & Ha1 & Hs1 & Hother & Hlists & Hreg & _).
  pose proof Hs as [Hdang Hali]. pose proof Hs1 as [Hdang1 Hali1].
  destruct (Hdang1 _ _ Ha1) as [cs Hcs].
  assert (Hregcs : registered w1 self name = cs).
  { apply (registered_list _ _ _ l); assumption. }
  exists (set_lists <[l := cs ++ [c]]> w1).
  split; [|split; [|split]].
  - unfold bind. rewrite notifying_setter_listeners. fold name. rewrite Hget.
    unfold list_append. rewrite Hcs. reflexivity.
  - rewrite <- Hreg, Hregcs. unfold registered. simpl.
    rewrite Ha1, lookup_insert_eq. reflexivity.
  - intros b n Hne. unfold registered. simpl. rewrite (Hother _ Hne).
    destruct (attrs w !! (b, n)) as [[| | | |l']|] eqn:Hb; try reflexivity.
    assert (l' <> l).
    { intros ->. apply Hne. apply (Hali1 _ _ l); [|exact Ha1].
      rewrite (Hother _ Hne). exact Hb. }
    rewrite lookup_insert_ne by congruence.
    rewrite (Hlists l' (Hdang _ _ Hb)). reflexivity.
  - split; simpl.
    + intros k l' Hk. destruct (Hdang1 _ _ Hk) as [cs' Hcs'].
      destruct (decide (l' = l)) as [->|Hne].
      * rewrite lookup_insert_eq. eauto.
      * rewrite lookup_insert_ne by congruence. eauto.
    + exact Hali1.
Qed.

(** ** The guard, for any list of controls being edited *)

Lemma list_remove_app_last (x : wid) (l : list wid) :
  exists l', list_remove x (l ++ [x]) = Some l' /\ l' ≡ₚ l.
Proof.
  induction l as [|y l (l' & IH & Hp)]; simpl.
  - exists []. rewrite bool_decide_eq_true_2 by reflexivity. auto.
  - destruct (decide (y = x)) as [->|Hne].
    + rewrite bool_decide_eq_true_2 by reflexivity.
      exists (l ++ [x]). split; [reflexivity|].
      rewrite Permutation_app_comm. reflexivity.
    + rewrite bool_decide_eq_false_2 by assumption. rewrite IH. simpl.
      exists (y :: l'). split; [reflexivity|]. rewrite Hp. reflexivity.
Qed.

(** X9. Whatever controls are being edited when the wired handler is
    entered, also the handler's own control: if the setter leaves
    [changing_widgets] as it found it, the handler ends as the setter ended
    (the same return value, or the same exception; [remove] never fails) and
    [changing_widgets] holds the same controls as before, each as often as
    before. *)
Theorem widget_changing_restores widget func args w :
  (forall w1, final (func args (set_changing (fun l => l ++ [widget]) w)) = Some w1 ->
              changing_widgets w1 = changing_widgets w ++ [widget]) ->
  (forall r w1, func args (set_changing (fun l => l ++ [widget]) w) = Ok r w1 ->
     exists w', widget_changing widget func args w = Ok r w'
                /\ changing_widgets w' ≡ₚ changing_widgets w) /\
  (forall e w1, func args (set_changing (fun l => l ++ [widget]) w) = Raise e w1 ->
     exists w', widget_changing widget func args w = Raise e w'
                /\ changing_widgets w' ≡ₚ changing_widgets w).
Proof.
  intros Hbal.
  destruct (list_remove_app_last widget (changing_widgets w)) as (l' & Hrem & Hp).
  split; intros x w1 Hf;
    exists (set_changing (fun _ => l') w1);
    (split; [|exact Hp]);
    unfold widget_changing, changing_append; unfold_M;
    rewrite Hf; unfold changing_remove;
    rewrite (Hbal w1) by (rewrite Hf; reflexivity);
    rewrite Hrem; reflexivity.
Qed.

(** X10. Handlers nest: when the setter called for an edit of one control
    leads to the handler of a second control (a text box that moves a
    slider), the innermost setter runs with both controls in
    [changing_widgets], the first before the second, and both are out when
    the outer handler ends. *)
Theorem widget_changing_nested a b func args args' w r w1 :
  a ∉ changing_widgets w ->
  b ∉ changing_widgets w ->
  a <> b ->
  func args' (set_changing (fun l => l ++ [b]) (set_changing (fun l => l ++ [a]) w))
    = Ok r w1 ->
  changing_widgets w1 = (changing_widgets w ++ [a]) ++ [b] ->
  exists w',
    widget_changing a (fun _ => widget_changing b func args') args w = Ok r w'
    /\ changing_widgets w' = changing_widgets w
    /\ (a ∉ changing_widgets w') /\ (b ∉ changing_widgets w').
Proof.
  intros Ha Hb Hab Hf Hcw.
  set (wa := set_changing (fun l => l ++ [a]) w).
  assert (Hbwa : b ∉ changing_widgets wa).
  { unfold wa. simpl. intros Hin. apply elem_of_app in Hin as [Hin|Hin].
    - contradiction.
    - apply list_elem_of_singleton in Hin. congruence. }
  assert (Hinner : widget_changing b func args' wa
                   = Ok r (set_changing (fun _ => changing_widgets wa) w1)).
  { rewrite (widget_changing_outcome b func args' wa Hbwa).
    - fold wa in Hf. rewrite Hf. reflexivity.
    - fold wa in Hf. rewrite Hf. simpl. intros w' Hw'. injection Hw' as <-. exact Hcw. }
  eexists. split.
  - rewrite (widget_changing_outcome a (fun _ => widget_changing b func args') args w Ha).
    + fold wa. rewrite Hinner. reflexivity.
    + fold wa. rewrite Hinner. simpl. intros w' Hw'. injection Hw' as <-. reflexivity.
  - simpl. auto.
Qed.

(** ** The dispatcher: no wake-up is lost *)

(** X11. Whenever the UI thread is back in its event loop, every task still
    in the queue has a call of [on_queue_updated] to come: a delivery of the
    signal is waiting, or the thread that put the task is about to emit.
    This holds also when the handler was left by an exception of a task
    with tasks still queued. *)
Theorem dispatcher_wake_up_pending ls s :
  Dispatcher.run ls Dispatcher.init = Some s ->
  Dispatcher.ui s = [] ->
  (length (Dispatcher.q s) <= Dispatcher.pending s + Dispatcher.emitting s)%nat.
Proof.
  intros Hrun Hui.
  destruct (DispatcherFacts.run_inv ls _ s DispatcherFacts.inv_init Hrun)
    as (_ & _ & Hcred).
  rewrite Hui in Hcred. simpl in Hcred. lia.
Qed.

(** ** Binding methods without a value control *)

(** X12. A method whose function carries none of the five metadata dicts
    (a getter, a plain helper) gets no control: [get_widgets_for_method]
    returns the empty list and changes nothing. *)
Theorem undecorated_method_no_widget call lookup m func w :
  lookup m = Some func ->
  (forall kind, kind ∈ ["_slider"; "_button"; "_combobox"; "_textbox"; "_checkbox"] ->
                fn_dict func !! kind = None) ->
  get_widgets_for_method call lookup m w = Ok [] w.
Proof.
  intros Hm Hnone.
  - unfold get_widgets_for_method. rewrite Hm.
    assert (H : forall kind block w0,
              kind ∈ ["_slider"; "_button"; "_combobox"; "_textbox"; "_checkbox"] ->
              if_hasattr func kind block w0 = Ok [] w0).
    { intros kind block w0 Hk. apply if_hasattr_none. apply Hnone. exact Hk. }
    rewrite (bind_ok _ _ _ _ _ (H "_slider" _ w ltac:(set_solver))).
    rewrite (bind_ok _ _ _ _ _ (H "_button" _ w ltac:(set_solver))).
    rewrite (bind_ok _ _ _ _ _ (H "_combobox" _ w ltac:(set_solver))).
    rewrite (bind_ok _ _ _ _ _ (H "_textbox" _ w ltac:(set_solver))).
    rewrite (bind_ok _ _ _ _ _ (H "_checkbox" _ w ltac:(set_solver))).
    reflexivity.
Qed.

Lemma button_dict_other func kind :
  fn_dict func = ∅ -> kind <> "_button" -> fn_dict (button func) !! kind = None.
Proof.
  intros Hd Hk. unfold button. rewrite metadata_lookup.
  rewrite decide_False by assumption.
  cbn [fn_dict wraps]. rewrite map_union_empty, Hd. apply lookup_empty.
Qed.

(** X13. A button is bound without any listener: binding a method decorated
    with [button] makes one push button that shows the method's name, with
    an empty label, connects its [clicked] signal to the lambda that, called
    without arguments, calls the method without arguments, and touches
    neither attributes nor listener lists; the decorated function itself is
    the undecorated one, with no notification and no accessor [listeners]. *)
Theorem button_binding call lookup user m func w :
  lookup m = Some (button func) ->
  fn_dict func = ∅ ->
  get_widgets_for_method call lookup m w
    = Ok [(EmptyString, fresh (dom (widgets w)))]
         (set_slots <[fresh (dom (widgets w)) := ButtonClicked m]>
            (set_widgets <[fresh (dom (widgets w)) := QPushButton (fn_name func)]> w))
  /\ interp call lookup user (ButtonClicked m) [] = fn_call func (im_self m) []
  /\ (forall self args, fn_call (button func) self args = fn_call func self args)
  /\ (forall self w0, listeners (button func) self w0 = Raise AttributeError w0).
Proof.
  intros Hm Hd. split; [|split; [|split]].
  - unfold get_widgets_for_method. rewrite Hm.
    assert (H : forall kind block w0, kind <> "_button" ->
              if_hasattr (button func) kind block w0 = Ok [] w0).
    { intros kind block w0 Hk. apply if_hasattr_none. apply button_dict_other; assumption. }
    rewrite (bind_ok _ _ _ _ _ (H "_slider" _ w ltac:(discriminate))).
    assert (Hb : fn_dict (button func) !! "_button" = Some (ADict ∅)).
    { unfold button. rewrite metadata_lookup. rewrite decide_True by reflexivity.
      reflexivity. }
    unfold if_hasattr at 1. rewrite Hb. unfold add_widget.
    unfold bind at 1. unfold bind at 1. unfold bind at 1. unfold new_widget at 1.
    cbv beta iota. unfold bind at 1. unfold connect at 1, modify at 1.
    cbv beta iota. unfold bind at 1, ret at 1. cbv beta iota. unfold ret at 1.
    cbv beta iota. unfold ret at 1. cbv beta iota.
    rewrite (bind_ok _ _ _ _ _ (H "_combobox" _ _ ltac:(discriminate))).
    rewrite (bind_ok _ _ _ _ _ (H "_textbox" _ _ ltac:(discriminate))).
    rewrite (bind_ok _ _ _ _ _ (H "_checkbox" _ _ ltac:(discriminate))).
    reflexivity.
  - cbn [interp]. unfold call_method. rewrite Hm. reflexivity.
  - reflexivity.
  - intros self w0. unfold listeners.
    rewrite (button_dict_other func "listeners" Hd) by discriminate. reflexivity.
Qed.

(** ** The combobox *)

Lemma py_eq_refl v : py_eq v v = true.
Proof.
  unfold py_eq. destruct v as [|[]|z|s|l]; simpl;
    try reflexivity; apply bool_decide_eq_true_2; reflexivity.
Qed.

Lemma py_index_first options : forall i o,
  options !! i = Some o ->
  (forall j o', (j < i)%nat -> options !! j = Some o' -> py_eq o' o = false) ->
  py_index options o = Some i.
Proof.
  induction options as [|x options IH]; intros i o Hi Hfirst; [discriminate|].
  destruct i as [|i]; simpl in *.
  - injection Hi as ->. rewrite py_eq_refl. reflexivity.
  - rewrite (Hfirst O x ltac:(lia) eq_refl).
    rewrite (IH i o Hi); [reflexivity|].
    intros j o' Hj Ho'. apply (Hfirst (S j) o'); [lia|exact Ho'].
Qed.

Lemma py_getitem_last {A} (l : list A) : py_getitem l (-1) = last l.
Proof.
  unfold py_getitem. simpl.
  destruct l as [|x l]; [reflexivity|].
  rewrite (proj2 (Z.leb_le _ _)) by (simpl length; lia).
  replace (Z.to_nat (Z.of_nat (length (x :: l)) + -1)) with (length l)
    by (simpl length; lia).
  rewrite last_lookup. reflexivity.
Qed.

Section Combobox.

Variable P : program.
Variable m : method_ref.
Variable func : pyfunc.
Variable g : option (oid -> M value).
Variable options : list value.

Hypothesis Hcls : forall call fuel,
  classes P call fuel m = Some (combobox call fuel options g func).

Lemma combo_changed_call n x w :
  call_depth P (S n) (ComboChanged m) [VInt x] w =
    match py_getitem options x with
    | Some o => fn_call (combobox (call_depth P n) n options g func) (im_self m) [o] w
    | None => Raise IndexError w
    end.
Proof.
  rewrite call_depth_S. cbn [interp]. unfold combo_changed, method_meta, call_method.
  rewrite Hcls, combobox_options. unfold_M. unfold prop_options.
  rewrite lookup_insert_ne by discriminate. rewrite lookup_insert_eq.
  unfold ret. cbv beta iota. cbn [as_int].
  destruct (py_getitem options x); reflexivity.
Qed.

(** X14. The combobox's slot calls the setter with the option at the index
    the signal carries, indexed as a Python list is: an index within the
    options gives that option; the index -1, which the control reports when
    nothing is selected, gives the last option; an index at or beyond the
    number of options raises [IndexError] and the setter is not called. *)
Theorem combobox_index_to_option n x w :
  (forall o, 0 <= x -> options !! Z.to_nat x = Some o ->
     call_depth P (S n) (ComboChanged m) [VInt x] w =
       fn_call (combobox (call_depth P n) n options g func) (im_self m) [o] w)
  /\ (forall o, x = -1 -> last options = Some o ->
     call_depth P (S n) (ComboChanged m) [VInt x] w =
       fn_call (combobox (call_depth P n) n options g func) (im_self m) [o] w)
  /\ (Z.of_nat (length options) <= x ->
     call_depth P (S n) (ComboChanged m) [VInt x] w = Raise IndexError w).
Proof.
  rewrite combo_changed_call. split; [|split].
  - intros o Hx Ho. unfold py_getitem.
    rewrite (proj2 (Z.leb_le _ _)) by assumption. rewrite Ho. reflexivity.
  - intros o -> Ho. rewrite py_getitem_last, Ho. reflexivity.
  - intros Hx. unfold py_getitem.
    rewrite (proj2 (Z.leb_le 0 x)) by lia.
    rewrite (proj2 (lookup_ge_None _ _)) by lia. reflexivity.
Qed.

(** X15. The reflect-listener of a combobox that is not being edited
    selects the first option equal to the new value: the value the slot
    produced for index [i] selects [i] again when no option before [i]
    equals it. *)
Theorem combobox_reflects_first_match n widget i o w :
  widget ∉ changing_widgets w ->
  options !! i = Some o ->
  (forall j o', (j < i)%nat -> options !! j = Some o' -> py_eq o' o = false) ->
  call_depth P (S (S n)) (Updater widget (ComboUpdate m widget)) [o] w =
    (setCurrentIndex (call_depth P n) widget (Z.of_nat i) ;;; ret VNone) w.
Proof.
  intros Hfree Hi Hfirst.
  rewrite call_depth_S. cbn [interp]. rewrite updating_widget_free by assumption.
  rewrite call_depth_S. cbn [interp]. unfold combo_update, method_meta.
  rewrite Hcls, combobox_options. unfold bind at 1. unfold ret at 1.
  unfold bind at 1. unfold prop_options.
  rewrite lookup_insert_ne by discriminate. rewrite lookup_insert_eq.
  unfold ret at 1. cbv beta iota.
  rewrite (py_index_first options i o Hi Hfirst). reflexivity.
Qed.

End Combobox.

(** ** The slider: scale 0, and direct calls *)

Lemma slider_changed_scale_zero P m func g lo hi n x w :
  (forall call fuel,
     classes P call fuel m = Some (slider call fuel g lo hi (VInt 0) func)) ->
  call_depth P (S n) (SliderChanged m) [VInt x] w = Raise ZeroDivisionError w.
Proof.
  intros Hcls. rewrite call_depth_S. cbn [interp].
  unfold slider_changed, method_meta. rewrite Hcls.
  rewrite <- bind_assoc.
  rewrite (bind_ok _ _ _ _ _ (slider_scale _ _ _ _ _ _ _ w)).
  reflexivity.
Qed.

(** X16. With scale 0 the slot of a slider divides by zero: every change of
    the control raises [ZeroDivisionError] inside the guarded setter, the
    control is released from [changing_widgets], and the method is never
    called; a drag by the user still moves the control, the exception
    staying in the signal. *)
Theorem slider_scale_zero P m func g lo hi n widget x a b pos w :
  (forall call fuel,
     classes P call fuel m = Some (slider call fuel g lo hi (VInt 0) func)) ->
  widget ∉ changing_widgets w ->
  widgets w !! widget = Some (QSlider a b pos) ->
  slots w !! widget = Some (ChangingSetter widget (SliderChanged m)) ->
  qBound a x b <> pos ->
  (exists w1,
     call_depth P (S (S n)) (ChangingSetter widget (SliderChanged m)) [VInt x] w
       = Raise ZeroDivisionError w1
     /\ changing_widgets w1 = changing_widgets w /\ called w1 = called w)
  /\ exists w',
       user_drag P (S (S n)) widget x w = Ok tt w'
       /\ widgets w' !! widget = Some (QSlider a b (qBound a x b))
       /\ changing_widgets w' = changing_widgets w
       /\ called w' = called w.
Proof.
  intros Hcls Hfree Hw Hs Hne.
  assert (Hh : forall y w0, widget ∉ changing_widgets w0 ->
            call_depth P (S (S n)) (ChangingSetter widget (SliderChanged m)) [VInt y] w0
            = Raise ZeroDivisionError
                (set_changing (fun _ => changing_widgets w0)
                   (set_changing (fun l => l ++ [widget]) w0))).
  { intros y w0 Hfree0. rewrite call_depth_S. cbn [interp].
    rewrite (widget_changing_outcome widget _ [VInt y] w0 Hfree0).
    - rewrite (slider_changed_scale_zero P m func g lo hi n y _ Hcls). reflexivity.
    - rewrite (slider_changed_scale_zero P m func g lo hi n y _ Hcls). simpl.
      intros w1 H1. injection H1 as <-. reflexivity. }
  split.
  - eexists. split; [apply Hh; exact Hfree|]. simpl. auto.
  - unfold user_drag, slider_set. rewrite Hw.
    rewrite bool_decide_eq_false_2 by assumption.
    unfold emit. cbn [slots set_widgets]. rewrite Hs.
    rewrite Hh by exact Hfree.
    eexists. split; [reflexivity|]. simpl. rewrite lookup_insert_eq. auto.
Qed.

Section DirectCall.

Variable P : program.
Variable m : method_ref.
Variable func : pyfunc.
Variable g : option (oid -> M value).
Variables lo hi sc : Z.

Hypothesis Hcls : forall call fuel,
  classes P call fuel m = Some (slider call fuel g (VInt lo) (VInt hi) (VInt sc) func).
Hypothesis Hsc : sc <> 0.
Hypothesis Hplain : plain_setter func (im_self m).

(** X17. A direct call of the setter of a bound slider with [v] moves the
    control to [v] times the scale, brought into the control's range.  When
    that changes the control's position, the control's own change signal
    calls the setter a second time, with the new position divided by the
    scale: for a value outside the range, the setter is called again with
    the nearest value the control can show. *)
Theorem direct_call_reflects n widget a b pos v w :
  bound_slider w m (listener_list_name func) widget a b pos ->
  exists w',
    fn_call (slider (call_depth P (S (S (S (S (S (S n)))))))
               (S (S (S (S (S (S n)))))) g (VInt lo) (VInt hi) (VInt sc) func)
      (im_self m) [VInt v] w = Ok VNone w'
    /\ bound_slider w' m (listener_list_name func) widget a b (qBound a (v * sc) b)
    /\ called w' =
         called w ++ (fn_name func, im_self m, [VInt v])
           :: (if bool_decide (qBound a (v * sc) b = pos) then []
               else [(fn_name func, im_self m, [VInt (qBound a (v * sc) b / sc)])]).
Proof.
  intros Hb.
  set (self := im_self m). set (name := listener_list_name func).
  set (N := S (S (S (S (S (S n)))))).
  set (w_func := wraps func (PyFunc "w_func" ∅ (fun self args => fn_call func self args))).
  set (u := Updater widget (SliderUpdate m widget)).
  destruct (Hplain (VInt v) (log_call w_func self [VInt v] w))
    as (w1 & Hf & Hka & Hkc & Hki).
  destruct (controls_eq _ _ Hkc) as (_ & _ & _ & _ & Hcd1).
  assert (Hb1 : bound_slider (set_invoked (fun i => i ++ [(u, [VInt v])]) w1)
                  m name widget a b pos).
  { eapply bound_slider_keeps with (w := log_call w_func self [VInt v] w);
      [exact Hb|exact Hka|exact Hkc]. }
  pose proof Hb1 as (Hfree1 & _ & _ & l & Ha1 & Hl1).
  destruct (slider_set_bound P m func g lo hi sc Hcls Hsc Hplain n widget a b pos
              (v * sc) _ Hb1) as (w2 & Hset & Hb2 & Hl2 & _ & Hcd2).
  exists w2. split; [|split; [exact Hb2|]].
  - rewrite slider_call, newfunc_unfold, bind_modify.
    fold w_func. cbn [fn_call wraps w_func] in Hf |- *.
    rewrite (bind_ok _ _ _ _ _ Hf).
    change (listener_list_name w_func) with name.
    rewrite (bind_ok _ _ _ _ _ (get_listeners_existing name self w1 l Ha1)).
    unfold for_listeners.
    assert (Hloop : for_in N l 0 (notify (call_depth P N) VNone [VInt v]) w1 = Ok tt w2).
    { apply (for_in_singleton _ _ u).
      - exact Hl1.
      - rewrite notify_payload. cbn [payload]. rewrite bind_modify.
        unfold bind at 1. unfold N, u. rewrite call_depth_S. cbn [interp].
        rewrite updating_widget_free by exact Hfree1.
        rewrite (slider_update_call P m func g lo hi sc Hcls).
        rewrite (bind_ok _ _ _ _ _ Hset). reflexivity.
      - rewrite Hl2. exact Hl1. }
    rewrite (bind_ok _ _ _ _ _ Hloop). reflexivity.
  - rewrite Hcd2. simpl. rewrite Hcd1. simpl. rewrite <- app_assoc. reflexivity.
Qed.

End DirectCall.

(** ** The text box *)

Section Textbox.

Variable P : program.
Variable m : method_ref.
Variable func : pyfunc.
Variable g : option (oid -> M value).

Hypothesis Hcls : forall call fuel,
  classes P call fuel m = Some (textbox call fuel g func).
Hypothesis Hplain : plain_setter func (im_self m).

Lemma text_edited_call n x w :
  call_depth P (S n) (TextEdited m) [x] w =
    fn_call (textbox (call_depth P n) n g func) (im_self m) [x] w.
Proof.
  rewrite call_depth_S. cbn [interp]. unfold call_method. rewrite Hcls. reflexivity.
Qed.

(** X18. The edit cycle of a bound text box.  When the user types [s], the
    setter is called once, with [s], and the control keeps the typed text:
    its reflect-listener is skipped.  A direct call of the setter with [v]
    calls the body once and leaves [str(v)] in the control: [setText] gives
    no [textEdited], so that -- unlike a slider -- the control never calls
    the setter back. *)
Theorem textbox_edit_cycle n widget txt s v w :
  bound_textbox w m (listener_list_name func) widget txt ->
  (exists w',
     user_type P (S (S (S (S n)))) widget s w = Ok tt w'
     /\ bound_textbox w' m (listener_list_name func) widget s
     /\ called w' = called w ++ [(fn_name func, im_self m, [VStr s])])
  /\ exists w',
       fn_call (textbox (call_depth P (S (S (S (S n))))) (S (S (S (S n)))) g func)
         (im_self m) [v] w = Ok VNone w'
       /\ bound_textbox w' m (listener_list_name func) widget (py_str v)
       /\ called w' = called w ++ [(fn_name func, im_self m, [v])].
Proof.
  intros (Hfree & Hw & Hs & l & Ha & Hl).
  set (self := im_self m). set (name := listener_list_name func).
  set (w_func := wraps func (PyFunc "w_func" ∅ (fun self args => fn_call func self args))).
  set (u := Updater widget (TextUpdate widget)).
  split.
  - set (w_set := set_widgets <[widget := QLineEdit s]> w).
    set (wa := log_call w_func self [VStr s]
                 (set_changing (fun l => l ++ [widget]) w_set)).
    destruct (Hplain (VStr s) wa) as (w1 & Hf & Hk).
    pose proof Hk as (Hka & Hkc & _).
    destruct (controls_eq _ _ Hkc) as (Hl1 & _).
    destruct (handler_guarded (call_depth P (S (S n))) (S (S n)) widget w_func self
                [VStr s] w_set VNone w1 l [u])
      as (w' & Hh & Ha' & Hl' & Hw' & Hs' & Hcw' & Hcd' & _); auto.
    { etransitivity; [exact Hka|exact Ha]. }
    { rewrite Hl1. exact Hl. }
    { repeat constructor.
      eapply (guarded_of_updater _ (call_depth P (S n))). intros a w0. reflexivity. }
    { simpl. lia. }
    exists w'. split; [|split].
    + unfold user_type. rewrite Hw. unfold emit. fold w_set.
      change (slots w_set) with (slots w). rewrite Hs.
      rewrite call_depth_S. cbn [interp].
      rewrite (widget_changing_ext widget _
                 (newfunc (call_depth P (S (S n))) (S (S n)) w_func self)
                 [VStr s] [VStr s]).
      * rewrite Hh. reflexivity.
      * intros w0. rewrite text_edited_call. reflexivity.
    + split; [rewrite Hcw'; exact Hfree|].
      split; [rewrite Hw'; unfold w_set; simpl; apply lookup_insert_eq|].
      split; [rewrite Hs'; exact Hs|].
      exists l. split; [rewrite Ha'; etransitivity; [exact Hka|exact Ha]|].
      rewrite Hl'. exact Hl.
    + exact Hcd'.
  - set (N := S (S (S (S n)))).
    destruct (Hplain v (log_call w_func self [v] w)) as (w1 & Hf & Hka & Hkc & Hki).
    destruct (controls_eq _ _ Hkc) as (Hl1 & Hw1 & Hs1 & Hcw1 & Hcd1).
    set (wi := set_invoked (fun i => i ++ [(u, [v])]) w1).
    set (w2 := set_widgets <[widget := QLineEdit (py_str v)]> wi).
    assert (Ha1 : attrs w1 !! (self, name) = Some (VList l)).
    { etransitivity; [exact Hka|exact Ha]. }
    exists w2. split; [|split].
    + rewrite textbox_call, newfunc_unfold, bind_modify.
      fold w_func. cbn [fn_call wraps w_func] in Hf |- *.
      rewrite (bind_ok _ _ _ _ _ Hf).
      change (listener_list_name w_func) with name.
      rewrite (bind_ok _ _ _ _ _ (get_listeners_existing name self w1 l Ha1)).
      unfold for_listeners.
      assert (Hloop : for_in N l 0 (notify (call_depth P N) VNone [v]) w1 = Ok tt w2).
      { apply (for_in_singleton _ _ u).
        - rewrite Hl1. exact Hl.
        - rewrite notify_payload. cbn [payload]. rewrite bind_modify.
          unfold bind at 1. unfold N, u. rewrite call_depth_S. cbn [interp].
          rewrite updating_widget_free
            by (change (changing_widgets (set_invoked _ w1)) with (changing_widgets w1);
                rewrite Hcw1; exact Hfree).
          rewrite call_depth_S. cbn [interp]. unfold text_update, setText, bind.
          change (widgets (set_invoked _ w1)) with (widgets w1).
          rewrite Hw1. simpl. rewrite Hw. reflexivity.
        - unfold w2, wi. simpl. rewrite Hl1. exact Hl. }
      rewrite (bind_ok _ _ _ _ _ Hloop). reflexivity.
    + split; [unfold w2, wi; simpl; rewrite Hcw1; exact Hfree|].
      split; [unfold w2; simpl; apply lookup_insert_eq|].
      split; [unfold w2, wi; simpl; rewrite Hs1; exact Hs|].
      exists l. split; [exact Ha1|]. unfold w2, wi. simpl. rewrite Hl1. exact Hl.
    + unfold w2, wi. simpl. rewrite Hcd1. reflexivity.
Qed.

End Textbox.

(** * Binding, for every kind of control *)

Lemma bound_slider_bound w m name widget lo hi pos :
  bound_slider w m name widget lo hi pos <->
  bound w m name widget (QSlider lo hi pos) (SliderChanged m) (SliderUpdate m widget).
Proof. reflexivity. Qed.

Lemma bound_set_widget w m name widget q q' slot u :
  bound w m name widget q slot u ->
  bound (set_widgets <[widget := q']> w) m name widget q' slot u.
Proof.
  intros (Hfree & Hw & Hs & l & Ha & Hl).
  split; [exact Hfree|]. split; [simpl; apply lookup_insert_eq|].
  split; [exact Hs|]. exists l. auto.
Qed.

Lemma py_index_Some options : forall v i,
  py_index options v = Some i ->
  exists o, options !! i = Some o /\ py_eq o v = true.
Proof.
  induction options as [|x options IH]; intros v i Hi; [discriminate|].
  simpl in Hi. destruct (py_eq x v) eqn:Hx.
  - injection Hi as <-. exists x. auto.
  - destruct (py_index options v) as [j|] eqn:Hj; [|discriminate].
    injection Hi as <-. destruct (IH v j Hj) as (o & Ho & Heq). exists o. auto.
Qed.

Lemma int_checkstate_int cs : int_checkstate (checkstate_int cs) = Some cs.
Proof. destruct cs; reflexivity. Qed.

(** The attributes of a function under a value decorator of kind [k]. *)
Lemma decorate_listeners call fuel k g func :
  fn_dict (decorate call fuel k g func) !! "listeners" =
    Some (AGetListeners (listener_list_name func) (listener_list_name func)).
Proof.
  destruct k; cbn [decorate].
  - apply slider_listeners.
  - unfold combobox. rewrite metadata_lookup, notifying_setter_lookup.
    rewrite decide_False by discriminate. rewrite decide_True by reflexivity.
    reflexivity.
  - apply textbox_listeners.
  - unfold checkbox. rewrite metadata_lookup, notifying_setter_lookup.
    rewrite decide_False by discriminate. rewrite decide_True by reflexivity.
    reflexivity.
Qed.

Lemma decorate_other call fuel k g func kind :
  fn_dict func = ∅ ->
  kind <> kind_attr k -> kind <> "listeners" ->
  fn_dict (decorate call fuel k g func) !! kind = None.
Proof.
  intros Hd H1 H2.
  assert (Hw : fn_dict (wraps func (PyFunc "w_func" ∅
                          (fun self args => fn_call func self args))) = ∅).
  { cbn [fn_dict wraps]. rewrite map_union_empty. exact Hd. }
  destruct k; cbn [decorate kind_attr] in *;
    [unfold slider|unfold combobox|unfold textbox|unfold checkbox];
    rewrite metadata_lookup, notifying_setter_lookup;
    rewrite !decide_False by assumption; rewrite Hw; apply lookup_empty.
Qed.

Section Binding.

Variable P : program.
Variable m : method_ref.
Variable func : pyfunc.

Hypothesis Hplain : plain_setter func (im_self m).

Let self := im_self m.
Let name := listener_list_name func.
Let w_func := wraps func (PyFunc "w_func" ∅ (fun self args => fn_call func self args)).

(** The slot of a bound control, called by the control's signal with [x],
    when its lambda calls the setter with [x']: one call of the setter,
    and nothing else changes. *)
Lemma edit_handler n widget inner u x x' w l :
  (forall w0, call_depth P (S (S (S n))) inner [x] w0
              = newfunc (call_depth P (S (S n))) (S (S n)) w_func self [x'] w0) ->
  widget ∉ changing_widgets w ->
  attrs w !! (self, name) = Some (VList l) ->
  lists w !! l = Some [Updater widget u] ->
  exists w',
    call_depth P (S (S (S (S n)))) (ChangingSetter widget inner) [x] w = Ok VNone w'
    /\ attrs w' !! (self, name) = Some (VList l)
    /\ lists w' = lists w /\ widgets w' = widgets w /\ slots w' = slots w
    /\ changing_widgets w' = changing_widgets w
    /\ called w' = called w ++ [(fn_name func, self, [x'])].
Proof.
  intros Hinner Hfree Ha Hl.
  set (wa := log_call w_func self [x'] (set_changing (fun l => l ++ [widget]) w)).
  destruct (Hplain x' wa) as (w1 & Hf & Hk).
  pose proof Hk as (Hka & Hkc & _).
  destruct (controls_eq _ _ Hkc) as (Hl1 & _).
  destruct (handler_guarded (call_depth P (S (S n))) (S (S n)) widget w_func self
              [x'] w VNone w1 l [Updater widget u])
    as (w' & Hh & Ha' & Hl' & Hw' & Hs' & Hcw' & Hcd' & _); auto.
  { etransitivity; [exact Hka|exact Ha]. }
  { rewrite Hl1. exact Hl. }
  { repeat constructor.
    eapply (guarded_of_updater _ (call_depth P (S n))). intros a w0. reflexivity. }
  { simpl. lia. }
  exists w'. split.
  - rewrite call_depth_S. cbn [interp].
    rewrite (widget_changing_ext widget _
               (newfunc (call_depth P (S (S n))) (S (S n)) w_func self) [x] [x']).
    + exact Hh.
    + exact Hinner.
  - repeat split; try assumption.
    rewrite Ha'. etransitivity; [exact Hka|exact Ha].
Qed.

(** The signal of a bound control: the slot is called, the setter runs
    once, and the control stays bound, showing what it showed. *)
Lemma emit_bound n widget inner u x x' q w :
  (forall w0, call_depth P (S (S (S n))) inner [x] w0
              = newfunc (call_depth P (S (S n))) (S (S n)) w_func self [x'] w0) ->
  bound w m name widget q inner u ->
  exists w',
    emit (call_depth P (S (S (S (S n))))) widget x w = Ok tt w'
    /\ bound w' m name widget q inner u.
Proof.
  intros Hinner (Hfree & Hw & Hs & l & Ha & Hl).
  destruct (edit_handler n widget inner u x x' w l Hinner Hfree Ha Hl)
    as (w' & Hh & Ha' & Hl' & Hw' & Hs' & Hcw' & _).
  exists w'. unfold emit. rewrite Hs, Hh. split; [reflexivity|].
  split; [rewrite Hcw'; exact Hfree|].
  split; [rewrite Hw'; exact Hw|].
  split; [rewrite Hs'; exact Hs|].
  exists l. split; [exact Ha'|]. rewrite Hl'. exact Hl.
Qed.

Lemma bound_keeps w w' widget q slot u :
  bound w m name widget q slot u ->
  attrs w' !! (self, name) = attrs w !! (self, name) ->
  controls w' = controls w ->
  bound w' m name widget q slot u.
Proof.
  intros (Hfree & Hw & Hs & l & Ha & Hl) Hka Hkc.
  destruct (controls_eq _ _ Hkc) as (Hl1 & Hw1 & Hs1 & Hcw1 & _).
  split; [rewrite Hcw1; exact Hfree|].
  split; [rewrite Hw1; exact Hw|].
  split; [rewrite Hs1; exact Hs|].
  exists l. split; [etransitivity; [exact Hka|exact Ha]|]. rewrite Hl1. exact Hl.
Qed.

(** [add_widget] on a control that is wired and not yet registered: the
    reflect-listener is registered, the getter is called, and the
    reflect-listener is called with its value. *)
Lemma add_widget_binds call F widget d u slot q0 q1 getf v wd :
  fn_dict F !! "listeners" = Some (AGetListeners name name) ->
  fn_name F = fn_name func ->
  d !! "getfunc" = Some (PFunc getf) ->
  widget ∉ changing_widgets wd ->
  widgets wd !! widget = Some q0 ->
  slots wd !! widget = Some (ChangingSetter widget slot) ->
  listener_slot_ok wd self name ->
  registered wd self name = [] ->
  (forall w0, (forall k, k <> (self, name) -> attrs w0 !! k = attrs wd !! k) ->
     exists w0', getf self w0 = Ok v w0' /\ keeps self name w0 w0') ->
  (forall wg, bound wg m name widget q0 slot u ->
     exists wh, call (Updater widget u) [v] wg = Ok VNone wh
                /\ bound wh m name widget q1 slot u) ->
  exists wh,
    add_widget call m F None widget d (Some u) wd = Ok (fn_name func, widget) wh
    /\ bound wh m name widget q1 slot u.
Proof.
  intros HF Hname Hg Hfree Hw Hs Hok Hreg Hget Hreflect.
  destruct (register_first self name (Updater widget u) wd Hok Hreg)
    as (l & wf & Hregister & Haf & Hlf & Hwf & Hsf & Hcwf & Hotherf).
  destruct (Hget wf Hotherf) as (wg & Hgetf & Hka & Hkc & _).
  assert (Hbf : bound wf m name widget q0 slot u).
  { split; [rewrite Hcwf; exact Hfree|].
    split; [rewrite Hwf; exact Hw|].
    split; [rewrite Hsf; exact Hs|].
    exists l. auto. }
  pose proof (bound_keeps wf wg widget q0 slot u Hbf Hka Hkc) as Hbg.
  destruct (Hreflect wg Hbg) as (wh & Hcall & Hbh).
  exists wh. split; [|exact Hbh].
  rewrite (add_widget_initialises _ _ _ _ _ _ _ getf name) by assumption.
  rewrite <- bind_assoc.
  rewrite (bind_ok _ _ _ _ _ Hregister), (bind_ok _ _ _ _ _ Hgetf).
  rewrite (bind_ok _ _ _ _ _ Hcall). rewrite Hname. reflexivity.
Qed.

End Binding.

(** ** The reflect-listener of each kind, on a bound control *)

Section Reflect.

Variable P : program.
Variable m : method_ref.
Variable func : pyfunc.
Variable g : option (oid -> M value).

Hypothesis Hplain : plain_setter func (im_self m).

Let name := listener_list_name func.

(** A text box takes the text of the value. *)
Lemma text_reflect n widget t v w :
  bound w m name widget (QLineEdit t) (TextEdited m) (TextUpdate widget) ->
  exists w',
    call_depth P (S (S n)) (Updater widget (TextUpdate widget)) [v] w = Ok VNone w'
    /\ bound w' m name widget (QLineEdit (py_str v)) (TextEdited m) (TextUpdate widget).
Proof.
  intros Hb. pose proof Hb as (Hfree & Hw & _).
  exists (set_widgets <[widget := QLineEdit (py_str v)]> w). split.
  - rewrite call_depth_S. cbn [interp]. rewrite updating_widget_free by assumption.
    rewrite call_depth_S. cbn [interp]. unfold text_update, setText, bind.
    rewrite Hw. reflexivity.
  - apply (bound_set_widget _ _ _ _ _ _ _ _ Hb).
Qed.

(** A combobox selects the first option equal to the value; if that moves
    the selection, the signal calls the setter with that option. *)
Lemma combo_reflect options n widget old v i w :
  (forall call fuel, classes P call fuel m = Some (combobox call fuel options g func)) ->
  py_index options v = Some i ->
  bound w m name widget (QComboBox (map py_str options) old)
    (ComboChanged m) (ComboUpdate m widget) ->
  exists w',
    call_depth P (S (S (S (S (S (S n)))))) (Updater widget (ComboUpdate m widget)) [v] w
      = Ok VNone w'
    /\ bound w' m name widget (QComboBox (map py_str options) (Z.of_nat i))
         (ComboChanged m) (ComboUpdate m widget).
Proof.
  intros Hcls Hi Hb. pose proof Hb as (Hfree & Hw & _).
  destruct (py_index_Some options v i Hi) as (o & Ho & _).
  assert (Hlt : (i < length options)%nat) by (eapply lookup_lt_Some; exact Ho).
  assert (Hset : exists w',
            setCurrentIndex (call_depth P (S (S (S (S n))))) widget (Z.of_nat i) w = Ok tt w'
            /\ bound w' m name widget (QComboBox (map py_str options) (Z.of_nat i))
                 (ComboChanged m) (ComboUpdate m widget)).
  { unfold setCurrentIndex. rewrite Hw.
    assert (Hin : (0 <=? Z.of_nat i) && (Z.of_nat i <? Z.of_nat (length (map py_str options)))
                  = true).
    { rewrite length_map. apply andb_true_iff. split; [apply Z.leb_le|apply Z.ltb_lt]; lia. }
    rewrite Hin.
    destruct (bool_decide (Z.of_nat i = old)) eqn:Hd.
    - apply bool_decide_eq_true_1 in Hd. subst old. exists w. auto.
    - apply (emit_bound P m func Hplain n widget (ComboChanged m) (ComboUpdate m widget)
               (VInt (Z.of_nat i)) o).
      + intros w0. rewrite (combo_changed_call P m func g options Hcls).
        unfold py_getitem. rewrite (proj2 (Z.leb_le _ _)) by lia.
        rewrite Nat2Z.id, Ho. reflexivity.
      + apply (bound_set_widget _ _ _ _ _ _ _ _ Hb). }
  destruct Hset as (w' & Hset & Hb').
  exists w'. split; [|exact Hb'].
  rewrite call_depth_S. cbn [interp]. rewrite updating_widget_free by assumption.
  rewrite call_depth_S. cbn [interp]. unfold combo_update, method_meta.
  rewrite Hcls, combobox_options. unfold bind at 1. unfold ret at 1.
  unfold bind at 1. unfold prop_options.
  rewrite lookup_insert_ne by discriminate. rewrite lookup_insert_eq.
  unfold ret at 1. cbv beta iota. rewrite Hi.
  rewrite (bind_ok _ _ _ _ _ Hset). reflexivity.
Qed.

(** A checkbox takes the check state of the value; if that changes its
    state, the signal calls the setter with the value of the state. *)
Lemma check_reflect n widget old v w :
  (forall call fuel, classes P call fuel m = Some (checkbox call fuel g func)) ->
  (forall l, v <> VList l) ->
  bound w m name widget (QCheckBox old) (CheckChanged m) (CheckUpdate widget) ->
  exists w',
    call_depth P (S (S (S (S (S (S n)))))) (Updater widget (CheckUpdate widget)) [v] w
      = Ok VNone w'
    /\ bound w' m name widget (QCheckBox (_bool_to_checkstate v))
         (CheckChanged m) (CheckUpdate widget).
Proof.
  intros Hcls Hhash Hb. pose proof Hb as (Hfree & Hw & _).
  set (cs := _bool_to_checkstate v).
  assert (Hset : exists w',
            setCheckState (call_depth P (S (S (S (S n))))) widget cs w = Ok tt w'
            /\ bound w' m name widget (QCheckBox cs) (CheckChanged m) (CheckUpdate widget)).
  { unfold setCheckState. rewrite Hw.
    destruct (bool_decide (cs = old)) eqn:Hd.
    - apply bool_decide_eq_true_1 in Hd. subst old. exists w. auto.
    - apply (emit_bound P m func Hplain n widget (CheckChanged m) (CheckUpdate widget)
               (VInt (checkstate_int cs)) (_checkstate_to_bool cs)).
      + intros w0. rewrite call_depth_S. cbn [interp].
        unfold check_changed, call_method. rewrite Hcls. cbn [as_int mbind option_bind].
        rewrite int_checkstate_int. reflexivity.
      + apply (bound_set_widget _ _ _ _ _ _ _ _ Hb). }
  destruct Hset as (w' & Hset & Hb').
  exists w'. split; [|exact Hb'].
  rewrite call_depth_S. cbn [interp]. rewrite updating_widget_free by assumption.
  rewrite call_depth_S. cbn [interp]. unfold check_update.
  assert (Hcs : bool_to_checkstate v w = Ok cs w).
  { unfold bool_to_checkstate. destruct v; try reflexivity.
    exfalso. eapply Hhash. reflexivity. }
  rewrite (bind_ok _ _ _ _ _ Hcs), (bind_ok _ _ _ _ _ Hset). reflexivity.
Qed.

End Reflect.

(** The first items of a new combobox select index 0; no slot is wired
    yet. *)
Lemma addItems_new call i texts w :
  widgets w !! i = Some (QComboBox [] (-1)) ->
  slots w !! i = None ->
  texts <> [] ->
  addItems call i texts w
    = Ok tt (set_widgets <[i := QComboBox texts 0]>
               (set_widgets <[i := QComboBox texts (-1)]> w)).
Proof.
  intros Hw Hs Hne. unfold addItems. rewrite Hw.
  destruct texts as [|t ts]; [contradiction|].
  unfold setCurrentIndex. cbn [widgets set_widgets app]. rewrite lookup_insert_eq.
  replace ((0 <=? 0) && (0 <? Z.of_nat (length (t :: ts)))) with true
    by (simpl length; symmetry; apply andb_true_iff; split;
        [apply Z.leb_le|apply Z.ltb_lt]; lia).
  rewrite bool_decide_eq_false_2 by discriminate.
  unfold emit. cbn [slots set_widgets]. rewrite Hs. reflexivity.
Qed.

(** ** Binding a method that carries a getter *)

Section Kinds.

Variable P : program.
Variable m : method_ref.
Variable func : pyfunc.
Variable getf : oid -> M value.

Hypothesis Hplain : plain_setter func (im_self m).
Hypothesis Hdict : fn_dict func = ∅.

Let self := im_self m.
Let name := listener_list_name func.

Variable n : nat.
Variable v : value.
Variable w : world.

Hypothesis Hcw : changing_widgets w = [].
Hypothesis Hslots : forall i, is_Some (slots w !! i) -> is_Some (widgets w !! i).
Hypothesis Hok : listener_slot_ok w self name.
Hypothesis Hreg : registered w self name = [].
Hypothesis Hget : forall w0,
  (forall key, key <> (self, name) -> attrs w0 !! key = attrs w !! key) ->
  exists w0', getf self w0 = Ok v w0' /\ keeps self name w0 w0'.

Let N := S (S (S (S (S (S n))))).
Let i := fresh (dom (widgets w)).

Lemma fresh_widget_unwired : slots w !! i = None.
Proof.
  destruct (slots w !! i) eqn:Hs; [|reflexivity].
  destruct (Hslots i) as [q Hq]; [rewrite Hs; eauto|].
  exfalso. apply (is_fresh (dom (widgets w))). apply elem_of_dom. eauto.
Qed.

Lemma textbox_binding :
  (forall call fuel, classes P call fuel m = Some (textbox call fuel (Some getf) func)) ->
  exists w',
    get_widgets_for_method (call_depth P N) (classes P (call_depth P N) N) m w
      = Ok [(fn_name func, i)] w'
    /\ bound w' m name i (QLineEdit (py_str v)) (TextEdited m) (TextUpdate i).
Proof.
  intros Hcls.
  set (F := textbox (call_depth P N) N (Some getf) func).
  set (d := <["getfunc" := PFunc getf]> (∅ : gmap string propval)).
  set (wa := set_widgets <[i := QLineEdit EmptyString]> w).
  set (wd := set_slots <[i := ChangingSetter i (TextEdited m)]> wa).
  destruct (add_widget_binds m func (call_depth P N) F i d (TextUpdate i)
              (TextEdited m) (QLineEdit EmptyString) (QLineEdit (py_str v)) getf v wd)
    as (wh & Hadd & Hbh).
  { apply (decorate_listeners _ _ KTextbox). }
  { reflexivity. }
  { apply lookup_insert_eq. }
  { simpl. rewrite Hcw. apply not_elem_of_nil. }
  { simpl. apply lookup_insert_eq. }
  { simpl. apply lookup_insert_eq. }
  { exact Hok. }
  { exact Hreg. }
  { exact Hget. }
  { intros wg Hbg. eapply text_reflect. exact Hbg. }
  exists wh. split; [|exact Hbh].
  unfold get_widgets_for_method. rewrite Hcls. fold F.
  assert (Hnone : forall kind block w0,
            kind <> "_textbox" -> kind <> "listeners" ->
            if_hasattr F kind block w0 = Ok [] w0).
  { intros kind block w0 H1 H2. apply if_hasattr_none.
    apply (decorate_other _ _ KTextbox); assumption. }
  rewrite (bind_ok _ _ _ _ _ (Hnone "_slider" _ w ltac:(discriminate) ltac:(discriminate))).
  rewrite (bind_ok _ _ _ _ _ (Hnone "_button" _ w ltac:(discriminate) ltac:(discriminate))).
  rewrite (bind_ok _ _ _ _ _ (Hnone "_combobox" _ w ltac:(discriminate) ltac:(discriminate))).
  assert (Hblock : if_hasattr F "_textbox" (fun d =>
              widget <- new_widget (QLineEdit EmptyString) ;;
              connect widget (ChangingSetter widget (TextEdited m)) ;;;
              add_widget (call_depth P N) m F None widget d (Some (TextUpdate widget))) w
            = Ok [(fn_name func, i)] wh).
  { unfold if_hasattr.
    assert (Hd : fn_dict F !! "_textbox" = Some (ADict d)) by (unfold F; lookup_dict).
    rewrite Hd. cbv beta.
    match goal with
    | |- bind ?blk _ w = _ => assert (Hb : blk w = Ok (fn_name func, i) wh)
    end.
    { assert (Hnew : new_widget (QLineEdit EmptyString) w = Ok i wa) by reflexivity.
      assert (Hconn : connect i (ChangingSetter i (TextEdited m)) wa = Ok tt wd)
        by reflexivity.
      rewrite (bind_ok _ _ _ _ _ Hnew), (bind_ok _ _ _ _ _ Hconn). exact Hadd. }
    rewrite (bind_ok _ _ _ _ _ Hb). reflexivity. }
  rewrite (bind_ok _ _ _ _ _ Hblock).
  rewrite (bind_ok _ _ _ _ _ (Hnone "_checkbox" _ wh ltac:(discriminate) ltac:(discriminate))).
  reflexivity.
Qed.

Lemma checkbox_binding :
  (forall call fuel, classes P call fuel m = Some (checkbox call fuel (Some getf) func)) ->
  (forall l, v <> VList l) ->
  exists w',
    get_widgets_for_method (call_depth P N) (classes P (call_depth P N) N) m w
      = Ok [(fn_name func, i)] w'
    /\ bound w' m name i (QCheckBox (_bool_to_checkstate v)) (CheckChanged m) (CheckUpdate i).
Proof.
  intros Hcls Hhash.
  set (F := checkbox (call_depth P N) N (Some getf) func).
  set (d := <["getfunc" := PFunc getf]> (∅ : gmap string propval)).
  set (wa := set_widgets <[i := QCheckBox Unchecked]> w).
  set (wd := set_slots <[i := ChangingSetter i (CheckChanged m)]> wa).
  destruct (add_widget_binds m func (call_depth P N) F i d (CheckUpdate i)
              (CheckChanged m) (QCheckBox Unchecked) (QCheckBox (_bool_to_checkstate v))
              getf v wd)
    as (wh & Hadd & Hbh).
  { apply (decorate_listeners _ _ KCheckbox). }
  { reflexivity. }
  { apply lookup_insert_eq. }
  { simpl. rewrite Hcw. apply not_elem_of_nil. }
  { simpl. apply lookup_insert_eq. }
  { simpl. apply lookup_insert_eq. }
  { exact Hok. }
  { exact Hreg. }
  { exact Hget. }
  { intros wg Hbg.
    apply (check_reflect P m func (Some getf) Hplain n i Unchecked v wg Hcls Hhash Hbg). }
  exists wh. split; [|exact Hbh].
  unfold get_widgets_for_method. rewrite Hcls. fold F.
  assert (Hnone : forall kind block w0,
            kind <> "_checkbox" -> kind <> "listeners" ->
            if_hasattr F kind block w0 = Ok [] w0).
  { intros kind block w0 H1 H2. apply if_hasattr_none.
    apply (decorate_other _ _ KCheckbox); assumption. }
  rewrite (bind_ok _ _ _ _ _ (Hnone "_slider" _ w ltac:(discriminate) ltac:(discriminate))).
  rewrite (bind_ok _ _ _ _ _ (Hnone "_button" _ w ltac:(discriminate) ltac:(discriminate))).
  rewrite (bind_ok _ _ _ _ _ (Hnone "_combobox" _ w ltac:(discriminate) ltac:(discriminate))).
  rewrite (bind_ok _ _ _ _ _ (Hnone "_textbox" _ w ltac:(discriminate) ltac:(discriminate))).
  assert (Hblock : if_hasattr F "_checkbox" (fun d =>
              widget <- new_widget (QCheckBox Unchecked) ;;
              connect widget (ChangingSetter widget (CheckChanged m)) ;;;
              add_widget (call_depth P N) m F None widget d (Some (CheckUpdate widget))) w
            = Ok [(fn_name func, i)] wh).
  { unfold if_hasattr.
    assert (Hd : fn_dict F !! "_checkbox" = Some (ADict d)) by (unfold F; lookup_dict).
    rewrite Hd. cbv beta.
    match goal with
    | |- bind ?blk _ w = _ => assert (Hb : blk w = Ok (fn_name func, i) wh)
    end.
    { assert (Hnew : new_widget (QCheckBox Unchecked) w = Ok i wa) by reflexivity.
      assert (Hconn : connect i (ChangingSetter i (CheckChanged m)) wa = Ok tt wd)
        by reflexivity.
      rewrite (bind_ok _ _ _ _ _ Hnew), (bind_ok _ _ _ _ _ Hconn). exact Hadd. }
    rewrite (bind_ok _ _ _ _ _ Hb). reflexivity. }
  rewrite (bind_ok _ _ _ _ _ Hblock). reflexivity.
Qed.

Lemma combobox_binding options j :
  (forall call fuel,
     classes P call fuel m = Some (combobox call fuel options (Some getf) func)) ->
  py_index options v = Some j ->
  exists w',
    get_widgets_for_method (call_depth P N) (classes P (call_depth P N) N) m w
      = Ok [(fn_name func, i)] w'
    /\ bound w' m name i (QComboBox (map py_str options) (Z.of_nat j))
         (ComboChanged m) (ComboUpdate m i).
Proof.
  intros Hcls Hj.
  set (F := combobox (call_depth P N) N options (Some getf) func).
  set (d := <["getfunc" := PFunc getf]> (<["options" := POptions options]>
              (∅ : gmap string propval))).
  set (texts := map py_str options).
  set (wa := set_widgets <[i := QComboBox [] (-1)]> w).
  set (wb := set_widgets <[i := QComboBox texts 0]>
               (set_widgets <[i := QComboBox texts (-1)]> wa)).
  set (wd := set_slots <[i := ChangingSetter i (ComboChanged m)]> wb).
  assert (Hadditems : addItems (call_depth P N) i texts wa = Ok tt wb).
  { apply addItems_new; [apply lookup_insert_eq|exact fresh_widget_unwired|].
    unfold texts. destruct options; [discriminate|]. discriminate. }
  destruct (add_widget_binds m func (call_depth P N) F i d (ComboUpdate m i)
              (ComboChanged m) (QComboBox texts 0) (QComboBox texts (Z.of_nat j))
              getf v wd)
    as (wh & Hadd & Hbh).
  { apply (decorate_listeners _ _ (KCombobox options)). }
  { reflexivity. }
  { apply lookup_insert_eq. }
  { simpl. rewrite Hcw. apply not_elem_of_nil. }
  { simpl. apply lookup_insert_eq. }
  { simpl. apply lookup_insert_eq. }
  { exact Hok. }
  { exact Hreg. }
  { exact Hget. }
  { intros wg Hbg.
    apply (combo_reflect P m func (Some getf) Hplain options n i 0 v j wg Hcls Hj Hbg). }
  exists wh. split; [|exact Hbh].
  unfold get_widgets_for_method. rewrite Hcls. fold F.
  assert (Hnone : forall kind block w0,
            kind <> "_combobox" -> kind <> "listeners" ->
            if_hasattr F kind block w0 = Ok [] w0).
  { intros kind block w0 H1 H2. apply if_hasattr_none.
    apply (decorate_other _ _ (KCombobox options)); assumption. }
  rewrite (bind_ok _ _ _ _ _ (Hnone "_slider" _ w ltac:(discriminate) ltac:(discriminate))).
  rewrite (bind_ok _ _ _ _ _ (Hnone "_button" _ w ltac:(discriminate) ltac:(discriminate))).
  assert (Hblock : if_hasattr F "_combobox" (fun d =>
              widget <- new_widget (QComboBox [] (-1)) ;;
              options <- prop_options d ;;
              addItems (call_depth P N) widget (map py_str options) ;;;
              connect widget (ChangingSetter widget (ComboChanged m)) ;;;
              add_widget (call_depth P N) m F None widget d (Some (ComboUpdate m widget))) w
            = Ok [(fn_name func, i)] wh).
  { unfold if_hasattr.
    assert (Hd : fn_dict F !! "_combobox" = Some (ADict d)) by (unfold F; lookup_dict).
    rewrite Hd. cbv beta.
    match goal with
    | |- bind ?blk _ w = _ => assert (Hb : blk w = Ok (fn_name func, i) wh)
    end.
    { assert (Hnew : new_widget (QComboBox [] (-1)) w = Ok i wa) by reflexivity.
      assert (Hopts : prop_options d wa = Ok options wa).
      { unfold prop_options, d. rewrite lookup_insert_ne by discriminate.
        rewrite lookup_insert_eq. reflexivity. }
      assert (Hconn : connect i (ChangingSetter i (ComboChanged m)) wb = Ok tt wd)
        by reflexivity.
      rewrite (bind_ok _ _ _ _ _ Hnew), (bind_ok _ _ _ _ _ Hopts).
      fold texts. rewrite (bind_ok _ _ _ _ _ Hadditems), (bind_ok _ _ _ _ _ Hconn).
      exact Hadd. }
    rewrite (bind_ok _ _ _ _ _ Hb). reflexivity. }
  rewrite (bind_ok _ _ _ _ _ Hblock).
  rewrite (bind_ok _ _ _ _ _ (Hnone "_textbox" _ wh ltac:(discriminate) ltac:(discriminate))).
  rewrite (bind_ok _ _ _ _ _ (Hnone "_checkbox" _ wh ltac:(discriminate) ltac:(discriminate))).
  reflexivity.
Qed.

End Kinds.

(** C7. For every kind of value control -- slider, combobox, text box and
    checkbox -- binding a method whose metadata holds a getter registers the
    control's reflect-listener and at once calls it with [getfunc(self)]:
    when [get_widgets_for_method] returns, before any interaction, the new
    control displays the getter's value [v] (a slider [v] times the scale
    within the range, a combobox the first option equal to [v], a text box
    [str(v)], a checkbox the check state of [v]), its signal is wired to the
    guarded setter, and its reflect-listener is registered.  The control is
    bound outside any edit, on a method without listeners yet, whose setter
    and getter keep to the attributes of the instance.  With a slider of
    range 0 to 100 and scale 1 over a getter that returns 0, the control
    displays 0. *)
Theorem binding_initialises_control P m func getf k v q n w :
  (forall call fuel,
     classes P call fuel m = Some (decorate call fuel k (Some getf) func)) ->
  plain_setter func (im_self m) ->
  fn_dict func = ∅ ->
  kind_ok k ->
  display k v = Some q ->
  changing_widgets w = [] ->
  (forall i, is_Some (slots w !! i) -> is_Some (widgets w !! i)) ->
  listener_slot_ok w (im_self m) (listener_list_name func) ->
  registered w (im_self m) (listener_list_name func) = [] ->
  (forall w0,
     (forall key, key <> (im_self m, listener_list_name func) ->
                  attrs w0 !! key = attrs w !! key) ->
     exists w0', getf (im_self m) w0 = Ok v w0'
                 /\ keeps (im_self m) (listener_list_name func) w0 w0') ->
  exists w',
    get_widgets_for_method
      (call_depth P (S (S (S (S (S (S n)))))))
      (classes P (call_depth P (S (S (S (S (S (S n))))))) (S (S (S (S (S (S n)))))))
      m w
    = Ok [(fn_name func, fresh (dom (widgets w)))] w'
    /\ bound w' m (listener_list_name func) (fresh (dom (widgets w))) q
         (slot_of k m) (reflect_of k m (fresh (dom (widgets w)))).
Proof.
  intros Hcls Hplain Hdict Hk Hq Hcw Hslots Hok Hreg Hget.
  destruct k as [lo hi sc|options| |]; cbn [decorate display kind_ok slot_of reflect_of] in *.
  - destruct v as [| |z| |]; try discriminate. injection Hq as <-.
    destruct Hk as [Hr Hsc].
    destruct (slider_binding P m func (Some getf) lo hi sc Hcls Hsc Hplain n getf z w
                eq_refl Hdict Hr Hcw Hok Hreg Hget) as (w' & Hb & Hbound).
    exists w'. split; [exact Hb|]. apply bound_slider_bound. exact Hbound.
  - destruct (py_index options v) as [j|] eqn:Hj; [|discriminate]. injection Hq as <-.
    apply (combobox_binding P m func getf Hplain Hdict n v w Hcw Hslots Hok Hreg Hget
             options j Hcls Hj).
  - injection Hq as <-.
    apply (textbox_binding P m func getf Hdict n v w Hcw Hok Hreg Hget Hcls).
  - assert (Hhash : forall l, v <> VList l).
    { intros l ->. discriminate. }
    assert (q = QCheckBox (_bool_to_checkstate v)) as ->.
    { destruct v; try discriminate; injection Hq as <-; reflexivity. }
    apply (checkbox_binding P m func getf Hplain Hdict n v w Hcw Hok Hreg Hget Hcls Hhash).
Qed.

(** * The statements at work on the examples *)

Section Examples.
Import Demo Worlds.

(** [printfunc] notifies nothing. *)
Lemma printfunc_silent n x : silent call [x] (UserFn n).
Proof.
  intros w v w' H. injection H as _ <-. reflexivity.
Qed.

End Examples.

(** C6 on class [A]: [set_val2("x")] raises in [int]. *)
Lemma setter_error_propagates_witness :
  fn_call (notifying_setter Demo.call 8 Demo.set_val2) 2%nat [VStr "x"] Worlds.world_a =
    Raise ValueError (log_call Demo.set_val2 2%nat [VStr "x"] Worlds.world_a).
Proof.
  apply (setter_error_propagates Demo.call 8 Demo.set_val2 2%nat [VStr "x"] Worlds.world_a).
  reflexivity.
Defined.

(** C1 (amended) on class [A]: [a.set_val2("42")] with [printfunc]
    registered. *)
Lemma notifying_setter_notifies_witness :
  fn_call (notifying_setter Demo.call 8 Demo.set_val2) 2%nat [VStr "42"] Worlds.world_a
    = (invoke_each Demo.call (payload (VInt 42) [VStr "42"]) [UserFn 0] ;;; ret (VInt 42))
        Worlds.world_a1
  /\ (forall w2,
        invoke_each Demo.call (payload (VInt 42) [VStr "42"]) [UserFn 0] Worlds.world_a1
          = Ok tt w2 ->
        fn_call (notifying_setter Demo.call 8 Demo.set_val2) 2%nat [VStr "42"] Worlds.world_a
          = Ok (VInt 42) w2
        /\ (Forall (silent Demo.call (payload (VInt 42) [VStr "42"])) [UserFn 0] ->
            invoked w2 =
              invoked Worlds.world_a1
              ++ map (fun c => (c, payload (VInt 42) [VStr "42"])) [UserFn 0])).
Proof.
  apply (notifying_setter_notifies Demo.call 8 Demo.set_val2 2%nat [VStr "42"]
           Worlds.world_a (VInt 42) Worlds.world_a1 1%positive Worlds.world_a1 [UserFn 0]).
  - vm_compute. reflexivity.
  - vm_compute. reflexivity.
  - vm_compute. reflexivity.
  - vm_compute. split; [reflexivity|exact I].
  - simpl. lia.
Defined.

(** In the example the listener has run: its line follows the setter's. *)
Lemma set_val2_listener_output :
  exists w2,
    fn_call (notifying_setter Demo.call 8 Demo.set_val2) 2%nat [VStr "42"] Worlds.world_a
      = Ok (VInt 42) w2
    /\ stdout w2 = ["val2 set to  42"; "listener 0: 42"]
    /\ invoked w2 = [(UserFn 0, [VInt 42])].
Proof. eexists. split; [vm_compute; reflexivity|]. split; vm_compute; reflexivity. Qed.

(** The reflect-listener of a bound slider leaves the list alone: on
    [Test.test], called directly with 7. *)
Lemma reflect_listener_leaves_list :
  leave_list (call_depth Demo.prog 6) [VInt 7] 1%positive
    [Updater 0 (SliderUpdate (MethodRef 1 "test") 0)]
    [Updater 0 (SliderUpdate (MethodRef 1 "test") 0)]
    (Demo.after (fn_call Demo.test 1%nat [VInt 7]
                   (log_call Demo.test 1%nat [VInt 7] Worlds.world_test))).
Proof. vm_compute. split; [reflexivity|exact I]. Qed.

(** C1, as stated, fails on a stacked setter: one successful call invokes
    the one registered listener twice, as its output shows. *)
Lemma stacked_setter_not_once :
  exists r w',
    fn_call (Demo.stacked Demo.call 8) 2%nat [VStr "42"] Worlds.world_a = Ok r w'
    /\ registered Worlds.world_a 2%nat "_set_val2_listeners" = [UserFn 0]
    /\ registered w' 2%nat "_set_val2_listeners" = [UserFn 0]
    /\ invoked Worlds.world_a = []
    /\ invoked w' = [(UserFn 0, [VInt 42]); (UserFn 0, [VInt 42])]
    /\ stdout Worlds.world_a = []
    /\ stdout w' = ["val2 set to  42"; "listener 0: 42"; "listener 0: 42"]
    /\ invoked w' <>
         invoked Worlds.world_a
         ++ map (fun c => (c, payload r [VStr "42"]))
                (registered Worlds.world_a 2%nat "_set_val2_listeners").
Proof.
  eexists _, _. split; [vm_compute; reflexivity|].
  repeat split; try (vm_compute; reflexivity).
  vm_compute. discriminate.
Qed.


(** In the example the listener has run twice. *)
Lemma stacked_listener_output :
  exists w3,
    fn_call (Demo.stacked Demo.call 8) 2%nat [VStr "42"] Worlds.world_a = Ok (VInt 42) w3
    /\ stdout w3 = ["val2 set to  42"; "listener 0: 42"; "listener 0: 42"].
Proof. eexists. split; vm_compute; reflexivity. Qed.

Lemma store_ok_empty : store_ok empty_world.
Proof.
  split; simpl.
  - intros k l H. rewrite lookup_empty in H. discriminate.
  - intros k1 k2 l H. rewrite lookup_empty in H. discriminate.
Qed.

(** Registering a listener keeps the store in order. *)
Lemma register_store_ok name self c w :
  store_ok w ->
  listener_slot_ok w self name ->
  store_ok (Demo.after ((ls <- get_listeners name name self ;; list_append ls c) w)).
Proof.
  intros Hs Hok.
  destruct (get_listeners_spec name self w Hs Hok)
    as (l & w1 & Hget & Ha1 & [Hdang1 Hali1] & _).
  destruct (Hdang1 _ _ Ha1) as [cs Hcs].
  rewrite (bind_ok _ _ _ _ _ Hget). unfold list_append. rewrite Hcs. simpl.
  split; simpl.
  - intros k l' Hk. destruct (Hdang1 _ _ Hk) as [cs' Hcs'].
    destruct (decide (l' = l)) as [->|Hne].
    + rewrite lookup_insert_eq. eauto.
    + rewrite lookup_insert_ne by congruence. eauto.
  - exact Hali1.
Qed.

Lemma world_b_ok : store_ok Worlds.world_b.
Proof.
  unfold Worlds.world_b. rewrite notifying_setter_listeners.
  apply register_store_ok; [exact store_ok_empty|vm_compute; exact I].
Qed.

(** C3 (amended) on two instances of class [A]: instance 3 has listener 1;
    listener 0 is then registered for instance 2, and [set_val(5)] called on
    instance 3 runs listener 1 and not listener 0. *)
Lemma listener_lists_per_instance_and_name_witness :
  exists l1 l2 w1 w2 w3 w5,
    listeners (notifying_setter Demo.call 8 Demo.set_val) 2%nat Worlds.world_b
      = Ok (VList l1) w1
    /\ listeners (notifying_setter Demo.call 8 Demo.set_val) 3%nat w1 = Ok (VList l2) w2
    /\ l1 <> l2
    /\ list_append (VList l1) (UserFn 0) w2 = Ok tt w3
    /\ registered w3 2%nat (listener_list_name Demo.set_val) = [UserFn 0]
    /\ registered w3 3%nat (listener_list_name Demo.set_val) = [UserFn 1]
    /\ fn_call (notifying_setter Demo.call 8 Demo.set_val) 3%nat [VInt 5] w3 = Ok VNone w5
    /\ stdout w5 = ["val set to  5"; "listener 1: 5"].
Proof.
  destruct (listener_lists_per_instance_and_name Demo.call 8 Demo.set_val Demo.set_val
              2%nat 3%nat Worlds.world_b)
    as (l1 & l2 & w1 & w2 & H1 & H2 & Hdiff & _ & Hlast).
  - exact world_b_ok.
  - vm_compute. exact I.
  - vm_compute. eauto.
  - assert (Hne : 2%nat <> 3%nat \/ fn_name Demo.set_val <> fn_name Demo.set_val)
      by (left; discriminate).
    pose proof H1 as H1'. pose proof H2 as H2'.
    vm_compute in H1'. injection H1' as <- <-.
    vm_compute in H2'. injection H2' as <- <-.
    edestruct (Hlast Hne (UserFn 0)) with (args := [VInt 5]) (r := VNone)
      as [Hreg Hcall].
    + vm_compute. reflexivity.
    + vm_compute. reflexivity.
    + vm_compute. reflexivity.
    + vm_compute. reflexivity.
    + vm_compute. split; [reflexivity|exact I].
    + vm_compute. lia.
    + eexists _, _, _, _, _, _.
      split; [exact H1|]. split; [exact H2|]. split; [exact (Hdiff Hne)|].
      split; [vm_compute; reflexivity|].
      split; [vm_compute; reflexivity|].
      split; [vm_compute; reflexivity|].
      split; [rewrite Hcall; vm_compute; reflexivity|].
      vm_compute. reflexivity.
Defined.

(** C3, as stated, fails for the two wrappers of a stacked setter: they are
    two notifying setters on one instance, and their accessors give the same
    list object. *)
Lemma stacked_wrappers_share_list :
  fn_dict (Demo.stacked Demo.call 8) !! "_slider"
    <> fn_dict (textbox Demo.call 8 None Demo.set_val2) !! "_slider"
  /\ exists l w1 w2,
       listeners (Demo.stacked Demo.call 8) 2%nat empty_world = Ok (VList l) w1
       /\ listeners (textbox Demo.call 8 None Demo.set_val2) 2%nat w1 = Ok (VList l) w2.
Proof.
  split.
  - vm_compute. discriminate.
  - eexists _, _, _. split; vm_compute; reflexivity.
Qed.

(** C5 on an edit of control 5 that sends ["x"] to [set_val2]. *)
Lemma widget_changing_releases_witness :
  (forall r w1,
     fn_call (notifying_setter Demo.call 8 Demo.set_val2) 2%nat [VStr "x"]
       (set_changing (fun l => l ++ [5%nat]) Worlds.world_a) = Ok r w1 ->
     exists w',
       widget_changing 5%nat (fn_call (notifying_setter Demo.call 8 Demo.set_val2) 2%nat)
         [VStr "x"] Worlds.world_a = Ok r w'
       /\ (5%nat ∉ changing_widgets w')
       /\ changing_widgets w' = changing_widgets Worlds.world_a) /\
  (forall e w1,
     fn_call (notifying_setter Demo.call 8 Demo.set_val2) 2%nat [VStr "x"]
       (set_changing (fun l => l ++ [5%nat]) Worlds.world_a) = Raise e w1 ->
     exists w',
       widget_changing 5%nat (fn_call (notifying_setter Demo.call 8 Demo.set_val2) 2%nat)
         [VStr "x"] Worlds.world_a = Raise e w'
       /\ (5%nat ∉ changing_widgets w')
       /\ changing_widgets w' = changing_widgets Worlds.world_a).
Proof.
  apply (widget_changing_releases 5%nat
           (fn_call (notifying_setter Demo.call 8 Demo.set_val2) 2%nat)
           [VStr "x"] Worlds.world_a).
  - vm_compute. apply not_elem_of_nil.
  - vm_compute. intros w1 H. injection H as <-. reflexivity.
Defined.

(** The handler of the example does leave by an exception, and the control
    is released. *)
Lemma widget_changing_releases_on_raise :
  exists w',
    widget_changing 5%nat (fn_call (notifying_setter Demo.call 8 Demo.set_val2) 2%nat)
      [VStr "x"] Worlds.world_a = Raise ValueError w'
    /\ changing_widgets w' = [].
Proof. eexists. split; vm_compute; reflexivity. Qed.

Lemma test_class call fuel :
  classes Demo.prog call fuel (MethodRef 1 "test") =
    Some (slider call fuel (Some Demo.get_test) (VInt 0) (VInt 100) (VInt 1) Demo.test).
Proof. reflexivity. Qed.

Lemma test_plain : plain_setter Demo.test 1%nat.
Proof.
  intros x w. eexists. split; [reflexivity|].
  split; [|split; reflexivity].
  simpl. apply lookup_insert_ne. discriminate.
Qed.

Lemma world_test_bound :
  bound_slider Worlds.world_test (MethodRef 1 "test") (listener_list_name Demo.test)
    0%nat 0 100 0.
Proof.
  split; [vm_compute; apply not_elem_of_nil|].
  split; [vm_compute; reflexivity|].
  split; [vm_compute; reflexivity|].
  exists 1%positive. split; vm_compute; reflexivity.
Qed.



(** The slider of the example shows 0 right after binding. *)
Lemma test_slider_shows_zero :
  widgets Worlds.world_test !! 0%nat = Some (QSlider 0 100 0).
Proof. vm_compute. reflexivity. Qed.

(** C8 on [Test.test]: a drag to 42, then [test(7)]. *)
Lemma slider_round_trip_witness :
  exists w1 w2,
    user_drag Demo.prog 4 0%nat 42 Worlds.world_test = Ok tt w1
    /\ called w1 = called Worlds.world_test ++ [(fn_name Demo.test, 1%nat, [VInt (42 / 1)])]
    /\ widgets w1 !! 0%nat = Some (QSlider 0 100 42)
    /\ fn_call (slider (call_depth Demo.prog 6) 6 (Some Demo.get_test)
                  (VInt 0) (VInt 100) (VInt 1) Demo.test)
         1%nat [VInt 7] w1 = Ok VNone w2
    /\ widgets w2 !! 0%nat = Some (QSlider 0 100 (qBound 0 (7 * 1) 100))
    /\ (1 = 1 ->
        42 / 1 = 42 /\ qBound 0 (42 / 1 * 1) 100 = 42
        /\ (0 <= 7 <= 100 -> qBound 0 (7 * 1) 100 = 7)).
Proof.
  apply (slider_round_trip Demo.prog (MethodRef 1 "test") Demo.test
           (Some Demo.get_test) 0 100 1 test_class ltac:(discriminate) test_plain
           0%nat 0%nat 0 42 7 Worlds.world_test).
  - exact world_test_bound.
  - lia.
  - discriminate.
Defined.

(** C10 on [Test.combo] and the value ["Perhaps"]. *)
Lemma combobox_reflect_raises_witness :
  call_depth Demo.prog 8 (Updater 0 (ComboUpdate (MethodRef 1 "combo") 0))
    [VStr "Perhaps"] Worlds.world_combo
    = Raise ValueError Worlds.world_combo
  /\ (forall v r w1 l rest,
        fn_call Demo.combo 1%nat [v] (log_call Demo.combo 1%nat [v] Worlds.world_combo)
          = Ok r w1 ->
        payload r [v] = [VStr "Perhaps"] ->
        (0%nat ∉ changing_widgets w1) ->
        attrs w1 !! (1%nat, listener_list_name Demo.combo) = Some (VList l) ->
        lists w1 !! l = Some (Updater 0 (ComboUpdate (MethodRef 1 "combo") 0) :: rest) ->
        exists w',
          fn_call (combobox (call_depth Demo.prog 8) 8
                     [VStr "Yes"; VStr "No"; VStr "Maybe"] (Some Demo.get_combo) Demo.combo)
            1%nat [v] Worlds.world_combo = Raise ValueError w'
          /\ widgets w' = widgets w1).
Proof.
  apply (combobox_reflect_raises Demo.prog 6 (MethodRef 1 "combo") 0%nat Demo.combo
           (Some Demo.get_combo) [VStr "Yes"; VStr "No"; VStr "Maybe"]
           (VStr "Perhaps") Worlds.world_combo).
  - intros call fuel. reflexivity.
  - intros o Ho. repeat (apply elem_of_cons in Ho as [->|Ho]; [reflexivity|]).
    apply elem_of_nil in Ho. contradiction.
  - vm_compute. apply not_elem_of_nil.
Defined.

(** In the example, [combo("Perhaps")] sets the attribute and then raises;
    the combobox stays on "Maybe". *)
Lemma combo_direct_call_raises :
  exists w',
    call_depth Demo.prog 8 (BoundMethod (MethodRef 1 "combo")) [VStr "Perhaps"]
      Worlds.world_combo = Raise ValueError w'
    /\ attrs w' !! (1%nat, "optionval") = Some (VStr "Perhaps")
    /\ widgets w' !! 0%nat = Some (QComboBox ["Yes"; "No"; "Maybe"] 2).
Proof. eexists. split; [vm_compute; reflexivity|]. split; vm_compute; reflexivity. Qed.

Open Scope nat_scope.

(** C2 on a run in which task 2 is put by another thread, and task 3 by
    the running task 1, while the handler is draining. *)
Lemma dispatcher_fifo_witness :
  Dispatcher.run
    [Dispatcher.Put 1; Dispatcher.Emit; Dispatcher.Deliver; Dispatcher.Loop;
     Dispatcher.Put 2; Dispatcher.UiPut 3; Dispatcher.Put 4; Dispatcher.Emit]
    Dispatcher.init
  = Some (Dispatcher.State [2; 3; 4] 1 1
            [Dispatcher.Handler; Dispatcher.Running 1; Dispatcher.Handler]
            [1] [1; 2; 3; 4])
  /\ [1; 2; 3; 4] = [1] ++ [2; 3; 4]
  /\ (forall ds s',
        forallb Dispatcher.drains ds = true ->
        Dispatcher.run ds
          (Dispatcher.State [2; 3; 4] 1 1
             [Dispatcher.Handler; Dispatcher.Running 1; Dispatcher.Handler]
             [1] [1; 2; 3; 4]) = Some s' ->
        (length ds <= 14)
        /\ (Dispatcher.at_rest s' ->
            Dispatcher.started s' = [1; 2; 3; 4] /\ Dispatcher.q s' = []))
  /\ (exists ds s',
        forallb Dispatcher.drains ds = true
        /\ Dispatcher.run ds
             (Dispatcher.State [2; 3; 4] 1 1
                [Dispatcher.Handler; Dispatcher.Running 1; Dispatcher.Handler]
                [1] [1; 2; 3; 4]) = Some s'
        /\ Dispatcher.at_rest s'
        /\ Dispatcher.started s' = [1; 2; 3; 4] /\ Dispatcher.q s' = []).
Proof.
  split; [reflexivity|].
  apply (DispatcherFacts.dispatcher_fifo
           [Dispatcher.Put 1; Dispatcher.Emit; Dispatcher.Deliver; Dispatcher.Loop;
            Dispatcher.Put 2; Dispatcher.UiPut 3; Dispatcher.Put 4; Dispatcher.Emit]
           (Dispatcher.State [2; 3; 4] 1 1
              [Dispatcher.Handler; Dispatcher.Running 1; Dispatcher.Handler]
              [1] [1; 2; 3; 4])).
  reflexivity.
Defined.

Close Scope nat_scope.

(** * The further properties at work on the examples *)

(** X2 on the value [1]. *)
Lemma bool_round_trip_witness :
  _checkstate_to_bool (_bool_to_checkstate (VInt 1)) =
    (if py_eq (VInt 1) (VBool true) then VBool true
     else if py_eq (VInt 1) (VBool false) then VBool false
     else VNone)
  /\ (_checkstate_to_bool (_bool_to_checkstate (VInt 1)) = VInt 1 <->
      VInt 1 = VBool true \/ VInt 1 = VBool false \/ VInt 1 = VNone).
Proof.
  apply (bool_round_trip (VInt 1)). intros l. discriminate.
Defined.

Lemma printfunc_quiet2 x : quiet Demo2.call [x] (UserFn 0).
Proof.
  intros w. eexists _, _. split; [reflexivity|]. simpl. auto.
Qed.

Lemma listener1_raising args : raising Demo2.call args ValueError (UserFn 1).
Proof.
  intros w. exists w. split; [reflexivity|]. auto.
Qed.

Lemma listener_registering (n : nat) (x : value) l c :
  (forall w, Demo2.call (UserFn n) [x] w =
     (ls <- get_listeners "_set_val_listeners" "_set_val_listeners" 2%nat ;;
      list_append ls c ;;; ret VNone) w) ->
  registering Demo2.call [x] 2%nat "_set_val_listeners" l c (UserFn n).
Proof.
  intros Hcall w cs Ha Hl. rewrite Hcall.
  rewrite (bind_ok _ _ _ _ _ (get_listeners_existing _ _ _ _ Ha)).
  unfold list_append, bind, ret. rewrite Hl.
  eexists _, _. split; [reflexivity|]. simpl. auto.
Qed.

(** X4 on [a.set_val(5)] with [printfunc], a raising listener and
    [printfunc] again registered. *)
Lemma listener_error_stops_notification_witness :
  exists w2,
    fn_call (notifying_setter Demo2.call 8 Demo.set_val) 2%nat [VInt 5]
      (Demo2.world_with [UserFn 0; UserFn 1; UserFn 0]) = Raise ValueError w2
    /\ invoked w2 =
         invoked (Demo.after (fn_call Demo.set_val 2%nat [VInt 5]
                    (log_call Demo.set_val 2%nat [VInt 5]
                       (Demo2.world_with [UserFn 0; UserFn 1; UserFn 0]))))
         ++ map (fun c => (c, payload VNone [VInt 5])) ([UserFn 0] ++ [UserFn 1]).
Proof.
  apply (listener_error_stops_notification Demo2.call 8 Demo.set_val 2%nat [VInt 5]
           (Demo2.world_with [UserFn 0; UserFn 1; UserFn 0]) VNone
           (Demo.after (fn_call Demo.set_val 2%nat [VInt 5]
                    (log_call Demo.set_val 2%nat [VInt 5]
                       (Demo2.world_with [UserFn 0; UserFn 1; UserFn 0]))))
           1%positive [UserFn 0] (UserFn 1) [UserFn 0] ValueError).
  - vm_compute. reflexivity.
  - vm_compute. reflexivity.
  - vm_compute. reflexivity.
  - repeat constructor. apply printfunc_quiet2.
  - apply listener1_raising.
  - simpl. lia.
Defined.

(** X5 on [a.set_val(5)] with a listener that registers [printfunc]. *)
Lemma listener_registered_during_notification_witness :
  exists w2,
    fn_call (notifying_setter Demo2.call 8 Demo.set_val) 2%nat [VInt 5]
      (Demo2.world_with [UserFn 2]) = Ok VNone w2
    /\ invoked w2 =
         invoked (Demo.after (fn_call Demo.set_val 2%nat [VInt 5]
                    (log_call Demo.set_val 2%nat [VInt 5] (Demo2.world_with [UserFn 2]))))
         ++ [(UserFn 2, payload VNone [VInt 5]); (UserFn 0, payload VNone [VInt 5])]
    /\ lists w2 !! 1%positive = Some [UserFn 2; UserFn 0].
Proof.
  apply (listener_registered_during_notification Demo2.call 8 Demo.set_val 2%nat [VInt 5]
           (Demo2.world_with [UserFn 2]) VNone
           (Demo.after (fn_call Demo.set_val 2%nat [VInt 5]
                    (log_call Demo.set_val 2%nat [VInt 5] (Demo2.world_with [UserFn 2]))))
           1%positive (UserFn 2) (UserFn 0)).
  - vm_compute. reflexivity.
  - vm_compute. reflexivity.
  - vm_compute. reflexivity.
  - apply listener_registering. intros w. reflexivity.
  - apply printfunc_quiet2.
  - lia.
Defined.

(** X6 on [a.set_val(5)] with a listener that registers itself, the loop
    bounded by 1000 steps. *)
Lemma self_registering_listener_diverges_witness :
  fn_call (notifying_setter Demo2.call 1000 Demo.set_val) 2%nat [VInt 5]
    (Demo2.world_with [UserFn 3]) = Timeout.
Proof.
  apply (self_registering_listener_diverges Demo2.call Demo.set_val 2%nat [VInt 5]
           (Demo2.world_with [UserFn 3]) VNone
           (Demo.after (fn_call Demo.set_val 2%nat [VInt 5]
                    (log_call Demo.set_val 2%nat [VInt 5] (Demo2.world_with [UserFn 3]))))
           1%positive (UserFn 3)).
  - vm_compute. reflexivity.
  - vm_compute. reflexivity.
  - vm_compute. reflexivity.
  - apply listener_registering. intros w. reflexivity.
Defined.

(** X7 and X8 on instance 2 of class [A], before any access. *)
Lemma listeners_created_once_witness :
  exists l w1,
    listeners (notifying_setter Demo.call 8 Demo.set_val) 2%nat empty_world = Ok (VList l) w1
    /\ listeners (notifying_setter Demo.call 8 Demo.set_val) 2%nat w1 = Ok (VList l) w1
    /\ registered w1 2%nat (listener_list_name Demo.set_val)
       = registered empty_world 2%nat (listener_list_name Demo.set_val)
    /\ (attrs empty_world !! (2%nat, listener_list_name Demo.set_val) = None
        \/ attrs empty_world !! (2%nat, listener_list_name Demo.set_val) = Some VNone ->
        lists empty_world !! l = None /\ lists w1 !! l = Some []).
Proof.
  apply (listeners_created_once Demo.call 8 Demo.set_val 2%nat empty_world).
  vm_compute. exact I.
Defined.

Lemma listener_registration_is_local_witness :
  exists w',
    (ls <- listeners (notifying_setter Demo.call 8 Demo.set_val) 2%nat ;;
     list_append ls (UserFn 0)) empty_world = Ok tt w'
    /\ registered w' 2%nat (listener_list_name Demo.set_val)
       = registered empty_world 2%nat (listener_list_name Demo.set_val) ++ [UserFn 0]
    /\ (forall b n, (b, n) <> (2%nat, listener_list_name Demo.set_val) ->
          registered w' b n = registered empty_world b n)
    /\ store_ok w'.
Proof.
  apply (listener_registration_is_local Demo.call 8 Demo.set_val 2%nat (UserFn 0)
           empty_world).
  - exact store_ok_empty.
  - vm_compute. exact I.
Defined.

(** X9 on an edit of control 5 that sends ["42"] to [set_val2], entered
    while controls 5 and 7 are already being edited. *)
Lemma widget_changing_restores_witness :
  (forall r w1,
     fn_call (notifying_setter Demo.call 8 Demo.set_val2) 2%nat [VStr "42"]
       (set_changing (fun l => l ++ [5%nat])
          (set_changing (fun _ => [5%nat; 7%nat]) Worlds.world_a)) = Ok r w1 ->
     exists w',
       widget_changing 5%nat (fn_call (notifying_setter Demo.call 8 Demo.set_val2) 2%nat)
         [VStr "42"] (set_changing (fun _ => [5%nat; 7%nat]) Worlds.world_a) = Ok r w'
       /\ changing_widgets w'
          ≡ₚ changing_widgets (set_changing (fun _ => [5%nat; 7%nat]) Worlds.world_a)) /\
  (forall e w1,
     fn_call (notifying_setter Demo.call 8 Demo.set_val2) 2%nat [VStr "42"]
       (set_changing (fun l => l ++ [5%nat])
          (set_changing (fun _ => [5%nat; 7%nat]) Worlds.world_a)) = Raise e w1 ->
     exists w',
       widget_changing 5%nat (fn_call (notifying_setter Demo.call 8 Demo.set_val2) 2%nat)
         [VStr "42"] (set_changing (fun _ => [5%nat; 7%nat]) Worlds.world_a) = Raise e w'
       /\ changing_widgets w'
          ≡ₚ changing_widgets (set_changing (fun _ => [5%nat; 7%nat]) Worlds.world_a)).
Proof.
  apply (widget_changing_restores 5%nat
           (fn_call (notifying_setter Demo.call 8 Demo.set_val2) 2%nat)
           [VStr "42"] (set_changing (fun _ => [5%nat; 7%nat]) Worlds.world_a)).
  vm_compute. intros w1 H. injection H as <-. reflexivity.
Defined.

(** The handler of that example removes the first entry of control 5: the
    list is left in another order. *)
Lemma widget_changing_reorders :
  exists r w',
    widget_changing 5%nat (fn_call (notifying_setter Demo.call 8 Demo.set_val2) 2%nat)
      [VStr "42"] (set_changing (fun _ => [5%nat; 7%nat]) Worlds.world_a) = Ok r w'
    /\ changing_widgets w' = [7%nat; 5%nat].
Proof. eexists _, _. split; vm_compute; reflexivity. Qed.

(** X10 on an edit of control 5 whose setter leads to the handler of
    control 6, which sends ["42"] to [set_val2]. *)
Lemma widget_changing_nested_witness :
  exists w',
    widget_changing 5%nat
      (fun _ => widget_changing 6%nat
                  (fn_call (notifying_setter Demo.call 8 Demo.set_val2) 2%nat) [VStr "42"])
      [VInt 42] Worlds.world_a = Ok (VInt 42) w'
    /\ changing_widgets w' = changing_widgets Worlds.world_a
    /\ (5%nat ∉ changing_widgets w') /\ (6%nat ∉ changing_widgets w').
Proof.
  apply (widget_changing_nested 5%nat 6%nat
           (fn_call (notifying_setter Demo.call 8 Demo.set_val2) 2%nat)
           [VInt 42] [VStr "42"] Worlds.world_a (VInt 42)
           (Demo.after (fn_call (notifying_setter Demo.call 8 Demo.set_val2) 2%nat
                          [VStr "42"]
                          (set_changing (fun l => l ++ [6%nat])
                             (set_changing (fun l => l ++ [5%nat]) Worlds.world_a))))).
  - vm_compute. apply not_elem_of_nil.
  - vm_compute. apply not_elem_of_nil.
  - discriminate.
  - vm_compute. reflexivity.
  - vm_compute. reflexivity.
Defined.

(** X12 on [A.set_val], a notifying setter without a control. *)
Lemma undecorated_method_no_widget_witness :
  get_widgets_for_method Demo.call (Demo.methods Demo.call 8) (MethodRef 2 "set_val")
    Worlds.world_a = Ok [] Worlds.world_a.
Proof.
  apply (undecorated_method_no_widget Demo.call (Demo.methods Demo.call 8)
           (MethodRef 2 "set_val") (notifying_setter Demo.call 8 Demo.set_val)
           Worlds.world_a).
  - reflexivity.
  - intros kind Hk.
    repeat (apply elem_of_cons in Hk as [->|Hk]; [vm_compute; reflexivity|]).
    apply elem_of_nil in Hk. contradiction.
Defined.

(** X13 on [Test.button1]. *)
Lemma button_binding_witness :
  get_widgets_for_method Demo2.call (Demo2.methods Demo2.call 8) (MethodRef 1 "button1")
    Demo.world0
    = Ok [(EmptyString, fresh (dom (widgets Demo.world0)))]
         (set_slots <[fresh (dom (widgets Demo.world0))
                      := ButtonClicked (MethodRef 1 "button1")]>
            (set_widgets <[fresh (dom (widgets Demo.world0))
                           := QPushButton (fn_name (Demo2.button1 Demo2.call))]>
               Demo.world0))
  /\ interp Demo2.call (Demo2.methods Demo2.call 8) (Demo2.listener Demo2.call 8)
       (ButtonClicked (MethodRef 1 "button1")) []
     = fn_call (Demo2.button1 Demo2.call) (im_self (MethodRef 1 "button1")) []
  /\ (forall self args,
        fn_call (button (Demo2.button1 Demo2.call)) self args
        = fn_call (Demo2.button1 Demo2.call) self args)
  /\ (forall self w0,
        listeners (button (Demo2.button1 Demo2.call)) self w0 = Raise AttributeError w0).
Proof.
  apply (button_binding Demo2.call (Demo2.methods Demo2.call 8)
           (Demo2.listener Demo2.call 8) (MethodRef 1 "button1")
           (Demo2.button1 Demo2.call) Demo.world0).
  - reflexivity.
  - reflexivity.
Defined.

Lemma combo_class call fuel :
  classes Demo.prog call fuel (MethodRef 1 "combo") =
    Some (combobox call fuel [VStr "Yes"; VStr "No"; VStr "Maybe"]
            (Some Demo.get_combo) Demo.combo).
Proof. reflexivity. Qed.

(** X14 on [Test.combo] and index 1. *)
Lemma combobox_index_to_option_witness :
  (forall o, 0 <= 1 -> [VStr "Yes"; VStr "No"; VStr "Maybe"] !! Z.to_nat 1 = Some o ->
     call_depth Demo.prog 7 (ComboChanged (MethodRef 1 "combo")) [VInt 1]
       Worlds.world_combo =
       fn_call (combobox (call_depth Demo.prog 6) 6 [VStr "Yes"; VStr "No"; VStr "Maybe"]
                  (Some Demo.get_combo) Demo.combo)
         (im_self (MethodRef 1 "combo")) [o] Worlds.world_combo)
  /\ (forall o, 1 = -1 -> last [VStr "Yes"; VStr "No"; VStr "Maybe"] = Some o ->
     call_depth Demo.prog 7 (ComboChanged (MethodRef 1 "combo")) [VInt 1]
       Worlds.world_combo =
       fn_call (combobox (call_depth Demo.prog 6) 6 [VStr "Yes"; VStr "No"; VStr "Maybe"]
                  (Some Demo.get_combo) Demo.combo)
         (im_self (MethodRef 1 "combo")) [o] Worlds.world_combo)
  /\ (Z.of_nat (length [VStr "Yes"; VStr "No"; VStr "Maybe"]) <= 1 ->
     call_depth Demo.prog 7 (ComboChanged (MethodRef 1 "combo")) [VInt 1]
       Worlds.world_combo = Raise IndexError Worlds.world_combo).
Proof.
  apply (combobox_index_to_option Demo.prog (MethodRef 1 "combo") Demo.combo
           (Some Demo.get_combo) [VStr "Yes"; VStr "No"; VStr "Maybe"] combo_class
           6%nat 1 Worlds.world_combo).
Defined.

(** In the example, index -1 calls the setter with ["Maybe"] and index 3
    raises. *)
Lemma combo_index_examples :
  call_depth Demo.prog 7 (ComboChanged (MethodRef 1 "combo")) [VInt (-1)] Worlds.world_combo
  = fn_call (combobox (call_depth Demo.prog 6) 6 [VStr "Yes"; VStr "No"; VStr "Maybe"]
               (Some Demo.get_combo) Demo.combo) 1%nat [VStr "Maybe"] Worlds.world_combo
  /\ call_depth Demo.prog 7 (ComboChanged (MethodRef 1 "combo")) [VInt 3] Worlds.world_combo
     = Raise IndexError Worlds.world_combo.
Proof. split; vm_compute; reflexivity. Qed.

(** X15 on [Test.combo] and the value ["Maybe"]. *)
Lemma combobox_reflects_first_match_witness :
  call_depth Demo.prog 8 (Updater 0 (ComboUpdate (MethodRef 1 "combo") 0))
    [VStr "Maybe"] Worlds.world_combo =
    (setCurrentIndex (call_depth Demo.prog 6) 0%nat (Z.of_nat 2) ;;; ret VNone)
      Worlds.world_combo.
Proof.
  apply (combobox_reflects_first_match Demo.prog (MethodRef 1 "combo") Demo.combo
           (Some Demo.get_combo) [VStr "Yes"; VStr "No"; VStr "Maybe"] combo_class
           6%nat 0%nat 2%nat (VStr "Maybe") Worlds.world_combo).
  - vm_compute. apply not_elem_of_nil.
  - reflexivity.
  - intros j o' Hj Ho'. destruct j as [|[|j]]; simpl in Ho'.
    + injection Ho' as <-. reflexivity.
    + injection Ho' as <-. reflexivity.
    + lia.
Defined.

Lemma frozen_class call fuel :
  classes Demo2.prog call fuel (MethodRef 1 "frozen") =
    Some (slider call fuel None (VInt 0) (VInt 100) (VInt 0) Demo.test).
Proof. reflexivity. Qed.

(** X16 on [frozen], the setter [test] under [slider(scale=0)], dragged
    to 42. *)
Lemma slider_scale_zero_witness :
  (exists w1,
     call_depth Demo2.prog 4 (ChangingSetter 0 (SliderChanged (MethodRef 1 "frozen")))
       [VInt 42] Demo2.world_frozen = Raise ZeroDivisionError w1
     /\ changing_widgets w1 = changing_widgets Demo2.world_frozen
     /\ called w1 = called Demo2.world_frozen)
  /\ exists w',
       user_drag Demo2.prog 4 0%nat 42 Demo2.world_frozen = Ok tt w'
       /\ widgets w' !! 0%nat = Some (QSlider 0 100 (qBound 0 42 100))
       /\ changing_widgets w' = changing_widgets Demo2.world_frozen
       /\ called w' = called Demo2.world_frozen.
Proof.
  apply (slider_scale_zero Demo2.prog (MethodRef 1 "frozen") Demo.test None
           (VInt 0) (VInt 100) 2%nat 0%nat 42 0 100 0 Demo2.world_frozen).
  - exact frozen_class.
  - vm_compute. apply not_elem_of_nil.
  - vm_compute. reflexivity.
  - vm_compute. reflexivity.
  - vm_compute. discriminate.
Defined.

(** X17 on [Test.test]: [test(250)] on the slider bound at 0. *)
Lemma direct_call_reflects_witness :
  exists w',
    fn_call (slider (call_depth Demo.prog 6) 6 (Some Demo.get_test)
               (VInt 0) (VInt 100) (VInt 1) Demo.test)
      (im_self (MethodRef 1 "test")) [VInt 250] Worlds.world_test = Ok VNone w'
    /\ bound_slider w' (MethodRef 1 "test") (listener_list_name Demo.test) 0%nat 0 100
         (qBound 0 (250 * 1) 100)
    /\ called w' =
         called Worlds.world_test
         ++ (fn_name Demo.test, im_self (MethodRef 1 "test"), [VInt 250])
            :: (if bool_decide (qBound 0 (250 * 1) 100 = 0) then []
                else [(fn_name Demo.test, im_self (MethodRef 1 "test"),
                       [VInt (qBound 0 (250 * 1) 100 / 1)])]).
Proof.
  apply (direct_call_reflects Demo.prog (MethodRef 1 "test") Demo.test
           (Some Demo.get_test) 0 100 1 test_class ltac:(discriminate) test_plain
           0%nat 0%nat 0 100 0 250 Worlds.world_test).
  exact world_test_bound.
Defined.

(** In the example, [test(250)] runs the body twice, the second time with
    100, and the attribute ends as 100. *)
Lemma test_out_of_range :
  exists w',
    fn_call (slider (call_depth Demo.prog 6) 6 (Some Demo.get_test)
               (VInt 0) (VInt 100) (VInt 1) Demo.test)
      1%nat [VInt 250] Worlds.world_test = Ok VNone w'
    /\ called w' = called Worlds.world_test
                   ++ [("test", 1%nat, [VInt 250]); ("test", 1%nat, [VInt 100])]
    /\ attrs w' !! (1%nat, "value") = Some (VInt 100)
    /\ widgets w' !! 0%nat = Some (QSlider 0 100 100).
Proof. eexists. split; [vm_compute; reflexivity|]. repeat split; vm_compute; reflexivity. Qed.

Lemma name_class call fuel :
  classes Demo.prog call fuel (MethodRef 1 "name") =
    Some (textbox call fuel (Some Demo.get_name) Demo.name).
Proof. reflexivity. Qed.

Lemma name_plain : plain_setter Demo.name 1%nat.
Proof.
  intros x w. eexists. split; [reflexivity|].
  split; [|split; reflexivity].
  simpl. apply lookup_insert_ne. discriminate.
Qed.

Lemma world_name_bound :
  bound_textbox Demo2.world_name (MethodRef 1 "name") (listener_list_name Demo.name)
    0%nat "Matt".
Proof.
  split; [vm_compute; apply not_elem_of_nil|].
  split; [vm_compute; reflexivity|].
  split; [vm_compute; reflexivity|].
  exists 1%positive. split; vm_compute; reflexivity.
Qed.

(** X18 on [Test.name]: the user types ["Max"]; [name(7)] is called. *)
Lemma textbox_edit_cycle_witness :
  (exists w',
     user_type Demo.prog 4 0%nat "Max" Demo2.world_name = Ok tt w'
     /\ bound_textbox w' (MethodRef 1 "name") (listener_list_name Demo.name) 0%nat "Max"
     /\ called w' = called Demo2.world_name
                    ++ [(fn_name Demo.name, im_self (MethodRef 1 "name"), [VStr "Max"])])
  /\ exists w',
       fn_call (textbox (call_depth Demo.prog 4) 4 (Some Demo.get_name) Demo.name)
         (im_self (MethodRef 1 "name")) [VInt 7] Demo2.world_name = Ok VNone w'
       /\ bound_textbox w' (MethodRef 1 "name") (listener_list_name Demo.name) 0%nat
            (py_str (VInt 7))
       /\ called w' = called Demo2.world_name
                      ++ [(fn_name Demo.name, im_self (MethodRef 1 "name"), [VInt 7])].
Proof.
  apply (textbox_edit_cycle Demo.prog (MethodRef 1 "name") Demo.name
           (Some Demo.get_name) name_class name_plain
           0%nat 0%nat "Matt" "Max" (VInt 7) Demo2.world_name).
  exact world_name_bound.
Defined.

Open Scope nat_scope.

(** X11 on a run in which task 1 raises while task 2 is in the queue and
    its thread has not emitted yet. *)
Lemma dispatcher_wake_up_pending_witness :
  length (Dispatcher.q (Dispatcher.State [2] 0 1 [] [1] [1; 2]))
  <= Dispatcher.pending (Dispatcher.State [2] 0 1 [] [1] [1; 2])
     + Dispatcher.emitting (Dispatcher.State [2] 0 1 [] [1] [1; 2]).
Proof.
  apply (dispatcher_wake_up_pending
           [Dispatcher.Put 1; Dispatcher.Emit; Dispatcher.Deliver; Dispatcher.Loop;
            Dispatcher.Put 2; Dispatcher.RaiseExn]
           (Dispatcher.State [2] 0 1 [] [1] [1; 2])).
  - reflexivity.
  - reflexivity.
Defined.

Close Scope nat_scope.

(** * Binding the controls of class [Test] *)

Lemma combo_plain : plain_setter Demo.combo 1%nat.
Proof.
  intros x w. eexists. split; [reflexivity|].
  split; [|split; reflexivity].
  simpl. apply lookup_insert_ne. discriminate.
Qed.

Lemma boolval_plain : plain_setter Demo2.boolval 1%nat.
Proof.
  intros x w. eexists. split; [reflexivity|].
  split; [|split; reflexivity].
  simpl. apply lookup_insert_ne. discriminate.
Qed.

(** A getter that returns an attribute of the instance. *)
Lemma read_attr_base (base w0 : world) (attr lname : string) (v : value) :
  attrs base !! (1%nat, attr) = Some v ->
  attr <> lname ->
  (forall key, key <> (1%nat, lname) -> attrs w0 !! key = attrs base !! key) ->
  Demo.read_attr 1%nat attr w0 = Ok v w0.
Proof.
  intros Hv Hne H.
  unfold Demo.read_attr, getattr. unfold_M. cbv beta.
  unfold oid in *. rewrite (H (1%nat, attr)) by congruence.
  rewrite Hv. reflexivity.
Qed.

Lemma get_test_base w0 :
  (forall key, key <> (1%nat, listener_list_name Demo.test) ->
               attrs w0 !! key = attrs Demo.world0 !! key) ->
  exists w0', Demo.get_test 1%nat w0 = Ok (VInt 0) w0'
              /\ keeps 1%nat (listener_list_name Demo.test) w0 w0'.
Proof.
  intros H. eexists. split.
  - unfold Demo.get_test.
    assert (Hr : Demo.read_attr 1%nat "value" w0 = Ok (VInt 0) w0).
    { apply (read_attr_base Demo.world0 w0 "value" (listener_list_name Demo.test));
        [reflexivity|vm_compute; discriminate|exact H]. }
    rewrite (bind_ok _ _ _ _ _ Hr). reflexivity.
  - repeat split.
Qed.

Lemma get_combo_base w0 :
  (forall key, key <> (1%nat, listener_list_name Demo.combo) ->
               attrs w0 !! key = attrs Demo.world0 !! key) ->
  exists w0', Demo.get_combo 1%nat w0 = Ok (VStr "Maybe") w0'
              /\ keeps 1%nat (listener_list_name Demo.combo) w0 w0'.
Proof.
  intros H. eexists. split.
  - unfold Demo.get_combo, print. rewrite bind_modify.
    apply (read_attr_base Demo.world0 _ "optionval" (listener_list_name Demo.combo));
      [reflexivity|vm_compute; discriminate|exact H].
  - repeat split.
Qed.

Lemma get_name_base w0 :
  (forall key, key <> (1%nat, listener_list_name Demo.name) ->
               attrs w0 !! key = attrs Demo.world0 !! key) ->
  exists w0', Demo.get_name 1%nat w0 = Ok (VStr "Matt") w0'
              /\ keeps 1%nat (listener_list_name Demo.name) w0 w0'.
Proof.
  intros H. exists w0. split.
  - apply (read_attr_base Demo.world0 _ "textval" (listener_list_name Demo.name));
      [reflexivity|vm_compute; discriminate|exact H].
  - repeat split.
Qed.

Lemma get_bool_base w0 :
  (forall key, key <> (1%nat, listener_list_name Demo2.boolval) ->
               attrs w0 !! key = attrs Demo2.world0 !! key) ->
  exists w0', Demo2.get_bool 1%nat w0 = Ok (VBool true) w0'
              /\ keeps 1%nat (listener_list_name Demo2.boolval) w0 w0'.
Proof.
  intros H. exists w0. split.
  - apply (read_attr_base Demo2.world0 _ "bval" (listener_list_name Demo2.boolval));
      [reflexivity|vm_compute; discriminate|exact H].
  - repeat split.
Qed.

Lemma no_slots (w : world) :
  slots w = ∅ -> forall i, is_Some (slots w !! i) -> is_Some (widgets w !! i).
Proof. intros H i [x Hx]. rewrite H, lookup_empty in Hx. discriminate. Qed.

(** C7 on class [Test], one method of each kind, each bound on the
    instance as [__init__] leaves it: the slider of [test] (range 0 to 100,
    scale 1, [value = 0]) displays 0, the combobox of [combo] its third
    option, ["Maybe"], the text box of [name] the text ["Matt"], and the
    checkbox of [boolval] is checked. *)
Lemma binding_initialises_control_witness :
  (exists w',
     get_widgets_for_method (call_depth Demo.prog 6)
       (classes Demo.prog (call_depth Demo.prog 6) 6) (MethodRef 1 "test") Demo.world0
     = Ok [(fn_name Demo.test, fresh (dom (widgets Demo.world0)))] w'
     /\ bound w' (MethodRef 1 "test") (listener_list_name Demo.test)
          (fresh (dom (widgets Demo.world0))) (QSlider 0 100 0)
          (slot_of (KSlider 0 100 1) (MethodRef 1 "test"))
          (reflect_of (KSlider 0 100 1) (MethodRef 1 "test")
             (fresh (dom (widgets Demo.world0)))))
  /\ (exists w',
     get_widgets_for_method (call_depth Demo.prog 6)
       (classes Demo.prog (call_depth Demo.prog 6) 6) (MethodRef 1 "combo") Demo.world0
     = Ok [(fn_name Demo.combo, fresh (dom (widgets Demo.world0)))] w'
     /\ bound w' (MethodRef 1 "combo") (listener_list_name Demo.combo)
          (fresh (dom (widgets Demo.world0))) (QComboBox ["Yes"; "No"; "Maybe"] 2)
          (slot_of (KCombobox [VStr "Yes"; VStr "No"; VStr "Maybe"]) (MethodRef 1 "combo"))
          (reflect_of (KCombobox [VStr "Yes"; VStr "No"; VStr "Maybe"])
             (MethodRef 1 "combo") (fresh (dom (widgets Demo.world0)))))
  /\ (exists w',
     get_widgets_for_method (call_depth Demo.prog 6)
       (classes Demo.prog (call_depth Demo.prog 6) 6) (MethodRef 1 "name") Demo.world0
     = Ok [(fn_name Demo.name, fresh (dom (widgets Demo.world0)))] w'
     /\ bound w' (MethodRef 1 "name") (listener_list_name Demo.name)
          (fresh (dom (widgets Demo.world0))) (QLineEdit "Matt")
          (slot_of KTextbox (MethodRef 1 "name"))
          (reflect_of KTextbox (MethodRef 1 "name") (fresh (dom (widgets Demo.world0)))))
  /\ (exists w',
     get_widgets_for_method (call_depth Demo2.prog 6)
       (classes Demo2.prog (call_depth Demo2.prog 6) 6) (MethodRef 1 "boolval")
       Demo2.world0
     = Ok [(fn_name Demo2.boolval, fresh (dom (widgets Demo2.world0)))] w'
     /\ bound w' (MethodRef 1 "boolval") (listener_list_name Demo2.boolval)
          (fresh (dom (widgets Demo2.world0))) (QCheckBox Checked)
          (slot_of KCheckbox (MethodRef 1 "boolval"))
          (reflect_of KCheckbox (MethodRef 1 "boolval")
             (fresh (dom (widgets Demo2.world0))))).
Proof.
  split; [|split; [|split]].
  - apply (binding_initialises_control Demo.prog (MethodRef 1 "test") Demo.test
             Demo.get_test (KSlider 0 100 1) (VInt 0) (QSlider 0 100 0) 0%nat Demo.world0).
    + intros call fuel. reflexivity.
    + exact test_plain.
    + reflexivity.
    + split; [lia|discriminate].
    + reflexivity.
    + reflexivity.
    + apply no_slots. reflexivity.
    + vm_compute. exact I.
    + vm_compute. reflexivity.
    + exact get_test_base.
  - apply (binding_initialises_control Demo.prog (MethodRef 1 "combo") Demo.combo
             Demo.get_combo (KCombobox [VStr "Yes"; VStr "No"; VStr "Maybe"])
             (VStr "Maybe") (QComboBox ["Yes"; "No"; "Maybe"] 2) 0%nat Demo.world0).
    + intros call fuel. reflexivity.
    + exact combo_plain.
    + reflexivity.
    + exact I.
    + vm_compute. reflexivity.
    + reflexivity.
    + apply no_slots. reflexivity.
    + vm_compute. exact I.
    + vm_compute. reflexivity.
    + exact get_combo_base.
  - apply (binding_initialises_control Demo.prog (MethodRef 1 "name") Demo.name
             Demo.get_name KTextbox (VStr "Matt") (QLineEdit "Matt") 0%nat Demo.world0).
    + intros call fuel. reflexivity.
    + exact name_plain.
    + reflexivity.
    + exact I.
    + reflexivity.
    + reflexivity.
    + apply no_slots. reflexivity.
    + vm_compute. exact I.
    + vm_compute. reflexivity.
    + exact get_name_base.
  - apply (binding_initialises_control Demo2.prog (MethodRef 1 "boolval") Demo2.boolval
             Demo2.get_bool KCheckbox (VBool true) (QCheckBox Checked) 0%nat Demo2.world0).
    + intros call fuel. reflexivity.
    + exact boolval_plain.
    + reflexivity.
    + exact I.
    + reflexivity.
    + reflexivity.
    + apply no_slots. reflexivity.
    + vm_compute. exact I.
    + vm_compute. reflexivity.
    + exact get_bool_base.
Defined.

(** In these examples, binding the combobox and the checkbox has called
    the setter: the control's state changed, and its signal was wired. *)
Lemma binding_calls_setter :
  called (Demo.after (get_widgets_for_method (call_depth Demo.prog 6)
            (classes Demo.prog (call_depth Demo.prog 6) 6) (MethodRef 1 "combo")
            Demo.world0)) = [("combo", 1%nat, [VStr "Maybe"])]
  /\ called (Demo.after (get_widgets_for_method (call_depth Demo2.prog 6)
            (classes Demo2.prog (call_depth Demo2.prog 6) 6) (MethodRef 1 "boolval")
            Demo2.world0)) = [("boolval", 1%nat, [VBool true])]
  /\ called (Demo.after (get_widgets_for_method (call_depth Demo.prog 6)
            (classes Demo.prog (call_depth Demo.prog 6) 6) (MethodRef 1 "name")
            Demo.world0)) = [].
Proof. repeat split; vm_compute; reflexivity. Qed.
